(** * Shop-ai: the retrieval-augmented recommendation pipeline

    A shallow embedding of
    - [GeminiRagPipeline] (services/rag-pipeline.service.ts): [indexProducts],
      [retrieveRelevantProducts], [generateRecommendations];
    - [MultilingualGeminiService.translateToIndianLanguage]
      (services/multilingual.service.ts).

    Modelling conventions.
    - A JavaScript [number] is a double, held as the rational ([Q]) it is.
      Comparison of doubles is exact.  Division, the one arithmetic operation
      of the pipeline (the price per rating behind [bestValue]), rounds as
      IEEE 754 binary64 does: the quotient is taken to the nearest double,
      ties to even ([round64], [divide]); a quotient beyond the largest
      double is [infinity64], which stands for [Infinity] and compares above
      every double.  A rational that is not a double is read by [divide] as
      the double nearest to it, the way a decimal literal is.  NaN and
      infinite inputs are outside the model.  Truthiness of a number
      ([x || y]) is "not equal to zero".
    - A JavaScript string is a [string] of 8-bit characters; [toLowerCase]
      acts on the letters A-Z.
    - [Map<string, Product[]>] iterates in insertion order, so the product
      database is an association list; the translation cache is only looked
      up and updated by key, so it is a [gmap].
    - Calls to [GeminiService] (and [new Date()]) are the external effects.
      An asynchronous method is a finite tree of such calls ([prog]); a
      collaborator is an oracle with a state of its own that answers each
      call, either with a value or with a thrown exception.
    - [GeminiService] (services/gemini.service.ts) is the collaborator: its
      four methods are the calls.  [extractQueryEntities] re-throws what
      [JSON.parse] throws, so an unparseable model response reaches the
      pipeline as a thrown call; a parsed response is an object with the
      fields the prompt asks for, each of them possibly absent.
    - The pipeline reads its database once per request, after the
      extraction; requests are run one at a time.
    - Logger calls do not influence data flow and are left out. *)

From Stdlib Require Import QArith Lia Ascii.
From stdpp Require Import gmap strings list sorting.

Local Open Scope Q_scope.

(** ** Numbers *)

(** [Boolean(x)] for a number. *)
Definition truthy (x : Q) : bool := negb (Qeq_bool x 0).

(** [a || b] on numbers. *)
Definition num_or (a b : Q) : Q := if truthy a then a else b.

(** [a?.f || b]: an absent operand is [undefined], which is falsy. *)
Definition opt_num_or (a : option Q) (b : Q) : Q :=
  match a with
  | Some x => num_or x b
  | None => b
  end.

(** [x > y] and [x <= y] on numbers. *)
Definition Qgtb (x y : Q) : bool := negb (Qle_bool x y).
Definition Qleb (x y : Q) : bool := Qle_bool x y.

(** *** Rounding to binary64

    A double is [m * 2^k] with [|m| < 2^53] and [-1074 <= k <= 971]. *)

(** [num / den] rounded to the nearest integer, a tie going to the even
    one; [0 <= num] and [0 < den]. *)
Definition roundHalfEven (num den : Z) : Z :=
  let m := (num / den)%Z in
  match (2 * (num mod den) ?= den)%Z with
  | Lt => m
  | Gt => (m + 1)%Z
  | Eq => if Z.even m then m else (m + 1)%Z
  end.

(** The fraction [(n / d) / 2^k], as a numerator and a denominator. *)
Definition scaled (n d k : Z) : Z * Z :=
  if (0 <=? k)%Z then (n, (d * 2 ^ k)%Z) else ((n * 2 ^ (- k))%Z, d).

(** The [e] with [2^e <= n / d < 2^(e+1)]; [0 < n] and [0 < d]. *)
Definition binade (n d : Z) : Z :=
  let e := (Z.log2 n - Z.log2 d)%Z in
  let '(n', d') := scaled n d e in
  if (n' <? d')%Z then (e - 1)%Z else e.

Definition pow2 (k : Z) : Q :=
  if (0 <=? k)%Z then inject_Z (2 ^ k) else 1 # Z.to_pos (2 ^ (- k)).

(** What stands for [Infinity]: the least power of two above every
    double. *)
Definition infinity64 : Q := pow2 1024.

(** The double nearest to [n / d], for [0 < n] and [0 < d]: 53 significant
    bits in the normal range, multiples of [2^-1074] below it. *)
Definition round64_pos (n d : Z) : Q :=
  let e := binade n d in
  if (1024 <=? e)%Z then infinity64
  else
    let k := Z.max (e - 52) (-1074) in
    let '(n', d') := scaled n d k in
    inject_Z (roundHalfEven n' d') * pow2 k.

(** The double nearest to a rational, ties to even. *)
Definition round64 (x : Q) : Q :=
  match Qnum x with
  | Z0 => 0
  | Zpos n => round64_pos (Zpos n) (Zpos (Qden x))
  | Zneg n => - round64_pos (Zpos n) (Zpos (Qden x))
  end.

(** [x / y] on numbers, for a divisor that is not zero. *)
Definition divide (x y : Q) : Q := round64 (round64 x / round64 y).

(** ** Strings *)

Module JsString.

Definition lowerChar (c : ascii) : ascii :=
  let n := Ascii.nat_of_ascii c in
  if ((65 <=? n) && (n <=? 90))%nat then Ascii.ascii_of_nat (n + 32) else c.

(** [s.toLowerCase()] *)
Fixpoint toLowerCase (s : string) : string :=
  match s with
  | EmptyString => EmptyString
  | String c s' => String (lowerChar c) (toLowerCase s')
  end.

(** [s.startsWith(sub)] *)
Fixpoint startsWith (s sub : string) {struct sub} : bool :=
  match sub, s with
  | EmptyString, _ => true
  | String _ _, EmptyString => false
  | String b sub', String a s' => Ascii.eqb a b && startsWith s' sub'
  end.

(** [s.includes(sub)]: [sub] occurs in [s] at some position. *)
Fixpoint includes (s sub : string) : bool :=
  startsWith s sub ||
  match s with
  | EmptyString => false
  | String _ s' => includes s' sub
  end.

(** What [includes] decides. *)
Definition is_substring (sub s : string) : Prop :=
  exists pre post, s = pre +:+ sub +:+ post.

End JsString.
Import JsString.

(** ** Data model (rag-pipeline.service.ts, gemini.service.ts) *)

Record Product := {
  id : string;
  name : string;
  price : Q;
  platform : string;
  rating : Q;
  reviews : string;
  description : option string;
  url : option string;
  thumbnail : option string;
  inStock : option bool
}.

Record Budget := { min : Q; max : Q }.

Record SearchQuery := {
  text : string;
  budget : option Budget;
  brands : option (list string);
  categories : option (list string);
  language : option string
}.

(** The object [extractQueryEntities] returns: the fields its prompt asks
    for, each of them possibly absent. *)
Record EntityBudget := { emin : option Q; emax : option Q }.

Record Entities := {
  productType : option string;
  ebudget : option EntityBudget;
  ebrands : option (list string);
  features : option (list string);
  priority : option string;
  elanguage : option string;
  sentiment : option string
}.

(** [{}]: an intent without any field. *)
Definition emptyEntities : Entities :=
  {| productType := None; ebudget := None; ebrands := None; features := None;
     priority := None; elanguage := None; sentiment := None |}.

Record UserPreferences := {
  pbudget : option Q;
  pbrands : option (list string);
  pcategories : option (list string);
  planguage : option string
}.

Record RAGContext := {
  productData : option (list Product);
  userPreferences : option UserPreferences
}.

Record RAGRecommendation := {
  products : list Product;
  analysis : string;
  reasoning : string;
  alternatives : option (list Product);
  bestValue : Product;
  topRated : Product
}.

(** multilingual.service.ts *)
Inductive IndianLanguage :=
  hindi | tamil | telugu | kannada | marathi | gujarati.

Inductive ExtendedIndianLanguage :=
  | native (l : IndianLanguage)
  | bengali
  | punjabi.

Definition languageCode (l : IndianLanguage) : string :=
  match l with
  | hindi => "hindi" | tamil => "tamil" | telugu => "telugu"
  | kannada => "kannada" | marathi => "marathi" | gujarati => "gujarati"
  end.

Definition extendedCode (l : ExtendedIndianLanguage) : string :=
  match l with
  | native l => languageCode l
  | bengali => "bengali"
  | punjabi => "punjabi"
  end.

Record LocalizedContent := {
  lc_language : ExtendedIndianLanguage;
  originalText : string;
  translatedText : string;
  translatedAt : Z
}.

(** ** Effects *)

(** A thrown [Error]. *)
Inductive exn := JsError (message : string).

(** How a call ends. *)
Inductive outcome (A : Type) :=
  | Returned (a : A)
  | Thrown (e : exn).
Arguments Returned {A} a.
Arguments Thrown {A} e.

(** The calls that leave the two services, indexed by what they answer. *)
Inductive ExtCall : Type -> Type :=
  | ExtractQueryEntities (userQuery : string) : ExtCall (outcome Entities)
  | GenerateRecommendations (query : string) (context : RAGContext) :
      ExtCall (outcome string)
  | CompareProducts (ps : list Product) (userQuery : string) :
      ExtCall (outcome string)
  | TranslateForIndianLanguage (t : string) (targetLanguage : IndianLanguage) :
      ExtCall (outcome string)
  | NewDate : ExtCall Z.

(** An asynchronous computation: it returns, throws, or makes a call and
    goes on with the answer. *)
Inductive prog (R : Type) : Type :=
  | Ret (r : R)
  | Throw (e : exn)
  | Call {X : Type} (c : ExtCall X) (k : X -> prog R).
Arguments Ret {R} r.
Arguments Throw {R} e.
Arguments Call {R X} c k.

Fixpoint prog_bind {A B : Type} (f : A -> prog B) (m : prog A) : prog B :=
  match m with
  | Ret a => f a
  | Throw e => Throw e
  | Call c k => Call c (fun x => prog_bind f (k x))
  end.

#[global] Instance prog_mret : MRet prog := @Ret.
#[global] Instance prog_mbind : MBind prog := @prog_bind.

(** [try { m } catch (error) { h error }] *)
Fixpoint try_catch {A : Type} (m : prog A) (h : exn -> prog A) : prog A :=
  match m with
  | Ret a => Ret a
  | Throw e => h e
  | Call c k => Call c (fun x => try_catch (k x) h)
  end.

(** [await service.method(...)]: a rejected promise is re-thrown here. *)
Definition await {A : Type} (c : ExtCall (outcome A)) : prog A :=
  Call c (fun o => match o with
                   | Returned a => Ret a
                   | Thrown e => Throw e
                   end).

(** One call made, as an observer of the service boundary sees it. *)
Inductive invocation :=
  | Invoke {X : Type} (c : ExtCall X).

Definition is_extract (i : invocation) : bool :=
  match i with
  | Invoke c => match c with ExtractQueryEntities _ => true | _ => false end
  end.

Definition is_generate (i : invocation) : bool :=
  match i with
  | Invoke c => match c with GenerateRecommendations _ _ => true | _ => false end
  end.

Definition is_compare (i : invocation) : bool :=
  match i with
  | Invoke c => match c with CompareProducts _ _ => true | _ => false end
  end.

(** A collaborator: a state [W] and an answer to every call. *)
Definition oracle (W : Type) : Type := forall X : Type, ExtCall X -> W -> X * W.

(** Running a computation against a collaborator: how it ends, the calls
    made in order, and the collaborator's state afterwards. *)
Fixpoint run {W R : Type} (ans : oracle W) (p : prog R) (w : W)
  : outcome R * list invocation * W :=
  match p with
  | Ret r => (Returned r, [], w)
  | Throw e => (Thrown e, [], w)
  | Call c k =>
      let '(x, w1) := ans _ c w in
      let '(o, tr, w2) := run ans (k x) w1 in
      (o, Invoke c :: tr, w2)
  end.

(** ** Array helpers *)

(** [l.slice(start, end)] for indices within [0 .. end]. *)
Definition slice {A : Type} (start stop : nat) (l : list A) : list A :=
  take (stop - start) (drop start l).

(** [l.reduce(f)] without an initial value: the first element seeds the
    accumulator; there is no result on an empty array. *)
Definition reduce {A : Type} (f : A -> A -> A) (l : list A) : option A :=
  match l with
  | [] => None
  | x :: l' => Some (fold_left f l' x)
  end.

(** On an empty array [reduce] throws a [TypeError]. *)
Definition reduced {A : Type} (o : option A) : prog A :=
  match o with
  | Some a => Ret a
  | None => Throw (JsError "Reduce of empty array with no initial value")
  end.

(** [l.sort((a, b) => b.rating - a.rating)]: the sort is stable, so the
    result is the list in descending order of rating in which products of
    equal rating keep their order.  Insertion from the right computes it. *)
Fixpoint insertByRating (x : Product) (l : list Product) : list Product :=
  match l with
  | [] => [x]
  | y :: l' =>
      if Qgtb (rating y) (rating x) then y :: insertByRating x l' else x :: l
  end.

Definition sortByRating (l : list Product) : list Product :=
  foldr insertByRating [] l.

(** ** GeminiRagPipeline *)

(** [productDatabase: Map<string, Product[]>], in insertion order. *)
Definition ProductDatabase : Type := list (string * list Product).

(** [Map.prototype.set]: an existing key keeps its position. *)
Fixpoint map_set (category : string) (ps : list Product) (db : ProductDatabase)
  : ProductDatabase :=
  match db with
  | [] => [(category, ps)]
  | (c, old) :: db' =>
      if String.eqb c category then (c, ps) :: db'
      else (c, old) :: map_set category ps db'
  end.

Definition indexProducts (ps : list Product) (category : string)
  (db : ProductDatabase) : ProductDatabase :=
  map_set category ps db.

(** Lines 80-83: the test that guards a category. *)
Definition categoryMatches (productType category : string) : bool :=
  includes (toLowerCase category) (toLowerCase productType)
  || includes (toLowerCase productType) (toLowerCase category).

(** Truthiness of an optional object: [undefined] is falsy, an object is
    truthy. *)
Definition present {A : Type} (o : option A) : bool :=
  match o with Some _ => true | None => false end.

(** [a || b] where either operand may be [undefined]. *)
Definition js_or (a b : option Q) : option Q :=
  match a with
  | Some x => if truthy x then Some x else b
  | None => b
  end.

(** Line 88: [query.budget?.max || entities.budget?.max || 0]. *)
Definition maxBudget (query : SearchQuery) (entities : Entities) : Q :=
  opt_num_or (js_or (max <$> budget query) (ebudget entities ≫= emax)) 0.

(** Lines 85-92. *)
Definition budgetFilter (query : SearchQuery) (entities : Entities)
  (ps : list Product) : list Product :=
  if present (budget query) || present (ebudget entities) then
    let maxBudget := maxBudget query entities in
    if Qgtb maxBudget 0
    then List.filter (fun p => Qleb (price p) maxBudget) ps
    else ps
  else ps.

(** Lines 95-101. *)
Definition brandFilter (query : SearchQuery) (ps : list Product) : list Product :=
  match brands query with
  | Some bs =>
      if (0 <? length bs)%nat then
        List.filter
          (fun p => existsb
                      (fun b => includes (toLowerCase (name p)) (toLowerCase b))
                      bs)
          ps
      else ps
  | None => ps
  end.

(** Lines 75-105: the loop over the entries of the database. *)
Definition collectRelevant (db : ProductDatabase) (query : SearchQuery)
  (entities : Entities) : list Product :=
  let productType := default "" (productType entities) in
  fold_left
    (fun relevantProducts '(category, ps) =>
       if categoryMatches productType category
       then relevantProducts ++ brandFilter query (budgetFilter query entities ps)
       else relevantProducts)
    db [].

(** Lines 75-113, once the entities are there. *)
Definition selectRelevant (db : ProductDatabase) (query : SearchQuery)
  (entities : Entities) : list Product :=
  slice 0 10 (sortByRating (collectRelevant db query entities)).

Definition retrieveRelevantProducts (db : ProductDatabase) (query : SearchQuery)
  : prog (list Product) :=
  try_catch
    (entities ← await (ExtractQueryEntities (text query));
     mret (selectRelevant db query entities))
    (fun _ => mret []).

Definition noProductsMessage : string :=
  "No products found matching your criteria. Please try a different search.".

(** [x || 1] on a rating. *)
Definition effectiveRating (p : Product) : Q := num_or (rating p) 1.

(** [p.price / (p.rating || 1)] *)
Definition valueRatio (p : Product) : Q := divide (price p) (effectiveRating p).

(** Lines 163-167. *)
Definition selectBestValue (l : list Product) : option Product :=
  reduce
    (fun prev current =>
       if Qgtb (valueRatio prev) (valueRatio current) then current else prev)
    l.

(** Lines 169-171. *)
Definition selectTopRated (l : list Product) : option Product :=
  reduce
    (fun prev current =>
       if Qgtb (rating prev) (rating current) then prev else current)
    l.

Definition generateRecommendations (db : ProductDatabase) (query : SearchQuery)
  : prog RAGRecommendation :=
  try_catch
    (relevantProducts ← retrieveRelevantProducts db query;
     if (length relevantProducts =? 0)%nat then Throw (JsError noProductsMessage)
     else
       let ragContext :=
         {| productData := Some relevantProducts;
            userPreferences :=
              Some {| pbudget := max <$> budget query;
                      pbrands := brands query;
                      pcategories := categories query;
                      planguage := language query |} |} in
       analysis ← await (GenerateRecommendations (text query) ragContext);
       let topProducts := slice 0 5 relevantProducts in
       comparison ← await (CompareProducts topProducts (text query));
       bestValue ← reduced (selectBestValue relevantProducts);
       topRated ← reduced (selectTopRated relevantProducts);
       mret {| products := topProducts;
               analysis := analysis;
               reasoning := comparison;
               alternatives := Some (slice 5 10 relevantProducts);
               bestValue := bestValue;
               topRated := topRated |})
    (fun error => Throw error).

(** ** MultilingualGeminiService *)

Definition fallbackMarker : string := "[Fallback via Hindi] ".

Definition cacheKey (text : string) (language : ExtendedIndianLanguage) : string :=
  text +:+ ":" +:+ extendedCode language.

(** Lines 125-153: the path taken when the cache does not answer. *)
Definition translateUncached (text : string) (language : ExtendedIndianLanguage)
  (cache : gmap string LocalizedContent)
  : prog (string * gmap string LocalizedContent) :=
  translatedText ←
    match language with
    | bengali | punjabi =>
        let fallbackLanguage := hindi in
        t ← await (TranslateForIndianLanguage text fallbackLanguage);
        mret (fallbackMarker +:+ t)
    | native l => await (TranslateForIndianLanguage text l)
    end;
  now ← Call NewDate Ret;
  let localizedContent :=
    {| lc_language := language; originalText := text;
       translatedText := translatedText; translatedAt := now |} in
  mret (translatedText, <[cacheKey text language := localizedContent]> cache).

(** The cache is written only after the last call, so a thrown outcome
    leaves it as it was; a returned outcome carries the cache after it. *)
Definition translateToIndianLanguage (text : string)
  (language : ExtendedIndianLanguage) (useCache : bool)
  (cache : gmap string LocalizedContent)
  : prog (string * gmap string LocalizedContent) :=
  try_catch
    (match cache !! cacheKey text language with
     | Some hit =>
         if useCache then mret (translatedText hit, cache)
         else translateUncached text language cache
     | None => translateUncached text language cache
     end)
    (fun error => Throw error).

(** ** A scripted collaborator

    A stateless stand-in for the services, fixed by the answer it gives to
    each kind of call; the examples below run the pipeline against it. *)
Definition scripted (entities : outcome Entities)
  (analysisText comparisonText : outcome string)
  (translation : string -> IndianLanguage -> outcome string)
  : oracle unit :=
  fun X c w =>
    match c in ExtCall X return X * unit with
    | ExtractQueryEntities _ => (entities, w)
    | GenerateRecommendations _ _ => (analysisText, w)
    | CompareProducts _ _ => (comparisonText, w)
    | TranslateForIndianLanguage t l => (translation t l, w)
    | NewDate => (0%Z, w)
    end.

Definition mkProduct (i n : string) (p r : Q) : Product :=
  {| id := i; name := n; price := p; platform := "shop"; rating := r;
     reviews := ""; description := None; url := None; thumbnail := None;
     inStock := None |}.

Definition mkQuery (t : string) (b : option Budget) (bs : option (list string))
  : SearchQuery :=
  {| text := t; budget := b; brands := bs; categories := None;
     language := None |}.

Definition mkEntities (pt : option string) (b : option EntityBudget) : Entities :=
  {| productType := pt; ebudget := b; ebrands := None; features := None;
     priority := None; elanguage := None; sentiment := None |}.

(** ** Example data *)

(** The end-to-end scenario: three laptops, a budget of 60000. *)
Definition laptop1 : Product := mkProduct "l1" "Dell Inspiron" 40000 4.
Definition laptop2 : Product := mkProduct "l2" "HP Pavilion" 55000 (48 # 10).
Definition laptop3 : Product := mkProduct "l3" "Asus Vivobook" 70000 3.

Definition laptopDb : ProductDatabase :=
  indexProducts [laptop1; laptop2; laptop3] "laptops" [].

Definition laptopQuery : SearchQuery :=
  mkQuery "a laptop under 60000" (Some {| min := 0; max := 60000 |}) None.

Definition laptopEntities : Entities := mkEntities (Some "laptops") None.

Definition laptopService : oracle unit :=
  scripted (Returned laptopEntities) (Returned "analysis") (Returned "comparison")
    (fun t _ => Returned t).

(** Two phones with the same rating. *)
Definition phoneA : Product := mkProduct "a" "Pixel" 50000 (9 # 2).
Definition phoneB : Product := mkProduct "b" "Galaxy" 60000 (9 # 2).

Definition phoneDb : ProductDatabase := indexProducts [phoneA; phoneB] "phones" [].

Definition phoneQuery : SearchQuery := mkQuery "a phone" None None.

Definition phoneService : oracle unit :=
  scripted (Returned (mkEntities (Some "phones") None)) (Returned "analysis")
    (Returned "comparison") (fun t _ => Returned t).

Definition unrated : Product := mkProduct "u" "Unrated laptop" 30000 0.

(** Two chargers whose quotients round to the same double: 50 / 5 is 10,
    and 49 by the double nearest to 4.9 (which is a little above 4.9) is a
    little below 10, less than half a unit in the last place away. *)
Definition chargerA : Product := mkProduct "ca" "Charger A" 50 5.
Definition chargerB : Product :=
  mkProduct "cb" "Charger B" 49 (2758454771764429 # 562949953421312).

Definition chargerDb : ProductDatabase :=
  indexProducts [chargerA; chargerB] "chargers" [].

Definition chargerQuery : SearchQuery := mkQuery "a charger" None None.

Definition chargerService : oracle unit :=
  scripted (Returned (mkEntities (Some "chargers") None)) (Returned "analysis")
    (Returned "comparison") (fun t _ => Returned t).

(** Two adapters: 150 / 5 is 30, and 147 / 4.9 computes to
    29.999999999999996. *)
Definition adapterA : Product := mkProduct "aa" "Adapter A" 150 5.
Definition adapterB : Product := mkProduct "ab" "Adapter B" 147 (49 # 10).

(** A query whose budget has a maximum of 0. *)
Definition zeroBudgetQuery : SearchQuery :=
  mkQuery "a laptop" (Some {| min := 0; max := 0 |}) None.

(** A service whose entity extraction throws. *)
Definition failingExtraction : oracle unit :=
  scripted (Thrown (JsError "Unexpected token < in JSON at position 0"))
    (Returned "analysis") (Returned "comparison") (fun t _ => Returned t).

(** What the laptop scenario returns. *)
Definition laptopRecommendation : RAGRecommendation :=
  {| products := [laptop2; laptop1];
     analysis := "analysis";
     reasoning := "comparison";
     alternatives := Some [];
     bestValue := laptop1;
     topRated := laptop2 |}.

(** Six tablets; the cheapest is also the lowest rated. *)
Definition tablets : list Product :=
  [ mkProduct "t1" "Tab One" 30000 5;
    mkProduct "t2" "Tab Two" 30000 (49 # 10);
    mkProduct "t3" "Tab Three" 30000 (48 # 10);
    mkProduct "t4" "Tab Four" 30000 (47 # 10);
    mkProduct "t5" "Tab Five" 30000 (46 # 10);
    mkProduct "t6" "Tab Six" 100 1 ].

Definition tabletService : oracle unit :=
  scripted (Returned (mkEntities (Some "tablets") None)) (Returned "analysis")
    (Returned "comparison") (fun t _ => Returned t).

(** A translation service that answers with the text in angle brackets. *)
Definition bracketService : oracle unit :=
  scripted (Returned emptyEntities) (Returned "analysis") (Returned "comparison")
    (fun t _ => Returned ("<" +:+ t +:+ ">")).

(** The cache after "Best phone" was translated to Bengali by
    [bracketService]. *)
Definition bengaliCache : gmap string LocalizedContent :=
  <[cacheKey "Best phone" bengali :=
      {| lc_language := bengali; originalText := "Best phone";
         translatedText := "[Fallback via Hindi] <Best phone>";
         translatedAt := 0 |}]> ∅.

(** ** Specification vocabulary *)

(** In descending order of rating. *)
Definition descending : list Product -> Prop :=
  Sorted (fun a b => rating b <= rating a).

(** [p] occurs in [l], every product before it is rated strictly lower and
    no product after it is rated higher: the leftmost of the top rated. *)
Definition first_top_rated (l : list Product) (p : Product) : Prop :=
  exists l1 l2, l = l1 ++ p :: l2 /\
    Forall (fun x => rating x < rating p) l1 /\
    Forall (fun x => rating x <= rating p) l2.

(** The rightmost of the top rated. *)
Definition last_top_rated (l : list Product) (p : Product) : Prop :=
  exists l1 l2, l = l1 ++ p :: l2 /\
    Forall (fun x => rating x <= rating p) l1 /\
    Forall (fun x => rating x < rating p) l2.

(** The effective rating as the specification words it: the rating if it
    is greater than 0, and 1 otherwise. *)
Definition effectiveRating_spec (p : Product) : Q :=
  if Qgtb (rating p) 0 then rating p else 1.

(** The price per effective rating, as a quotient of rationals. *)
Definition valueRatio_spec (p : Product) : Q := price p / effectiveRating_spec p.

(** The leftmost of the products with the least price per effective
    rating. *)
Definition first_best_value (l : list Product) (p : Product) : Prop :=
  exists l1 l2, l = l1 ++ p :: l2 /\
    Forall (fun x => valueRatio_spec p < valueRatio_spec x) l1 /\
    Forall (fun x => valueRatio_spec p <= valueRatio_spec x) l2.

(** The price per effective rating, as a quotient of doubles: the double
    nearest to the quotient. *)
Definition computedRatio_spec (p : Product) : Q :=
  divide (price p) (effectiveRating_spec p).

(** The leftmost of the products with the least computed price per
    effective rating. *)
Definition first_best_computed (l : list Product) (p : Product) : Prop :=
  exists l1 l2, l = l1 ++ p :: l2 /\
    Forall (fun x => computedRatio_spec p < computedRatio_spec x) l1 /\
    Forall (fun x => computedRatio_spec p <= computedRatio_spec x) l2.

(** The effective maximum budget as the specification words it:
    [query.budget.max] if present, else [intent.budget.max] if present and
    greater than 0. *)
Definition effectiveBudget_spec (query : SearchQuery) (entities : Entities)
  : option Q :=
  match budget query with
  | Some b => Some (max b)
  | None =>
      match ebudget entities ≫= emax with
      | Some m => if Qgtb m 0 then Some m else None
      | None => None
      end
  end.

(** The maximum the code resolves: the first of [query.budget.max] and
    [intent.budget.max] that is present and not zero. *)
Definition resolvedBudget (query : SearchQuery) (entities : Entities)
  : option Q :=
  let intentMax :=
    match ebudget entities ≫= emax with
    | Some m => if truthy m then Some m else None
    | None => None
    end in
  match budget query with
  | Some b => if truthy (max b) then Some (max b) else intentMax
  | None => intentMax
  end.

(** What one category contributes to the candidates. *)
Definition contribution (query : SearchQuery) (entities : Entities)
  (entry : string * list Product) : list Product :=
  if categoryMatches (default "" (productType entities)) entry.1
  then brandFilter query (budgetFilter query entities entry.2)
  else [].

(** What a category contributes when the budget filter is left out. *)
Definition unbudgeted (query : SearchQuery) (entities : Entities)
  (entry : string * list Product) : list Product :=
  if categoryMatches (default "" (productType entities)) entry.1
  then brandFilter query entry.2
  else [].

(** The bidirectional substring rule on lower-cased names. *)
Definition related (productType category : string) : Prop :=
  is_substring (toLowerCase productType) (toLowerCase category) \/
  is_substring (toLowerCase category) (toLowerCase productType).

(** The context handed to the recommendation call (lines 139-147). *)
Definition contextFor (query : SearchQuery) (relevantProducts : list Product)
  : RAGContext :=
  {| productData := Some relevantProducts;
     userPreferences :=
       Some {| pbudget := max <$> budget query;
               pbrands := brands query;
               pcategories := categories query;
               planguage := language query |} |}.

(** What retrieval returns, given the answer to the extraction call. *)
Definition retrieved (db : ProductDatabase) (query : SearchQuery)
  (extraction : outcome Entities) : list Product :=
  match extraction with
  | Returned entities => selectRelevant db query entities
  | Thrown _ => []
  end.

(** The bounds on what a call carries: the recommendation call has all the
    candidates, the comparison call their first five. *)
Definition within_bounds (relevantProducts : list Product) (i : invocation)
  : Prop :=
  match i with
  | Invoke c =>
      match c with
      | GenerateRecommendations _ context =>
          productData context = Some relevantProducts
      | CompareProducts ps _ =>
          ps = slice 0 5 relevantProducts /\ (length ps <= 5)%nat
      | _ => True
      end
  end.

(** The languages translated through the Hindi fallback. *)
Definition isFallback (language : ExtendedIndianLanguage) : bool :=
  match language with
  | native _ => false
  | bengali | punjabi => true
  end.

(** The language the translation call is made for. *)
Definition translationTarget (language : ExtendedIndianLanguage)
  : IndianLanguage :=
  match language with
  | native l => l
  | bengali | punjabi => hindi
  end.

(** [s] is prefixed with the fallback marker. *)
Definition marked (s : string) : Prop :=
  exists rest, s = fallbackMarker +:+ rest.

(** The translation service never answers with a text that carries the
    marker itself. *)
Definition clean_translations {W : Type} (ans : oracle W) : Prop :=
  forall t l w s,
    fst (ans _ (TranslateForIndianLanguage t l) w) = Returned s -> ~ marked s.

(** The caches the service can hold: it starts empty and changes only
    through [translateToIndianLanguage]. *)
Inductive reachable_cache {W : Type} (ans : oracle W)
  : gmap string LocalizedContent -> Prop :=
  | reachable_empty : reachable_cache ans ∅
  | reachable_translate cache text language useCache w s cache' tr w' :
      reachable_cache ans cache ->
      run ans (translateToIndianLanguage text language useCache cache) w
        = (Returned (s, cache'), tr, w') ->
      reachable_cache ans cache'.

(** Every cached translation for a fallback language carries the marker,
    and for a native language it does not, if the service is clean. *)
Definition cache_inv {W : Type} (ans : oracle W)
  (cache : gmap string LocalizedContent) : Prop :=
  forall text language hit,
    cache !! cacheKey text language = Some hit ->
    if isFallback language
    then marked (translatedText hit)
    else clean_translations ans -> ~ marked (translatedText hit).

(** ** Knowledge base statistics (lines 232-251) *)

Module KnowledgeBase.

Record CategoryStats := { name : string; productCount : nat }.

Record Stats := {
  categoriesCount : nat;
  totalProducts : nat;
  categories : list CategoryStats
}.

End KnowledgeBase.

(** [productDatabase.size] is the number of entries; the loop adds up the
    lengths and pushes one record per entry. *)
Definition getKnowledgeBaseStats (db : ProductDatabase) : KnowledgeBase.Stats :=
  fold_left
    (fun stats '(category, ps) =>
       {| KnowledgeBase.categoriesCount := KnowledgeBase.categoriesCount stats;
          KnowledgeBase.totalProducts :=
            (KnowledgeBase.totalProducts stats + length ps)%nat;
          KnowledgeBase.categories :=
            KnowledgeBase.categories stats
              ++ [{| KnowledgeBase.name := category;
                     KnowledgeBase.productCount := length ps |}] |})
    db
    {| KnowledgeBase.categoriesCount := length db;
       KnowledgeBase.totalProducts := 0;
       KnowledgeBase.categories := [] |}.

(** ** Vocabulary for the database and the candidates *)

(** The category names, in the order [entries()] yields them. *)
Definition keys (db : ProductDatabase) : list string := List.map fst db.

(** [Map.prototype.has] *)
Definition map_has (category : string) (db : ProductDatabase) : bool :=
  existsb (String.eqb category) (keys db).

(** [Map.prototype.get] *)
Fixpoint map_get (category : string) (db : ProductDatabase)
  : option (list Product) :=
  match db with
  | [] => None
  | (c, ps) :: db' => if String.eqb c category then Some ps else map_get category db'
  end.

(** The database after a series of [indexProducts] calls on a new pipeline. *)
Definition indexedBy (calls : list (list Product * string)) : ProductDatabase :=
  fold_left (fun db call => indexProducts call.1 call.2 db) calls [].

(** The price passes the budget filter of lines 87-92. *)
Definition withinBudget (query : SearchQuery) (entities : Entities) (p : Product)
  : Prop :=
  match resolvedBudget query entities with
  | Some B => if Qgtb B 0 then price p <= B else True
  | None => True
  end.

(** The name passes the brand filter of lines 95-101. *)
Definition matchesBrands (query : SearchQuery) (p : Product) : Prop :=
  match brands query with
  | Some (b :: bs) =>
      exists b', In b' (b :: bs) /\
                 is_substring (toLowerCase b') (toLowerCase (name p))
  | _ => True
  end.

(** ** Vocabulary for the calls of a request *)

(** The answer to the extraction call of a request, with the state of the
    services after it. *)
Definition extractionOf {W : Type} (ans : oracle W) (query : SearchQuery) (w : W)
  : outcome Entities * W :=
  ans _ (ExtractQueryEntities (text query)) w.

(** The candidates of a request. *)
Definition candidatesOf {W : Type} (ans : oracle W) (db : ProductDatabase)
  (query : SearchQuery) (w : W) : list Product :=
  retrieved db query (fst (extractionOf ans query w)).

(** The recommendation call of a request, and the answer to it. *)
Definition generationCall {W : Type} (ans : oracle W) (db : ProductDatabase)
  (query : SearchQuery) (w : W) : ExtCall (outcome string) :=
  GenerateRecommendations (text query)
    (contextFor query (candidatesOf ans db query w)).

Definition generationOf {W : Type} (ans : oracle W) (db : ProductDatabase)
  (query : SearchQuery) (w : W) : outcome string * W :=
  ans _ (generationCall ans db query w) (snd (extractionOf ans query w)).

(** The comparison call of a request, and the answer to it. *)
Definition comparisonCall {W : Type} (ans : oracle W) (db : ProductDatabase)
  (query : SearchQuery) (w : W) : ExtCall (outcome string) :=
  CompareProducts (slice 0 5 (candidatesOf ans db query w)) (text query).

Definition comparisonOf {W : Type} (ans : oracle W) (db : ProductDatabase)
  (query : SearchQuery) (w : W) : outcome string * W :=
  ans _ (comparisonCall ans db query w) (snd (generationOf ans db query w)).

(** A service whose recommendation call throws, and one whose comparison
    call throws. *)
Definition failingGeneration : oracle unit :=
  scripted (Returned laptopEntities) (Thrown (JsError "quota exceeded"))
    (Returned "comparison") (fun t _ => Returned t).

Definition failingComparison : oracle unit :=
  scripted (Returned laptopEntities) (Returned "analysis")
    (Thrown (JsError "quota exceeded")) (fun t _ => Returned t).

(** The entry of [bengaliCache]. *)
Definition bengaliEntry : LocalizedContent :=
  {| lc_language := bengali; originalText := "Best phone";
     translatedText := "[Fallback via Hindi] <Best phone>";
     translatedAt := 0 |}.

(** ** The platform under the services

    [GeminiService] (services/gemini.service.ts), [augmentProductData] and
    the MCP server reach the Gemini SDK.  Obtaining the model and asking it
    to generate is one call, which returns the result object or throws; the
    text of a result is read off it by [text()], which may throw as well.
    Non-ASCII characters of a prompt are the bytes of their UTF-8
    encoding. *)

(** [this.client] of the service, or [global.geminiClient]. *)
Inductive GeminiClient := serviceClient | globalClient.

(** The argument of [generateContent]: a user turn with one text part, or
    an inline image followed by a text. *)
Inductive ContentRequest :=
  | PromptOnly (prompt : string)
  | ImageAndPrompt (data mimeType : option string) (prompt : string).

(** The result of [generateContent]: what [result.response.text()] gives. *)
Record GenerateContentResult := { response_text : outcome string }.

Inductive PlatformCall : Type -> Type :=
  | GetGlobalModel (modelName : string) : PlatformCall (outcome bool)
  | GenerateContent (client : GeminiClient) (modelName : string)
      (request : ContentRequest) : PlatformCall (outcome GenerateContentResult)
  | DateNow : PlatformCall Z.

(** A computation over the platform. *)
Inductive task (R : Type) : Type :=
  | Done (r : R)
  | Fail (e : exn)
  | Ask {X : Type} (c : PlatformCall X) (k : X -> task R).
Arguments Done {R} r.
Arguments Fail {R} e.
Arguments Ask {R X} c k.

Fixpoint task_bind {A B : Type} (f : A -> task B) (m : task A) : task B :=
  match m with
  | Done a => f a
  | Fail e => Fail e
  | Ask c k => Ask c (fun x => task_bind f (k x))
  end.

#[global] Instance task_mret : MRet task := @Done.
#[global] Instance task_mbind : MBind task := @task_bind.

(** [try { m } catch (error) { h error }] *)
Fixpoint attempt {A : Type} (m : task A) (h : exn -> task A) : task A :=
  match m with
  | Done a => Done a
  | Fail e => h e
  | Ask c k => Ask c (fun x => attempt (k x) h)
  end.

(** A value, or the exception thrown instead of it. *)
Definition lift {A : Type} (o : outcome A) : task A :=
  match o with
  | Returned a => Done a
  | Thrown e => Fail e
  end.

(** [await] of a call that may throw. *)
Definition perform {A : Type} (c : PlatformCall (outcome A)) : task A :=
  Ask c lift.

Inductive platform_event :=
  | Asked {X : Type} (c : PlatformCall X).

Definition sdk (W : Type) : Type :=
  forall X : Type, PlatformCall X -> W -> X * W.

Fixpoint exec {W R : Type} (plat : sdk W) (t : task R) (w : W)
  : outcome R * list platform_event * W :=
  match t with
  | Done r => (Returned r, [], w)
  | Fail e => (Thrown e, [], w)
  | Ask c k =>
      let '(x, w1) := plat _ c w in
      let '(o, tr, w2) := exec plat (k x) w1 in
      (o, Asked c :: tr, w2)
  end.

(** What the language provides and the source does not define: the text of
    a number in a template, [JSON.parse] (on the reply to the extraction
    prompt) and [JSON.stringify] (on its result), and the [TypeError]
    thrown when a property of [undefined] is read. *)
Class JsBuiltins := {
  numberToString : Q -> string;
  JSON_parse : string -> outcome Entities;
  JSON_stringify : Entities -> string;
  undefinedRead : string -> exn
}.

(** A template interpolates [undefined] as the text "undefined". *)
Definition tpl (s : option string) : string := default "undefined" s.

Definition nl : string := String "010"%char "".
Definition dq : string := String "034"%char "".

(** [l.join(sep)] *)
Fixpoint joinWith (sep : string) (l : list string) : string :=
  match l with
  | [] => ""
  | [x] => x
  | x :: l' => x +:+ sep +:+ joinWith sep l'
  end.

Definition errorMessage (e : exn) : string :=
  match e with JsError m => m end.

Record GeminiConfig := {
  apiKey : string;
  model : string;
  visionModel : string;
  temperatureDefault : option Q;
  maxTokens : option Q
}.

(** ** GeminiService (services/gemini.service.ts) *)

Module GeminiService.
Section Methods.
Context `{JsBuiltins} (config : GeminiConfig).

(** Lines 428-433: the text for one product. *)
Definition productLines (p : Product) : string :=
  joinWith nl
    [ "";
      "- " +:+ name p +:+ " (" +:+ platform p +:+ ")";
      "  Price: ₹" +:+ numberToString (price p);
      "  Rating: " +:+ numberToString (rating p) +:+ "/5 stars";
      "  Reviews Summary: " +:+ reviews p;
      "" ].

(** Lines 417-468. *)
Definition buildRAGPrompt (query : option string) (context : RAGContext)
  : string :=
  let prompt :=
    joinWith nl
      [ "You are an expert shopping assistant helping users find the best products.";
        "";
        "User Query: " +:+ tpl query;
        "";
        "" ] in
  let prompt :=
    match productData context with
    | Some (p :: ps) =>
        prompt +:+
        joinWith nl
          [ "Available Products:";
            joinWith nl (List.map productLines (p :: ps));
            "";
            "" ]
    | _ => prompt
    end in
  let prompt :=
    match userPreferences context with
    | Some preferences =>
        let prompt := prompt +:+ joinWith nl [ "User Preferences:"; "" ] in
        let prompt :=
          match pbudget preferences with
          | Some budget =>
              if truthy budget
              then prompt +:+
                   joinWith nl [ "- Budget: ₹" +:+ numberToString budget; "" ]
              else prompt
          | None => prompt
          end in
        let prompt :=
          match pbrands preferences with
          | Some (b :: bs) =>
              prompt +:+
              joinWith nl
                [ "- Preferred Brands: " +:+ joinWith ", " (b :: bs); "" ]
          | _ => prompt
          end in
        match pcategories preferences with
        | Some (c :: cs) =>
            prompt +:+
            joinWith nl
              [ "- Interested Categories: " +:+ joinWith ", " (c :: cs); "" ]
        | _ => prompt
        end
    | None => prompt
    end in
  prompt +:+
  joinWith nl
    [ "";
      "Based on the above information, provide personalized product recommendations with:";
      "1. Top 3-5 product suggestions";
      "2. Why each product matches the user's needs";
      "3. Price-to-value analysis";
      "4. Links to purchase (if available)";
      "5. Alternative options if budget changes";
      "";
      "Make the response conversational, helpful, and action-oriented." ].

(** Lines 212-236. *)
Definition generateRecommendations (query : option string)
  (context : RAGContext) : task string :=
  attempt
    (let augmentedPrompt := buildRAGPrompt query context in
     result ← perform (GenerateContent serviceClient (model config)
                         (PromptOnly augmentedPrompt));
     response ← lift (response_text result);
     mret response)
    (fun error => Fail error).

(** Lines 241-269. *)
Definition analyzeProductImage (imageBase64 mimeType : option string)
  : task string :=
  attempt
    (result ← perform
       (GenerateContent serviceClient (visionModel config)
          (ImageAndPrompt imageBase64 mimeType
             "Analyze this product image and provide: 1) Product type and category 2) Visible features 3) Quality assessment 4) Price range estimate. Be concise."));
     lift (response_text result))
    (fun error => Fail error).

(** Lines 286-292: the text for one product to compare. *)
Definition comparisonLines (p : Product) : string :=
  joinWith nl
    [ "";
      "          - Name: " +:+ name p;
      "          - Price: ₹" +:+ numberToString (price p);
      "          - Platform: " +:+ platform p;
      "          - Rating: " +:+ numberToString (rating p) +:+ "/5";
      "          - Reviews: " +:+ reviews p;
      "        " ].

(** Lines 280-303; [products?.map(...).join(...)] of an absent list is
    [undefined]. *)
Definition comparisonPrompt (products : option (list Product))
  (userQuery : option string) : string :=
  joinWith nl
    [ "";
      "        User Query: " +:+ tpl userQuery;
      "        ";
      "        Products to Compare:";
      "        " +:+ tpl ((fun ps => joinWith nl (List.map comparisonLines ps))
                            <$> products);
      "        ";
      "        Provide a detailed comparison highlighting:";
      "        1. Best value for money";
      "        2. Top-rated option";
      "        3. Budget-friendly choice";
      "        4. Overall recommendation with reasoning";
      "        ";
      "        Format: Clear, concise, and user-friendly with emojis for emphasis.";
      "      " ].

(** Lines 274-320. *)
Definition compareProducts (products : option (list Product))
  (userQuery : option string) : task string :=
  attempt
    (result ← perform (GenerateContent serviceClient (model config)
                         (PromptOnly (comparisonPrompt products userQuery)));
     lift (response_text result))
    (fun error => Fail error).

(** Lines 340-348. *)
Definition translationPrompt (text targetLanguage : option string) : string :=
  joinWith nl
    [ "";
      "        Translate the following shopping assistant text to " +:+ tpl targetLanguage +:+ ".";
      "        Keep the tone friendly and conversational.";
      "        Maintain the meaning and context for e-commerce shopping.";
      "        ";
      "        Text: " +:+ dq +:+ tpl text +:+ dq;
      "        ";
      "        Provide only the translated text without explanation.";
      "      " ].

(** Lines 325-365. *)
Definition translateForIndianLanguage (text targetLanguage : option string)
  : task string :=
  attempt
    (result ← perform (GenerateContent serviceClient (model config)
                         (PromptOnly (translationPrompt text targetLanguage)));
     lift (response_text result))
    (fun error => Fail error).

(** Lines 376-393. *)
Definition extractionPrompt (userQuery : option string) : string :=
  joinWith nl
    [ "";
      "        Extract shopping-related entities from this user query.";
      "        ";
      "        Query: " +:+ dq +:+ tpl userQuery +:+ dq;
      "        ";
      "        Return a JSON object with these fields (if found):";
      "        {";
      "          " +:+ dq +:+ "productType" +:+ dq +:+ ": string,";
      "          " +:+ dq +:+ "budget" +:+ dq +:+ ": { " +:+ dq +:+ "min" +:+ dq +:+ ": number, " +:+ dq +:+ "max" +:+ dq +:+ ": number },";
      "          " +:+ dq +:+ "brands" +:+ dq +:+ ": string[],";
      "          " +:+ dq +:+ "features" +:+ dq +:+ ": string[],";
      "          " +:+ dq +:+ "priority" +:+ dq +:+ ": string (price|quality|ratings|brand),";
      "          " +:+ dq +:+ "language" +:+ dq +:+ ": string,";
      "          " +:+ dq +:+ "sentiment" +:+ dq +:+ ": string (positive|neutral|negative)";
      "        }";
      "        ";
      "        Return ONLY valid JSON, no markdown or explanation.";
      "      " ].

(** Lines 370-412. *)
Definition extractQueryEntities (userQuery : option string) : task Entities :=
  attempt
    (result ← perform (GenerateContent serviceClient (model config)
                         (PromptOnly (extractionPrompt userQuery)));
     responseText ← lift (response_text result);
     entities ← lift (JSON_parse responseText);
     mret entities)
    (fun error => Fail error).

(** Lines 473-494: the reply is awaited and not read. *)
Definition healthCheck : task bool :=
  attempt
    (_ ← perform (GenerateContent serviceClient (model config)
                    (PromptOnly "Say 'OK' if you are ready."));
     mret true)
    (fun _ => mret false).

End Methods.
End GeminiService.

(** ** The pipeline on top of GeminiService *)

(** A method of the service run to its end: its outcome, and the calls it
    made added to the log. *)
Definition served {W A : Type} (plat : sdk W) (t : task A)
  (st : W * list platform_event) : outcome A * (W * list platform_event) :=
  let '(o, tr, w1) := exec plat t st.1 in (o, (w1, st.2 ++ tr)).

(** [GeminiService] as the collaborator of the two pipelines: each call is
    answered by running the method; the state keeps the log of the calls
    that reached the platform. *)
Definition geminiService `{JsBuiltins} {W : Type} (config : GeminiConfig)
  (plat : sdk W) : oracle (W * list platform_event) :=
  fun X c st =>
    match c in ExtCall X return X * (W * list platform_event) with
    | ExtractQueryEntities userQuery =>
        served plat (GeminiService.extractQueryEntities config (Some userQuery)) st
    | GenerateRecommendations query context =>
        served plat
          (GeminiService.generateRecommendations config (Some query) context) st
    | CompareProducts ps userQuery =>
        served plat
          (GeminiService.compareProducts config (Some ps) (Some userQuery)) st
    | TranslateForIndianLanguage t targetLanguage =>
        served plat
          (GeminiService.translateForIndianLanguage config (Some t)
             (Some (languageCode targetLanguage))) st
    | NewDate =>
        let '(z, w1) := plat _ DateNow st.1 in (z, (w1, st.2 ++ [Asked DateNow]))
    end.

(** [product.description = ...] *)
Definition withDescription (product : Product) (d : string) : Product :=
  {| id := id product; name := name product; price := price product;
     platform := platform product; rating := rating product;
     reviews := reviews product; description := Some d; url := url product;
     thumbnail := thumbnail product; inStock := inStock product |}.

(** rag-pipeline.service.ts, lines 193-227.  The product is written to
    after the last call that can throw, so the product returned from the
    [catch] block is the product as it was passed. *)
Definition augmentProductData `{JsBuiltins} (product : Product) : task Product :=
  attempt
    (let prompt :=
       joinWith nl
         [ "";
           "        Based on this product:";
           "        Name: " +:+ name product;
           "        Price: â‚¹" +:+ numberToString (price product);
           "        Rating: " +:+ numberToString (rating product) +:+ "/5";
           "        ";
           "        Provide a one-line value proposition that highlights why this product is worth buying.";
           "      " ] in
     model ← perform (GetGlobalModel "gemini-2.0-flash");
     if (model : bool) then
       result ← perform (GenerateContent globalClient "gemini-2.0-flash"
                           (PromptOnly prompt));
       d ← lift (response_text result);
       mret (withDescription product d)
     else mret product)
    (fun _ => mret product).

(** ** GeminiRagMcpServer (handlers/gemini-rag-agent/index.ts) *)

Module GeminiRagMcpServer.

(** [request.params.arguments]: the properties the tools read, each of
    them possibly absent. *)
Record ToolArguments := {
  query : option string;
  budget : option Q;
  brands : option (list string);
  categories : option (list string);
  image_base64 : option string;
  mime_type : option string;
  products : option (list Product);
  user_query : option string;
  text : option string;
  target_language : option string
}.

(** [request.params] *)
Record ToolRequest := {
  name : string;
  arguments : option ToolArguments
}.

(** The reply: the texts of its [content] items, and [isError]. *)
Record ToolResult := {
  content : list string;
  isError : bool
}.

(** [args.field]: reading a property of an absent [arguments] throws. *)
Definition read `{JsBuiltins} {A : Type} (args : option ToolArguments)
  (field : string) (get : ToolArguments -> A) : task A :=
  match args with
  | Some a => Done (get a)
  | None => Fail (undefinedRead field)
  end.

(** Lines 239-241. *)
Definition reply (result : string) : ToolResult :=
  {| content := [result]; isError := false |}.

(** Lines 187-254. *)
Definition handleToolCall `{JsBuiltins} (config : GeminiConfig)
  (request : ToolRequest) : task ToolResult :=
  let name := name request in
  let args := arguments request in
  attempt
    (if String.eqb name "generate_recommendations" then
       budget ← read args "budget" budget;
       brands ← read args "brands" brands;
       categories ← read args "categories" categories;
       let context :=
         {| productData := None;
            userPreferences :=
              Some {| pbudget := budget; pbrands := brands;
                      pcategories := categories; planguage := None |} |} in
       query ← read args "query" query;
       result ← GeminiService.generateRecommendations config query context;
       mret (reply result)
     else if String.eqb name "analyze_product_image" then
       image_base64 ← read args "image_base64" image_base64;
       mime_type ← read args "mime_type" mime_type;
       result ← GeminiService.analyzeProductImage config image_base64 mime_type;
       mret (reply result)
     else if String.eqb name "compare_products" then
       products ← read args "products" products;
       user_query ← read args "user_query" user_query;
       result ← GeminiService.compareProducts config products user_query;
       mret (reply result)
     else if String.eqb name "translate_content" then
       text ← read args "text" text;
       target_language ← read args "target_language" target_language;
       result ← GeminiService.translateForIndianLanguage config text
                  target_language;
       mret (reply result)
     else if String.eqb name "extract_entities" then
       query ← read args "query" query;
       entities ← GeminiService.extractQueryEntities config query;
       mret (reply (JSON_stringify entities))
     else if String.eqb name "health_check" then
       isHealthy ← GeminiService.healthCheck config;
       mret (reply (if (isHealthy : bool)
                    then "✅ Gemini API is healthy and ready"
                    else "❌ Gemini API health check failed"))
     else
       mret {| content := ["Unknown tool: " +:+ name]; isError := true |})
    (fun error =>
       mret {| content :=
                 ["Error executing tool " +:+ name +:+ ": "
                    +:+ errorMessage error];
               isError := true |}).

(** The names of the tools the switch knows. *)
Definition knownTools : list string :=
  [ "generate_recommendations"; "analyze_product_image"; "compare_products";
    "translate_content"; "extract_entities"; "health_check" ].

End GeminiRagMcpServer.

(** ** Stand-ins for the examples *)

(** Builtins for the examples; the theorems hold for all builtins. *)
Definition exampleBuiltins : JsBuiltins :=
  {| numberToString := fun x => if Qeq_bool x 0 then "0" else "1";
     JSON_parse := fun s =>
       if String.eqb s "{}" then Returned emptyEntities
       else Thrown (JsError "Unexpected token");
     JSON_stringify := fun _ => "{}";
     undefinedRead := fun field =>
       JsError ("Cannot read properties of undefined (reading '"
                  +:+ field +:+ "')") |}.

Definition exampleConfig : GeminiConfig :=
  {| apiKey := "key"; model := "gemini-2.0-flash";
     visionModel := "gemini-2.0-flash-vision";
     temperatureDefault := None; maxTokens := None |}.

(** A platform that replies to every prompt with the same text, and one
    that fails every call. *)
Definition replying (reply : string) : sdk unit :=
  fun X c w =>
    match c in PlatformCall X return X * unit with
    | GetGlobalModel _ => (Returned true, w)
    | GenerateContent _ _ _ =>
        (Returned {| response_text := Returned reply |}, w)
    | DateNow => (0%Z, w)
    end.

Definition unreachable : sdk unit :=
  fun X c w =>
    match c in PlatformCall X return X * unit with
    | GetGlobalModel _ => (Thrown (JsError "fetch failed"), w)
    | GenerateContent _ _ _ => (Thrown (JsError "fetch failed"), w)
    | DateNow => (0%Z, w)
    end.

(** ** Vocabulary for the platform *)

(** The text a call to [generateContent] ends in. *)
Definition textOf (o : outcome GenerateContentResult) : outcome string :=
  match o with
  | Returned result => response_text result
  | Thrown e => Thrown e
  end.

(** The entities a call to [generateContent] ends in. *)
Definition entitiesOf `{JsBuiltins} (o : outcome GenerateContentResult)
  : outcome Entities :=
  match textOf o with
  | Returned responseText => JSON_parse responseText
  | Thrown e => Thrown e
  end.

(** A text prompt sent to the model of the configuration through the
    client of the service. *)
Definition is_service_prompt (config : GeminiConfig) (ev : platform_event)
  : Prop :=
  match ev with
  | Asked c =>
      match c with
      | GenerateContent serviceClient modelName (PromptOnly _) =>
          modelName = model config
      | _ => False
      end
  end.

(** The context without what [buildRAGPrompt] does not print: an empty
    product list, a budget of 0, empty lists of brands and categories, and
    the language. *)
Definition printedContext (context : RAGContext) : RAGContext :=
  {| productData :=
       match productData context with
       | Some [] => None
       | data => data
       end;
     userPreferences :=
       (fun preferences =>
          {| pbudget :=
               match pbudget preferences with
               | Some b => if truthy b then Some b else None
               | None => None
               end;
             pbrands :=
               match pbrands preferences with
               | Some [] => None
               | bs => bs
               end;
             pcategories :=
               match pcategories preferences with
               | Some [] => None
               | cs => cs
               end;
             planguage := None |}) <$> userPreferences context |}.

(** The three prompts of a request, as they reach the platform. *)
Definition extractionRequest `{JsBuiltins} (config : GeminiConfig)
  (query : SearchQuery) : PlatformCall (outcome GenerateContentResult) :=
  GenerateContent serviceClient (model config)
    (PromptOnly (GeminiService.extractionPrompt (Some (text query)))).

Definition recommendationRequest `{JsBuiltins} (config : GeminiConfig)
  (query : SearchQuery) (relevantProducts : list Product)
  : PlatformCall (outcome GenerateContentResult) :=
  GenerateContent serviceClient (model config)
    (PromptOnly
       (GeminiService.buildRAGPrompt (Some (text query))
          (contextFor query relevantProducts))).

Definition comparisonRequest `{JsBuiltins} (config : GeminiConfig)
  (query : SearchQuery) (relevantProducts : list Product)
  : PlatformCall (outcome GenerateContentResult) :=
  GenerateContent serviceClient (model config)
    (PromptOnly
       (GeminiService.comparisonPrompt (Some (slice 0 5 relevantProducts))
          (Some (text query)))).

(** The prompt of a translation, as it reaches the platform. *)
Definition translationRequest `{JsBuiltins} (config : GeminiConfig)
  (t : string) (targetLanguage : IndianLanguage)
  : PlatformCall (outcome GenerateContentResult) :=
  GenerateContent serviceClient (model config)
    (PromptOnly
       (GeminiService.translationPrompt (Some t)
          (Some (languageCode targetLanguage)))).

(** Requests for the examples. *)
Definition noArguments : GeminiRagMcpServer.ToolArguments :=
  {| GeminiRagMcpServer.query := None; GeminiRagMcpServer.budget := None;
     GeminiRagMcpServer.brands := None; GeminiRagMcpServer.categories := None;
     GeminiRagMcpServer.image_base64 := None;
     GeminiRagMcpServer.mime_type := None;
     GeminiRagMcpServer.products := None;
     GeminiRagMcpServer.user_query := None;
     GeminiRagMcpServer.text := None;
     GeminiRagMcpServer.target_language := None |}.

Definition toolRequest (n : string)
  (args : option GeminiRagMcpServer.ToolArguments)
  : GeminiRagMcpServer.ToolRequest :=
  {| GeminiRagMcpServer.name := n; GeminiRagMcpServer.arguments := args |}.

(** A platform without a global client. *)
Definition withoutGlobalClient : sdk unit :=
  fun X c w =>
    match c in PlatformCall X return X * unit with
    | GetGlobalModel _ => (Returned false, w)
    | GenerateContent _ _ _ =>
        (Returned {| response_text := Returned "unused" |}, w)
    | DateNow => (0%Z, w)
    end.

(** ** Vocabulary for the tools and the augmentation *)

(** The error an outcome carries, if it is a thrown one. *)
Definition thrown {A : Type} (o : outcome A) : option exn :=
  match o with
  | Returned _ => None
  | Thrown e => Some e
  end.

(** The prompt of an image analysis, as it reaches the platform. *)
Definition imageAnalysisRequest (config : GeminiConfig)
  (imageBase64 mimeType : option string)
  : PlatformCall (outcome GenerateContentResult) :=
  GenerateContent serviceClient (visionModel config)
    (ImageAndPrompt imageBase64 mimeType
       "Analyze this product image and provide: 1) Product type and category 2) Visible features 3) Quality assessment 4) Price range estimate. Be concise.").

(** The prompt of the health check, as it reaches the platform. *)
Definition healthRequest (config : GeminiConfig)
  : PlatformCall (outcome GenerateContentResult) :=
  GenerateContent serviceClient (model config)
    (PromptOnly "Say 'OK' if you are ready.").

(** The property of [arguments] a tool reads first; [None] for the health
    check, which reads none, and for a name that is not a tool. *)
Definition firstArgument (name : string) : option string :=
  if String.eqb name "generate_recommendations" then Some "budget"
  else if String.eqb name "analyze_product_image" then Some "image_base64"
  else if String.eqb name "compare_products" then Some "products"
  else if String.eqb name "translate_content" then Some "text"
  else if String.eqb name "extract_entities" then Some "query"
  else None.

(** The call a tool makes of the platform: the prompt of its service
    method on the properties of [arguments].  No call is made for a name
    that is not a tool, nor when [arguments] is absent and the tool reads
    it. *)
Definition toolCall `{JsBuiltins} (config : GeminiConfig)
  (request : GeminiRagMcpServer.ToolRequest)
  : option (PlatformCall (outcome GenerateContentResult)) :=
  let name := GeminiRagMcpServer.name request in
  if String.eqb name "health_check" then Some (healthRequest config)
  else
    match GeminiRagMcpServer.arguments request with
    | None => None
    | Some a =>
        if String.eqb name "generate_recommendations" then
          Some (GenerateContent serviceClient (model config)
                  (PromptOnly
                     (GeminiService.buildRAGPrompt (GeminiRagMcpServer.query a)
                        {| productData := None;
                           userPreferences :=
                             Some {| pbudget := GeminiRagMcpServer.budget a;
                                     pbrands := GeminiRagMcpServer.brands a;
                                     pcategories :=
                                       GeminiRagMcpServer.categories a;
                                     planguage := None |} |})))
        else if String.eqb name "analyze_product_image" then
          Some (imageAnalysisRequest config (GeminiRagMcpServer.image_base64 a)
                  (GeminiRagMcpServer.mime_type a))
        else if String.eqb name "compare_products" then
          Some (GenerateContent serviceClient (model config)
                  (PromptOnly
                     (GeminiService.comparisonPrompt
                        (GeminiRagMcpServer.products a)
                        (GeminiRagMcpServer.user_query a))))
        else if String.eqb name "translate_content" then
          Some (GenerateContent serviceClient (model config)
                  (PromptOnly
                     (GeminiService.translationPrompt
                        (GeminiRagMcpServer.text a)
                        (GeminiRagMcpServer.target_language a))))
        else if String.eqb name "extract_entities" then
          Some (GenerateContent serviceClient (model config)
                  (PromptOnly
                     (GeminiService.extractionPrompt
                        (GeminiRagMcpServer.query a))))
        else None
    end.

(** Why a tool call ends in a reply flagged as an error. *)
Inductive ToolFailure :=
  | UnknownTool
  | Threw (e : exn).

(** The failure of a tool call, if there is one, on a platform in state
    [w].  A name that is not a tool is unknown.  The health check does not
    fail.  Any other tool fails with what reading the first property of an
    absent [arguments] throws, or else with what its one call ends in when
    that is an error: the error the call throws, the error reading the text
    of the response throws or, for [extract_entities], the error
    [JSON.parse] throws. *)
Definition toolFailure `{JsBuiltins} {W : Type} (plat : sdk W)
  (config : GeminiConfig) (request : GeminiRagMcpServer.ToolRequest) (w : W)
  : option ToolFailure :=
  let name := GeminiRagMcpServer.name request in
  if String.eqb name "health_check" then None
  else
    match firstArgument name with
    | None => Some UnknownTool
    | Some field =>
        match toolCall config request with
        | None => Some (Threw (undefinedRead field))
        | Some c =>
            Threw <$>
              (if String.eqb name "extract_entities"
               then thrown (entitiesOf (fst (plat _ c w)))
               else thrown (textOf (fst (plat _ c w))))
        end
    end.

(** The reply of the [catch] block for an error. *)
Definition errorReply (name : string) (e : exn) : GeminiRagMcpServer.ToolResult :=
  {| GeminiRagMcpServer.content :=
       ["Error executing tool " +:+ name +:+ ": " +:+ errorMessage e];
     GeminiRagMcpServer.isError := true |}.

(** The reply of the [default] case. *)
Definition unknownToolReply (name : string) : GeminiRagMcpServer.ToolResult :=
  {| GeminiRagMcpServer.content := ["Unknown tool: " +:+ name];
     GeminiRagMcpServer.isError := true |}.

(** The lookup and the prompt of [augmentProductData], as they reach the
    platform. *)
Definition globalModelLookup : PlatformCall (outcome bool) :=
  GetGlobalModel "gemini-2.0-flash".

Definition augmentationRequest `{JsBuiltins} (product : Product)
  : PlatformCall (outcome GenerateContentResult) :=
  GenerateContent globalClient "gemini-2.0-flash"
    (PromptOnly
       (joinWith nl
          [ "";
            "        Based on this product:";
            "        Name: " +:+ name product;
            "        Price: â‚¹" +:+ numberToString (price product);
            "        Rating: " +:+ numberToString (rating product) +:+ "/5";
            "        ";
            "        Provide a one-line value proposition that highlights why this product is worth buying.";
            "      " ])).

(** ** Proof automation *)

(** Checks [within_bounds] call by call along an explicit list of calls;
    [HC] is the bound for the comparison call. *)
Ltac trace_within_bounds HC :=
  repeat match goal with
         | |- Forall _ _ => constructor
         end;
  first [exact HC | exact I | reflexivity].

(** * Properties *)

(** ** Numbers *)

Lemma Qgtb_true (x y : Q) : Qgtb x y = true <-> y < x.
Proof.
  unfold Qgtb. rewrite negb_true_iff, <- not_true_iff_false, Qle_bool_iff.
  split; [apply Qnot_le_lt | apply Qlt_not_le].
Qed.

Lemma Qgtb_false (x y : Q) : Qgtb x y = false <-> x <= y.
Proof.
  unfold Qgtb. rewrite negb_false_iff. apply Qle_bool_iff.
Qed.

Lemma Qleb_true (x y : Q) : Qleb x y = true <-> x <= y.
Proof. apply Qle_bool_iff. Qed.

Lemma truthy_true (x : Q) : truthy x = true <-> ~ x == 0.
Proof.
  unfold truthy. rewrite negb_true_iff, <- not_true_iff_false, Qeq_bool_iff.
  reflexivity.
Qed.

Lemma truthy_false (x : Q) : truthy x = false <-> x == 0.
Proof.
  unfold truthy. rewrite negb_false_iff. apply Qeq_bool_iff.
Qed.

(** ** Strings *)

(** [+:+] does not unfold under [simpl]; these two equations compute it. *)
Lemma append_nil_l (s : string) : "" +:+ s = s.
Proof. reflexivity. Qed.

Lemma append_cons (c : ascii) (s t : string) :
  String c s +:+ t = String c (s +:+ t).
Proof. reflexivity. Qed.

Lemma append_nil_r (s : string) : s +:+ "" = s.
Proof.
  induction s as [|c s IH]; [reflexivity | now rewrite append_cons, IH].
Qed.

Lemma append_assoc (s1 s2 s3 : string) :
  (s1 +:+ s2) +:+ s3 = s1 +:+ s2 +:+ s3.
Proof.
  induction s1 as [|c s1 IH]; [reflexivity | now rewrite !append_cons, IH].
Qed.

Lemma startsWith_spec (s sub : string) :
  startsWith s sub = true <-> exists post, s = sub +:+ post.
Proof.
  revert s. induction sub as [|b sub IH]; intros s; simpl.
  - split; [intros _; now exists s | reflexivity].
  - destruct s as [|a s].
    + split; [discriminate | intros [post H]; discriminate].
    + rewrite andb_true_iff, IH. split.
      * intros [Hab [post ->]]. apply Ascii.eqb_eq in Hab as ->. now exists post.
      * intros [post H]. rewrite append_cons in H. injection H as -> ->. split.
        -- apply Ascii.eqb_refl.
        -- now exists post.
Qed.

(** [includes] decides the occurrence of a substring. *)
Lemma includes_spec (s sub : string) :
  includes s sub = true <-> is_substring sub s.
Proof.
  unfold is_substring. induction s as [|a s IH].
  - simpl. rewrite orb_false_r, startsWith_spec. split.
    + intros [post H]. now exists "", post.
    + intros [pre [post H]]. destruct pre; [now exists post | discriminate].
  - cbn [includes]. rewrite orb_true_iff, IH, startsWith_spec. split.
    + intros [[post H] | [pre [post H]]].
      * now exists "", post.
      * exists (String a pre), post. now rewrite append_cons, H.
    + intros [pre [post H]]. destruct pre as [|c pre].
      * left. now exists post.
      * right. rewrite append_cons in H. injection H as _ H. now exists pre, post.
Qed.

Lemma includes_empty (s : string) : includes s "" = true.
Proof. destruct s; simpl; reflexivity. Qed.

(** ** Running computations *)

Section Run.
Context {W : Type} (ans : oracle W).

Lemma run_bind {A B : Type} (m : prog A) (f : A -> prog B) (w : W) :
  run ans (m ≫= f) w =
  match run ans m w with
  | (Returned a, tr, w1) =>
      let '(o, tr', w2) := run ans (f a) w1 in (o, tr ++ tr', w2)
  | (Thrown e, tr, w1) => (Thrown e, tr, w1)
  end.
Proof.
  unfold mbind, prog_mbind. revert w.
  induction m as [a|e|X c k IH]; intros w; simpl.
  - now destruct (run ans (f a) w) as [[o tr] w2].
  - reflexivity.
  - destruct (ans X c w) as [x w1]. rewrite IH.
    destruct (run ans (k x) w1) as [[[a|e] tr] w2]; [|reflexivity].
    now destruct (run ans (f a) w2) as [[o tr'] w3].
Qed.

Lemma run_try_catch {A : Type} (m : prog A) (h : exn -> prog A) (w : W) :
  run ans (try_catch m h) w =
  match run ans m w with
  | (Returned a, tr, w1) => (Returned a, tr, w1)
  | (Thrown e, tr, w1) =>
      let '(o, tr', w2) := run ans (h e) w1 in (o, tr ++ tr', w2)
  end.
Proof.
  revert w. induction m as [a|e|X c k IH]; intros w; simpl.
  - reflexivity.
  - now destruct (run ans (h e) w) as [[o tr] w2].
  - destruct (ans X c w) as [x w1]. rewrite IH.
    destruct (run ans (k x) w1) as [[[a|e] tr] w2]; [reflexivity|].
    now destruct (run ans (h e) w2) as [[o tr'] w3].
Qed.

(** A [catch] block that only re-throws changes nothing. *)
Lemma run_rethrow {A : Type} (m : prog A) (w : W) :
  run ans (try_catch m (fun error => Throw error)) w = run ans m w.
Proof.
  rewrite run_try_catch.
  destruct (run ans m w) as [[[a|e] tr] w1]; simpl; [reflexivity|].
  now rewrite app_nil_r.
Qed.

Lemma run_await {A : Type} (c : ExtCall (outcome A)) (w : W) :
  run ans (await c) w = (fst (ans _ c w), [Invoke c], snd (ans _ c w)).
Proof.
  unfold await. simpl. now destruct (ans _ c w) as [[a|e] w1].
Qed.

End Run.

(** ** Array helpers *)

Lemma slice_from_0 {A : Type} (n : nat) (l : list A) : slice 0 n l = take n l.
Proof. unfold slice. now rewrite Nat.sub_0_r. Qed.

Lemma slice_length {A : Type} (a b : nat) (l : list A) :
  (length (slice a b l) <= b - a)%nat.
Proof. unfold slice. rewrite length_take. lia. Qed.

(** The two halves shown to the user make up the whole candidate list. *)
Lemma slice_5_10 {A : Type} (l : list A) :
  (length l <= 10)%nat -> slice 0 5 l ++ slice 5 10 l = l.
Proof.
  intros Hlen. unfold slice. simpl.
  rewrite (take_ge (drop 5 l)) by (rewrite length_drop; lia).
  apply take_drop.
Qed.

Lemma reduce_nonempty {A : Type} (f : A -> A -> A) (l : list A) :
  l <> [] -> exists a, reduce f l = Some a.
Proof. destruct l as [|x l]; [congruence | intros _; now eexists]. Qed.

Lemma fold_left_choice {A : Type} (f : A -> A -> A) (l : list A) (x : A) :
  (forall a b, f a b = a \/ f a b = b) -> In (fold_left f l x) (x :: l).
Proof.
  intros Hf. revert x. induction l as [|y l IH]; intros x; simpl.
  - now left.
  - destruct (IH (f x y)) as [H|H].
    + rewrite <- H. destruct (Hf x y) as [-> | ->]; auto.
    + auto.
Qed.

(** ** The sort

    [sortByRating] is a permutation, in descending order of rating, that
    keeps products of equal rating in their order: the three properties
    that determine the result of a stable sort. *)

Lemma insertByRating_perm (x : Product) (l : list Product) :
  insertByRating x l ≡ₚ x :: l.
Proof.
  induction l as [|y l IH]; simpl; [reflexivity|].
  destruct (Qgtb (rating y) (rating x)); [|reflexivity].
  rewrite IH. apply Permutation_swap.
Qed.

Lemma sortByRating_perm (l : list Product) : sortByRating l ≡ₚ l.
Proof.
  induction l as [|x l IH]; simpl; [reflexivity|].
  now rewrite insertByRating_perm, IH.
Qed.

Lemma sortByRating_In (p : Product) (l : list Product) :
  In p (sortByRating l) <-> In p l.
Proof.
  rewrite <- !list_elem_of_In. now rewrite sortByRating_perm.
Qed.

Lemma sortByRating_length (l : list Product) :
  length (sortByRating l) = length l.
Proof. now rewrite sortByRating_perm. Qed.

Lemma insertByRating_descending (x : Product) (l : list Product) :
  descending l -> descending (insertByRating x l).
Proof.
  unfold descending. induction l as [|y l IH]; intros Hs; simpl.
  - repeat constructor.
  - destruct (Qgtb (rating y) (rating x)) eqn:Hyx.
    + inversion Hs as [|? ? Hl Hhd]; subst. constructor; [auto|].
      apply Qgtb_true in Hyx.
      destruct l as [|z l]; simpl.
      * constructor. now apply Qlt_le_weak.
      * destruct (Qgtb (rating z) (rating x)).
        -- constructor. now inversion Hhd.
        -- constructor. now apply Qlt_le_weak.
    + apply Qgtb_false in Hyx. constructor; [assumption|]. now constructor.
Qed.

Lemma sortByRating_descending (l : list Product) : descending (sortByRating l).
Proof.
  induction l as [|x l IH]; simpl.
  - constructor.
  - now apply insertByRating_descending.
Qed.

(** Stability: the products of any one rating appear as they did. *)
Lemma insertByRating_stable (r : Q) (x : Product) (l : list Product) :
  List.filter (fun p => Qeq_bool (rating p) r) (insertByRating x l) =
  List.filter (fun p => Qeq_bool (rating p) r) (x :: l).
Proof.
  induction l as [|y l IH]; [reflexivity|].
  cbn [insertByRating]. destruct (Qgtb (rating y) (rating x)) eqn:Hyx;
    [|reflexivity].
  cbn [List.filter] in *. rewrite IH.
  destruct (Qeq_bool (rating x) r) eqn:Hx; [|reflexivity].
  destruct (Qeq_bool (rating y) r) eqn:Hy; [|reflexivity].
  apply Qgtb_true in Hyx. apply Qeq_bool_iff in Hx, Hy.
  rewrite Hx, Hy in Hyx. now apply Qlt_irrefl in Hyx.
Qed.

Lemma sortByRating_stable (r : Q) (l : list Product) :
  List.filter (fun p => Qeq_bool (rating p) r) (sortByRating l) =
  List.filter (fun p => Qeq_bool (rating p) r) l.
Proof.
  induction l as [|x l IH]; [reflexivity|].
  cbn [sortByRating foldr]. rewrite insertByRating_stable.
  cbn [List.filter]. fold (sortByRating l). now rewrite IH.
Qed.

(** ** Selection by [reduce] *)

Section Selection.
Variable key : Product -> Q.

(** Replacing the accumulator only by a strictly smaller key keeps the
    leftmost minimum. *)
Lemma fold_left_first_min (l pre post : list Product) (p0 : Product) :
  Forall (fun x => key p0 < key x) pre ->
  Forall (fun x => key p0 <= key x) post ->
  exists l1 l2,
    pre ++ p0 :: post ++ l =
      l1 ++ fold_left
              (fun prev current =>
                 if Qgtb (key prev) (key current) then current else prev)
              l p0 :: l2 /\
    Forall (fun x =>
              key (fold_left
                     (fun prev current =>
                        if Qgtb (key prev) (key current) then current else prev)
                     l p0) < key x) l1 /\
    Forall (fun x =>
              key (fold_left
                     (fun prev current =>
                        if Qgtb (key prev) (key current) then current else prev)
                     l p0) <= key x) l2.
Proof.
  revert pre post p0. induction l as [|c l IH]; intros pre post p0 Hpre Hpost.
  - exists pre, post. now rewrite app_nil_r.
  - cbn [fold_left]. destruct (Qgtb (key p0) (key c)) eqn:Hc.
    + apply Qgtb_true in Hc.
      destruct (IH (pre ++ p0 :: post) [] c) as (l1 & l2 & Heq & H1 & H2).
      * apply Forall_app. split; [|constructor].
        -- eapply Forall_impl; [exact Hpre|].
           intros x Hx. cbn beta in Hx. now apply Qlt_trans with (key p0).
        -- exact Hc.
        -- eapply Forall_impl; [exact Hpost|].
           intros x Hx. cbn beta in Hx. now apply Qlt_le_trans with (key p0).
      * constructor.
      * exists l1, l2. split; [|now split].
        rewrite <- Heq. now rewrite <- app_assoc.
    + apply Qgtb_false in Hc.
      destruct (IH pre (post ++ [c]) p0) as (l1 & l2 & Heq & H1 & H2).
      * exact Hpre.
      * apply Forall_app. split; [exact Hpost|]. now constructor.
      * exists l1, l2. split; [|now split].
        rewrite <- Heq. now rewrite <- app_assoc.
Qed.

(** Keeping the accumulator only while its key is strictly greater moves
    to the rightmost maximum. *)
Lemma fold_left_last_max (l pre post : list Product) (p0 : Product) :
  Forall (fun x => key x <= key p0) pre ->
  Forall (fun x => key x < key p0) post ->
  exists l1 l2,
    pre ++ p0 :: post ++ l =
      l1 ++ fold_left
              (fun prev current =>
                 if Qgtb (key prev) (key current) then prev else current)
              l p0 :: l2 /\
    Forall (fun x =>
              key x <= key (fold_left
                     (fun prev current =>
                        if Qgtb (key prev) (key current) then prev else current)
                     l p0)) l1 /\
    Forall (fun x =>
              key x < key (fold_left
                     (fun prev current =>
                        if Qgtb (key prev) (key current) then prev else current)
                     l p0)) l2.
Proof.
  revert pre post p0. induction l as [|c l IH]; intros pre post p0 Hpre Hpost.
  - exists pre, post. now rewrite app_nil_r.
  - cbn [fold_left]. destruct (Qgtb (key p0) (key c)) eqn:Hc.
    + apply Qgtb_true in Hc.
      destruct (IH pre (post ++ [c]) p0) as (l1 & l2 & Heq & H1 & H2).
      * exact Hpre.
      * apply Forall_app. split; [exact Hpost|]. now constructor.
      * exists l1, l2. split; [|now split].
        rewrite <- Heq. now rewrite <- app_assoc.
    + apply Qgtb_false in Hc.
      destruct (IH (pre ++ p0 :: post) [] c) as (l1 & l2 & Heq & H1 & H2).
      * apply Forall_app. split; [|constructor].
        -- eapply Forall_impl; [exact Hpre|].
           intros x Hx. cbn beta in Hx. now apply Qle_trans with (key p0).
        -- exact Hc.
        -- eapply Forall_impl; [exact Hpost|].
           intros x Hx. cbn beta in Hx. apply Qlt_le_weak.
           now apply Qlt_le_trans with (key p0).
      * constructor.
      * exists l1, l2. split; [|now split].
        rewrite <- Heq. now rewrite <- app_assoc.
Qed.

End Selection.

(** ** The selector *)

(** The divisor of the value ratio is never zero. *)
Lemma effectiveRating_nonzero (p : Product) : ~ effectiveRating p == 0.
Proof.
  unfold effectiveRating, num_or. destruct (truthy (rating p)) eqn:Ht.
  - now apply truthy_true.
  - discriminate.
Qed.

Lemma effectiveRating_zero (p : Product) :
  rating p == 0 -> effectiveRating p = 1.
Proof.
  intros H. unfold effectiveRating, num_or. apply truthy_false in H.
  now rewrite H.
Qed.

(** On ratings that are not negative, [rating || 1] is the effective
    rating of the specification. *)
Lemma effectiveRating_agrees (p : Product) :
  0 <= rating p -> effectiveRating p = effectiveRating_spec p.
Proof.
  intros Hp. unfold effectiveRating, effectiveRating_spec, num_or.
  destruct (truthy (rating p)) eqn:Ht, (Qgtb (rating p) 0) eqn:Hg;
    try reflexivity.
  - apply truthy_true in Ht. apply Qgtb_false in Hg.
    exfalso. apply Ht. now apply Qle_antisym.
  - apply truthy_false in Ht. apply Qgtb_true in Hg.
    rewrite Ht in Hg. now apply Qlt_irrefl in Hg.
Qed.

Lemma valueRatio_agrees (p : Product) :
  0 <= rating p -> valueRatio p = computedRatio_spec p.
Proof.
  intros Hp. unfold valueRatio, computedRatio_spec.
  now rewrite effectiveRating_agrees.
Qed.

Lemma selectBestValue_first_min (x : Product) (l : list Product) :
  exists p l1 l2,
    selectBestValue (x :: l) = Some p /\ x :: l = l1 ++ p :: l2 /\
    Forall (fun y => valueRatio p < valueRatio y) l1 /\
    Forall (fun y => valueRatio p <= valueRatio y) l2.
Proof.
  destruct (fold_left_first_min valueRatio l [] [] x) as (l1 & l2 & Heq & H1 & H2);
    [constructor | constructor |].
  eexists _, l1, l2. split; [reflexivity|]. now split.
Qed.

(** C1 (as amended): on a non-empty
    candidate list [topRated] is a product rated at least as high as every
    product of the list, and among several products of the highest rating
    it is the one that occurs last. *)
Theorem topRated_is_last_maximum (l : list Product) :
  l <> [] ->
  exists p,
    selectTopRated l = Some p /\
    (forall x, In x l -> rating x <= rating p) /\
    last_top_rated l p.
Proof.
  destruct l as [|x l]; [congruence | intros _].
  destruct (fold_left_last_max rating l [] [] x) as (l1 & l2 & Heq & H1 & H2);
    [constructor | constructor |].
  cbn [app] in Heq. eexists. split; [reflexivity|]. split.
  - intros y Hy. rewrite Heq in Hy. apply in_app_or in Hy as [Hy|[<-|Hy]].
    + rewrite List.Forall_forall in H1. now apply H1.
    + apply Qle_refl.
    + rewrite List.Forall_forall in H2. apply Qlt_le_weak. now apply H2.
  - now exists l1, l2.
Qed.

Lemma topRated_is_last_maximum_witness :
  [phoneA; phoneB] <> [] /\
  exists p,
    selectTopRated [phoneA; phoneB] = Some p /\
    (forall x, In x [phoneA; phoneB] -> rating x <= rating p) /\
    last_top_rated [phoneA; phoneB] p.
Proof.
  split; [discriminate | apply (topRated_is_last_maximum [phoneA; phoneB])].
  discriminate.
Defined.

(** C1, the claim as it stands, fails: retrieval returns the two phones in
    the order of the catalog, both rated 4.5, and [topRated] is the second
    one, which is not the leftmost of the top rated (the first one is). *)
Lemma topRated_tie_counterexample :
  exists rec tr,
    run phoneService (generateRecommendations phoneDb phoneQuery) tt
      = (Returned rec, tr, tt) /\
    products rec = [phoneA; phoneB] /\
    topRated rec = phoneB /\
    first_top_rated [phoneA; phoneB] phoneA /\
    ~ first_top_rated [phoneA; phoneB] (topRated rec).
Proof.
  eexists _, _. split; [vm_compute; reflexivity|].
  split; [reflexivity|]. split; [reflexivity|]. split.
  - exists [], [phoneB]. split; [reflexivity|]. split; constructor.
    + vm_compute. discriminate.
    + constructor.
  - cbn [topRated]. intros (l1 & l2 & Heq & H1 & _).
    destruct l1 as [|y [|z l1]].
    + discriminate Heq.
    + injection Heq as <- _. inversion H1 as [|? ? Hlt _]; subst.
      vm_compute in Hlt. discriminate Hlt.
    + injection Heq as _ _ Heq. destruct l1; discriminate Heq.
Qed.

(** C2 (as amended): on a non-empty candidate list whose ratings are not
    negative (the data model has them in 0..5), [bestValue] minimizes the
    price per effective rating as it is computed, the quotient of the two
    doubles rounded to the nearest double, the effective rating being the
    rating if it is greater than 0 and 1 otherwise; among several products
    of the least computed quotient it is the one that occurs first.  The
    divisor is never zero, and a rating of 0 is read as 1 for the ratio
    only: the product returned is the element of the list, as stored. *)
Theorem bestValue_is_first_minimum (l : list Product) :
  l <> [] ->
  Forall (fun x => 0 <= rating x) l ->
  exists p,
    selectBestValue l = Some p /\
    (forall x, In x l -> computedRatio_spec p <= computedRatio_spec x) /\
    first_best_computed l p /\
    Forall (fun x => ~ effectiveRating x == 0 /\
                     valueRatio x = computedRatio_spec x /\
                     (rating x == 0 -> effectiveRating x = 1)) l.
Proof.
  destruct l as [|x l]; [congruence | intros _ Hpos].
  destruct (selectBestValue_first_min x l) as (p & l1 & l2 & Hsel & Heq & H1 & H2).
  assert (Hagree : forall y, In y (x :: l) -> valueRatio y = computedRatio_spec y).
  { intros y Hy. apply valueRatio_agrees.
    rewrite List.Forall_forall in Hpos. now apply Hpos. }
  assert (Hp : In p (x :: l)).
  { rewrite Heq. apply in_or_app. right. now left. }
  assert (H1' : Forall (fun y => computedRatio_spec p < computedRatio_spec y) l1).
  { rewrite List.Forall_forall in *. intros y Hy.
    rewrite <- (Hagree p Hp), <- (Hagree y).
    - now apply H1.
    - rewrite Heq. apply in_or_app. now left. }
  assert (H2' : Forall (fun y => computedRatio_spec p <= computedRatio_spec y) l2).
  { rewrite List.Forall_forall in *. intros y Hy.
    rewrite <- (Hagree p Hp), <- (Hagree y).
    - now apply H2.
    - rewrite Heq. apply in_or_app. right. now right. }
  exists p. split; [exact Hsel|]. split; [|split].
  - intros y Hy. rewrite Heq in Hy. apply in_app_or in Hy as [Hy|[<-|Hy]].
    + rewrite List.Forall_forall in H1'. apply Qlt_le_weak. now apply H1'.
    + apply Qle_refl.
    + rewrite List.Forall_forall in H2'. now apply H2'.
  - now exists l1, l2.
  - rewrite List.Forall_forall. intros y Hy. split; [|split].
    + apply effectiveRating_nonzero.
    + now apply Hagree.
    + apply effectiveRating_zero.
Qed.

Lemma bestValue_is_first_minimum_witness :
  [laptop1; unrated; laptop2] <> [] /\
  Forall (fun x => 0 <= rating x) [laptop1; unrated; laptop2] /\
  exists p,
    selectBestValue [laptop1; unrated; laptop2] = Some p /\
    (forall x, In x [laptop1; unrated; laptop2] ->
               computedRatio_spec p <= computedRatio_spec x) /\
    first_best_computed [laptop1; unrated; laptop2] p /\
    Forall (fun x => ~ effectiveRating x == 0 /\
                     valueRatio x = computedRatio_spec x /\
                     (rating x == 0 -> effectiveRating x = 1))
      [laptop1; unrated; laptop2].
Proof.
  assert (Hpos : Forall (fun x => 0 <= rating x) [laptop1; unrated; laptop2]).
  { repeat constructor; vm_compute; discriminate. }
  split; [discriminate|]. split; [exact Hpos|].
  apply (bestValue_is_first_minimum [laptop1; unrated; laptop2]);
    [discriminate | exact Hpos].
Defined.

(** C2, the claim as it stands, fails: retrieval returns the two chargers,
    rated 5 and (the double nearest to) 4.9.  The price per rating of the
    second one, 49 / 4.9000000000000003..., is below 10, the price per
    rating of the first; but the division rounds it to 10, the comparison
    [10 > 10] is false and [bestValue] stays the first charger, which does
    not minimize the price per effective rating. *)
Lemma bestValue_rounding_counterexample :
  exists rec tr,
    run chargerService (generateRecommendations chargerDb chargerQuery) tt
      = (Returned rec, tr, tt) /\
    products rec = [chargerA; chargerB] /\
    bestValue rec = chargerA /\
    valueRatio_spec chargerB < valueRatio_spec (bestValue rec) /\
    first_best_value [chargerA; chargerB] chargerB /\
    ~ first_best_value [chargerA; chargerB] (bestValue rec).
Proof.
  eexists _, _. split; [vm_compute; reflexivity|].
  split; [reflexivity|]. split; [reflexivity|]. split; [|split].
  - vm_compute. reflexivity.
  - exists [chargerA], []. split; [reflexivity|]. split; constructor.
    + vm_compute. reflexivity.
    + constructor.
  - cbn [bestValue]. intros (l1 & l2 & Heq & _ & H2).
    destruct l1 as [|y [|z l1]].
    + injection Heq as <-. inversion H2 as [|? ? Hle _]; subst.
      vm_compute in Hle. now apply Hle.
    + injection Heq as _ Heq. discriminate Heq.
    + injection Heq as _ _ Heq. destruct l1; discriminate Heq.
Qed.

(** The selector follows the rounding in the other direction too: 150 / 5
    and 147 / 4.9 are both 30 as rationals, but the double nearest to 4.9
    is above 4.9, the second quotient computes to 29.999999999999996 and
    the second adapter is selected. *)
Lemma bestValue_follows_rounding :
  selectBestValue [adapterA; adapterB] = Some adapterB /\
  valueRatio adapterA == 30 /\
  valueRatio adapterB == 8444249301319679 # 281474976710656 /\
  valueRatio chargerA == 10 /\ valueRatio chargerB == 10.
Proof. repeat split; vm_compute; reflexivity. Qed.

(** Known doubles: 0.1, 4.9 and 1/3; a tie goes to the even significand;
    the least subnormal and half of it; the largest double and what lies
    half a unit above it. *)
Lemma round64_examples :
  round64 (1 # 10) == 3602879701896397 # 36028797018963968 /\
  round64 (49 # 10) == 2758454771764429 # 562949953421312 /\
  round64 (1 # 3) == 6004799503160661 # 18014398509481984 /\
  round64 (inject_Z (2 ^ 53 + 1)) == inject_Z (2 ^ 53) /\
  round64 (inject_Z (2 ^ 53 + 3)) == inject_Z (2 ^ 53 + 4) /\
  round64 (pow2 (-1074)) == pow2 (-1074) /\
  round64 (pow2 (-1075)) == 0 /\
  round64 (3 * pow2 (-1075)) == pow2 (-1073) /\
  round64 (inject_Z (2 ^ 1024 - 2 ^ 971)) == inject_Z (2 ^ 1024 - 2 ^ 971) /\
  round64 (inject_Z (2 ^ 1024 - 2 ^ 970)) == infinity64 /\
  round64 (- (7 # 2)) == - (7 # 2).
Proof. repeat split; vm_compute; reflexivity. Qed.

(** ** Retrieval *)

Lemma collectRelevant_contributions (db : ProductDatabase) (query : SearchQuery)
  (entities : Entities) :
  collectRelevant db query entities = flat_map (contribution query entities) db.
Proof.
  unfold collectRelevant.
  enough (H : forall acc,
             fold_left
               (fun relevantProducts '(category, ps) =>
                  if categoryMatches (default "" (productType entities)) category
                  then relevantProducts
                         ++ brandFilter query (budgetFilter query entities ps)
                  else relevantProducts) db acc
             = acc ++ flat_map (contribution query entities) db)
    by apply (H []).
  induction db as [|[category ps] db IH]; intros acc; simpl.
  - now rewrite app_nil_r.
  - rewrite IH. unfold contribution at 2. simpl.
    destruct (categoryMatches _ category).
    + now rewrite app_assoc.
    + reflexivity.
Qed.

Lemma In_slice {A : Type} (a b : nat) (x : A) (l : list A) :
  In x (slice a b l) -> In x l.
Proof.
  unfold slice. rewrite <- !list_elem_of_In. intros H.
  now apply subseteq_take, subseteq_drop in H.
Qed.

(** Every product retrieved was contributed by a category of the
    database. *)
Lemma In_selectRelevant (db : ProductDatabase) (query : SearchQuery)
  (entities : Entities) (p : Product) :
  In p (selectRelevant db query entities) ->
  exists entry, In entry db /\ In p (contribution query entities entry).
Proof.
  unfold selectRelevant. intros H. apply In_slice in H.
  rewrite sortByRating_In, collectRelevant_contributions in H.
  now apply in_flat_map in H.
Qed.

Lemma selectRelevant_length (db : ProductDatabase) (query : SearchQuery)
  (entities : Entities) :
  (length (selectRelevant db query entities) <= 10)%nat.
Proof. apply (slice_length 0 10). Qed.

Lemma brandFilter_In (query : SearchQuery) (ps : list Product) (p : Product) :
  In p (brandFilter query ps) -> In p ps.
Proof.
  unfold brandFilter. destruct (brands query) as [bs|]; [|auto].
  destruct (0 <? length bs)%nat; [|auto].
  intros H. now apply filter_In in H.
Qed.

(** What the two [||] of line 88 compute. *)
Lemma maxBudget_resolved (query : SearchQuery) (entities : Entities) :
  maxBudget query entities = default 0 (resolvedBudget query entities).
Proof.
  unfold maxBudget, resolvedBudget, js_or, opt_num_or, num_or.
  destruct (budget query) as [b|]; simpl.
  - destruct (truthy (max b)) eqn:Hb; [now rewrite Hb|].
    destruct (ebudget entities ≫= emax) as [m|]; [|reflexivity].
    now destruct (truthy m).
  - destruct (ebudget entities ≫= emax) as [m|]; [|reflexivity].
    now destruct (truthy m).
Qed.

(** Without a budget object on either side nothing is resolved. *)
Lemma resolvedBudget_absent (query : SearchQuery) (entities : Entities) :
  present (budget query) || present (ebudget entities) = false ->
  resolvedBudget query entities = None.
Proof.
  unfold resolvedBudget.
  destruct (budget query), (ebudget entities); simpl; try discriminate.
  reflexivity.
Qed.

Lemma budgetFilter_resolved (query : SearchQuery) (entities : Entities)
  (ps : list Product) :
  budgetFilter query entities ps =
  match resolvedBudget query entities with
  | Some B =>
      if Qgtb B 0 then List.filter (fun p => Qleb (price p) B) ps else ps
  | None => ps
  end.
Proof.
  unfold budgetFilter.
  destruct (present (budget query) || present (ebudget entities)) eqn:Hp.
  - rewrite maxBudget_resolved.
    destruct (resolvedBudget query entities) as [B|]; reflexivity.
  - now rewrite resolvedBudget_absent.
Qed.

(** Retrieval makes one call, never throws, and returns the selection
    for the entities extracted, or nothing when the extraction threw. *)
Lemma run_retrieveRelevantProducts {W : Type} (ans : oracle W)
  (db : ProductDatabase) (query : SearchQuery) (w : W) :
  run ans (retrieveRelevantProducts db query) w =
  (Returned
     (retrieved db query (fst (ans _ (ExtractQueryEntities (text query)) w))),
   [Invoke (ExtractQueryEntities (text query))],
   snd (ans _ (ExtractQueryEntities (text query)) w)).
Proof.
  unfold retrieveRelevantProducts.
  rewrite run_try_catch, run_bind, run_await.
  now destruct (ans _ (ExtractQueryEntities (text query)) w) as [[entities|e] w1].
Qed.

(** C5 (as amended): the maximum budget
    is [query.budget.max] if present and not zero, otherwise
    [intent.budget.max] if present and not zero.  When it resolves to a
    value greater than 0, every product retrieved has a price that does not
    exceed it; otherwise the candidates are not filtered by budget. *)
Theorem budget_filter_on_resolved_maximum (db : ProductDatabase)
  (query : SearchQuery) (entities : Entities) :
  match resolvedBudget query entities with
  | Some B =>
      if Qgtb B 0
      then Forall (fun p => price p <= B) (selectRelevant db query entities)
      else selectRelevant db query entities
           = slice 0 10 (sortByRating (flat_map (unbudgeted query entities) db))
  | None =>
      selectRelevant db query entities
      = slice 0 10 (sortByRating (flat_map (unbudgeted query entities) db))
  end.
Proof.
  assert (Hnone : forall B,
             resolvedBudget query entities = B ->
             match B with Some B => Qgtb B 0 = false | None => True end ->
             selectRelevant db query entities
             = slice 0 10 (sortByRating (flat_map (unbudgeted query entities) db))).
  { intros B HB Hoff. unfold selectRelevant.
    rewrite collectRelevant_contributions. do 2 f_equal.
    apply flat_map_ext. intros [category ps].
    unfold contribution, unbudgeted. rewrite budgetFilter_resolved, HB.
    destruct B as [B|]; [now rewrite Hoff | reflexivity]. }
  destruct (resolvedBudget query entities) as [B|] eqn:HB.
  - destruct (Qgtb B 0) eqn:Hpos.
    + rewrite List.Forall_forall. intros p Hp.
      apply In_selectRelevant in Hp as ([category ps] & _ & Hp).
      unfold contribution in Hp.
      destruct (categoryMatches _ _); [|contradiction].
      apply brandFilter_In in Hp.
      rewrite budgetFilter_resolved, HB, Hpos in Hp.
      apply filter_In in Hp as [_ Hp]. now apply Qleb_true.
    + now apply (Hnone (Some B)).
  - now apply (Hnone None).
Qed.

(** C5, the claim as it stands, fails: a query budget with a maximum of 0
    is present, so the claim resolves 0 and admits no product of positive
    price; retrieval returns all three laptops. *)
Lemma budget_zero_counterexample :
  effectiveBudget_spec zeroBudgetQuery laptopEntities = Some 0 /\
  run laptopService (retrieveRelevantProducts laptopDb zeroBudgetQuery) tt
    = (Returned [laptop2; laptop1; laptop3],
       [Invoke (ExtractQueryEntities "a laptop")], tt) /\
  ~ Forall (fun p => price p <= 0) [laptop2; laptop1; laptop3].
Proof.
  split; [reflexivity|]. split; [vm_compute; reflexivity|].
  intros H. inversion H as [|? ? Hle _]; subst.
  vm_compute in Hle. now apply Hle.
Qed.

Lemma budgetFilter_In (query : SearchQuery) (entities : Entities)
  (ps : list Product) (p : Product) :
  In p (budgetFilter query entities ps) -> In p ps.
Proof.
  rewrite budgetFilter_resolved.
  destruct (resolvedBudget query entities) as [B|]; [|auto].
  destruct (Qgtb B 0); [|auto].
  intros H. now apply filter_In in H.
Qed.

(** C6: a category is considered exactly when the lower-cased product type
    occurs in the lower-cased category name or the lower-cased category
    name occurs in the lower-cased product type; the candidates are what
    the categories that pass this test contribute, in the order of the
    database, so every product retrieved is indexed under a category
    related to the product type. *)
Theorem category_considered_iff_related (db : ProductDatabase)
  (query : SearchQuery) (entities : Entities) :
  (forall productType category,
     categoryMatches productType category = true <->
     related productType category) /\
  collectRelevant db query entities =
  flat_map
    (fun entry =>
       if categoryMatches (default "" (productType entities)) entry.1
       then brandFilter query (budgetFilter query entities entry.2)
       else [])
    db /\
  Forall
    (fun p =>
       exists category ps,
         In (category, ps) db /\ In p ps /\
         related (default "" (productType entities)) category)
    (selectRelevant db query entities).
Proof.
  assert (Hiff : forall productType category,
             categoryMatches productType category = true <->
             related productType category).
  { intros productType category. unfold categoryMatches, related.
    now rewrite orb_true_iff, !includes_spec. }
  split; [exact Hiff|]. split.
  - apply collectRelevant_contributions.
  - rewrite List.Forall_forall. intros p Hp.
    apply In_selectRelevant in Hp as ([category ps] & Hentry & Hp).
    unfold contribution in Hp. cbn [fst snd] in Hp.
    destruct (categoryMatches _ category) eqn:Hmatch; [|contradiction].
    exists category, ps. split; [exact Hentry|]. split.
    + now apply brandFilter_In, budgetFilter_In in Hp.
    + now apply Hiff.
Qed.

(** Only the laptops category is related to "gaming laptops", in either
    direction of the test. *)
Example gaming_laptops_related :
  categoryMatches "Gaming Laptops" "laptops" = true /\
  categoryMatches "lap" "Laptops" = true /\
  categoryMatches "phones" "laptops" = false.
Proof. repeat split. Qed.

Lemma categoryMatches_empty (category : string) :
  categoryMatches "" category = true.
Proof. unfold categoryMatches. simpl. now rewrite includes_empty. Qed.

(** C10: when the extracted product type is the empty string, or absent,
    the test succeeds for every category, so the candidates are drawn from
    every category of the database, subject to the budget and brand
    filters only. *)
Theorem empty_productType_matches_all (db : ProductDatabase)
  (query : SearchQuery) (entities : Entities) :
  default "" (productType entities) = "" ->
  (forall category,
     categoryMatches (default "" (productType entities)) category = true) /\
  collectRelevant db query entities =
  flat_map (fun entry => brandFilter query (budgetFilter query entities entry.2))
    db /\
  selectRelevant db query entities =
  slice 0 10
    (sortByRating
       (flat_map
          (fun entry => brandFilter query (budgetFilter query entities entry.2))
          db)).
Proof.
  intros Hpt.
  assert (Hall : collectRelevant db query entities =
                 flat_map
                   (fun entry =>
                      brandFilter query (budgetFilter query entities entry.2))
                   db).
  { rewrite collectRelevant_contributions. apply flat_map_ext.
    intros entry. unfold contribution.
    now rewrite Hpt, categoryMatches_empty. }
  split; [|split].
  - intros category. rewrite Hpt. apply categoryMatches_empty.
  - exact Hall.
  - unfold selectRelevant. now rewrite Hall.
Qed.

Lemma empty_productType_matches_all_witness :
  default "" (productType emptyEntities) = "" /\
  ((forall category,
      categoryMatches (default "" (productType emptyEntities)) category = true) /\
   collectRelevant laptopDb phoneQuery emptyEntities =
   flat_map
     (fun entry =>
        brandFilter phoneQuery (budgetFilter phoneQuery emptyEntities entry.2))
     laptopDb /\
   selectRelevant laptopDb phoneQuery emptyEntities =
   slice 0 10
     (sortByRating
        (flat_map
           (fun entry =>
              brandFilter phoneQuery (budgetFilter phoneQuery emptyEntities entry.2))
           laptopDb))).
Proof.
  split; [reflexivity|].
  apply (empty_productType_matches_all laptopDb phoneQuery emptyEntities).
  reflexivity.
Defined.

(** With an empty product type the three laptops are all retrieved. *)
Example empty_productType_retrieves_laptops :
  selectRelevant laptopDb phoneQuery emptyEntities = [laptop2; laptop1; laptop3].
Proof. reflexivity. Qed.

(** ** The orchestrator *)

(** The run of [generateRecommendations], call by call. *)
Lemma run_generateRecommendations {W : Type} (ans : oracle W)
  (db : ProductDatabase) (query : SearchQuery) (w : W) :
  let extraction := ans _ (ExtractQueryEntities (text query)) w in
  let relevantProducts := retrieved db query (fst extraction) in
  let E := Invoke (ExtractQueryEntities (text query)) in
  let G := Invoke (GenerateRecommendations (text query)
                     (contextFor query relevantProducts)) in
  let C := Invoke (CompareProducts (slice 0 5 relevantProducts) (text query)) in
  let generation :=
    ans _ (GenerateRecommendations (text query)
             (contextFor query relevantProducts)) (snd extraction) in
  let comparison :=
    ans _ (CompareProducts (slice 0 5 relevantProducts) (text query))
      (snd generation) in
  run ans (generateRecommendations db query) w =
  match relevantProducts with
  | [] => (Thrown (JsError noProductsMessage), [E], snd extraction)
  | _ :: _ =>
      match fst generation with
      | Thrown e => (Thrown e, [E; G], snd generation)
      | Returned analysisText =>
          match fst comparison with
          | Thrown e => (Thrown e, [E; G; C], snd comparison)
          | Returned comparisonText =>
              match selectBestValue relevantProducts,
                    selectTopRated relevantProducts with
              | Some best, Some top =>
                  (Returned
                     {| products := slice 0 5 relevantProducts;
                        analysis := analysisText;
                        reasoning := comparisonText;
                        alternatives := Some (slice 5 10 relevantProducts);
                        bestValue := best;
                        topRated := top |},
                   [E; G; C], snd comparison)
              | _, _ =>
                  (Thrown (JsError "Reduce of empty array with no initial value"),
                   [E; G; C], snd comparison)
              end
          end
      end
  end.
Proof.
  cbv zeta. unfold generateRecommendations.
  rewrite run_rethrow, run_bind, run_retrieveRelevantProducts.
  destruct (ans _ (ExtractQueryEntities (text query)) w) as [extraction w1].
  cbn [fst snd]. generalize (retrieved db query extraction).
  intros [|p ps]; [reflexivity|]. cbn [length Nat.eqb].
  rewrite run_bind, run_await. fold (contextFor query (p :: ps)).
  destruct (ans _ (GenerateRecommendations (text query)
                     (contextFor query (p :: ps))) w1)
    as [[analysisText|e] w2]; [|reflexivity].
  cbn [fst snd]. rewrite run_bind, run_await.
  destruct (ans _ (CompareProducts (slice 0 5 (p :: ps)) (text query)) w2)
    as [[comparisonText|e] w3]; [|reflexivity].
  cbn [fst snd]. rewrite run_bind.
  destruct (selectBestValue (p :: ps)) as [best|]; [|reflexivity].
  cbn [reduced run]. rewrite run_bind.
  destruct (selectTopRated (p :: ps)) as [top|]; reflexivity.
Qed.

(** C3 (as amended): when the
    extraction call throws, as it does on a failed request and on a response
    that [JSON.parse] rejects, the error does not leave the Retriever: it is
    caught there, retrieval returns no candidates without searching the
    catalog, and [generateRecommendations] then fails with the
    no-products-found error, having made no further call. *)
Theorem extraction_failure_yields_no_candidates {W : Type} (ans : oracle W)
  (db : ProductDatabase) (query : SearchQuery) (w : W) (e : exn) :
  fst (ans _ (ExtractQueryEntities (text query)) w) = Thrown e ->
  run ans (retrieveRelevantProducts db query) w =
    (Returned [], [Invoke (ExtractQueryEntities (text query))],
     snd (ans _ (ExtractQueryEntities (text query)) w)) /\
  run ans (generateRecommendations db query) w =
    (Thrown (JsError noProductsMessage),
     [Invoke (ExtractQueryEntities (text query))],
     snd (ans _ (ExtractQueryEntities (text query)) w)).
Proof.
  intros He. split.
  - now rewrite run_retrieveRelevantProducts, He.
  - rewrite run_generateRecommendations. cbv zeta. now rewrite He.
Qed.

Lemma extraction_failure_yields_no_candidates_witness :
  fst (failingExtraction _ (ExtractQueryEntities (text phoneQuery)) tt)
    = Thrown (JsError "Unexpected token < in JSON at position 0") /\
  (run failingExtraction (retrieveRelevantProducts laptopDb phoneQuery) tt =
     (Returned [], [Invoke (ExtractQueryEntities (text phoneQuery))],
      snd (failingExtraction _ (ExtractQueryEntities (text phoneQuery)) tt)) /\
   run failingExtraction (generateRecommendations laptopDb phoneQuery) tt =
     (Thrown (JsError noProductsMessage),
      [Invoke (ExtractQueryEntities (text phoneQuery))],
      snd (failingExtraction _ (ExtractQueryEntities (text phoneQuery)) tt))).
Proof.
  split; [reflexivity|].
  apply (extraction_failure_yields_no_candidates failingExtraction laptopDb
           phoneQuery tt (JsError "Unexpected token < in JSON at position 0")).
  reflexivity.
Defined.

(** C3, the claim as it stands, fails: with an empty intent retrieval over
    the catalog finds the three laptops, but when the extraction throws,
    retrieval returns nothing and the request fails. *)
Lemma extraction_failure_counterexample :
  selectRelevant laptopDb phoneQuery emptyEntities
    = [laptop2; laptop1; laptop3] /\
  run failingExtraction (retrieveRelevantProducts laptopDb phoneQuery) tt
    = (Returned [], [Invoke (ExtractQueryEntities "a phone")], tt) /\
  run failingExtraction (generateRecommendations laptopDb phoneQuery) tt
    = (Thrown (JsError noProductsMessage),
       [Invoke (ExtractQueryEntities "a phone")], tt).
Proof. repeat split. Qed.

(** C4: when retrieval produces no candidate, [generateRecommendations]
    throws the error whose message says that no products were found, and
    the only call made is the extraction: neither the recommendation call
    nor the comparison call is invoked. *)
Theorem no_candidates_is_no_match_error {W : Type} (ans : oracle W)
  (db : ProductDatabase) (query : SearchQuery) (w : W) :
  fst (fst (run ans (retrieveRelevantProducts db query) w)) = Returned [] ->
  fst (run ans (generateRecommendations db query) w) =
    (Thrown (JsError noProductsMessage),
     [Invoke (ExtractQueryEntities (text query))]) /\
  Forall (fun i => is_generate i = false /\ is_compare i = false)
    (snd (fst (run ans (generateRecommendations db query) w))).
Proof.
  rewrite run_retrieveRelevantProducts. cbn [fst]. intros [= Hnone].
  rewrite run_generateRecommendations. cbv zeta. rewrite Hnone. cbn [fst snd].
  split; [reflexivity|]. repeat constructor.
Qed.

Lemma no_candidates_is_no_match_error_witness :
  fst (fst (run phoneService (retrieveRelevantProducts [] phoneQuery) tt))
    = Returned [] /\
  (fst (run phoneService (generateRecommendations [] phoneQuery) tt) =
     (Thrown (JsError noProductsMessage),
      [Invoke (ExtractQueryEntities (text phoneQuery))]) /\
   Forall (fun i => is_generate i = false /\ is_compare i = false)
     (snd (fst (run phoneService (generateRecommendations [] phoneQuery) tt)))).
Proof.
  split; [reflexivity|].
  apply (no_candidates_is_no_match_error phoneService [] phoneQuery tt).
  reflexivity.
Defined.

(** C7: retrieval returns at most 10 products; whatever the services
    answer, a recommendation call carries all of them and a comparison
    call carries their first five, at most 5 products. *)
Theorem retrieval_and_calls_are_bounded {W : Type} (ans : oracle W)
  (db : ProductDatabase) (query : SearchQuery) (w : W) :
  exists relevantProducts,
    fst (fst (run ans (retrieveRelevantProducts db query) w))
      = Returned relevantProducts /\
    (length relevantProducts <= 10)%nat /\
    Forall (within_bounds relevantProducts)
      (snd (fst (run ans (generateRecommendations db query) w))).
Proof.
  exists (retrieved db query (fst (ans _ (ExtractQueryEntities (text query)) w))).
  rewrite run_retrieveRelevantProducts, run_generateRecommendations.
  cbv zeta. cbn [fst].
  destruct (ans _ (ExtractQueryEntities (text query)) w) as [extraction w1].
  cbn [fst snd]. split; [reflexivity|]. split.
  - destruct extraction as [entities|e]; simpl.
    + apply selectRelevant_length.
    + lia.
  - assert (HC : within_bounds (retrieved db query extraction)
                   (Invoke (CompareProducts
                              (slice 0 5 (retrieved db query extraction))
                              (text query)))).
    { split; [reflexivity | apply (slice_length 0 5)]. }
    destruct (retrieved db query extraction) as [|p ps] eqn:Hrel.
    { trace_within_bounds HC. }
    destruct (ans _ (GenerateRecommendations (text query)
                       (contextFor query (p :: ps))) w1)
      as [[analysisText|e] w2]; cbn [fst snd].
    2: { trace_within_bounds HC. }
    destruct (ans _ (CompareProducts (slice 0 5 (p :: ps)) (text query)) w2)
      as [[comparisonText|e] w3]; cbn [fst snd].
    2: { trace_within_bounds HC. }
    destruct (selectBestValue (p :: ps)), (selectTopRated (p :: ps));
      trace_within_bounds HC.
Qed.

(** With six candidates the recommendation call carries six products and
    the comparison call five. *)
Example tablets_calls :
  exists rec context ps,
    run tabletService
      (generateRecommendations (indexProducts tablets "tablets" []) phoneQuery) tt
      = (Returned rec,
         [Invoke (ExtractQueryEntities "a phone");
          Invoke (GenerateRecommendations "a phone" context);
          Invoke (CompareProducts ps "a phone")], tt) /\
    productData context = Some tablets /\
    ps = take 5 tablets.
Proof. eexists _, _, _. split; [vm_compute; reflexivity|]. split; reflexivity. Qed.

Lemma reduce_In {A : Type} (f : A -> A -> A) (l : list A) (a : A) :
  (forall x y, f x y = x \/ f x y = y) -> reduce f l = Some a -> In a l.
Proof.
  intros Hf. destruct l as [|x l]; [discriminate|].
  intros [= <-]. now apply fold_left_choice.
Qed.

(** C8: on success, [products] and [alternatives] are the first five and
    the next five of the candidates retrieved and together make up all of
    them; [bestValue] and [topRated] are selected over all of them, and
    each is one of them. *)
Theorem selections_are_candidates {W : Type} (ans : oracle W)
  (db : ProductDatabase) (query : SearchQuery) (w : W)
  (rec : RAGRecommendation) :
  fst (fst (run ans (generateRecommendations db query) w)) = Returned rec ->
  exists relevantProducts,
    fst (fst (run ans (retrieveRelevantProducts db query) w))
      = Returned relevantProducts /\
    products rec = slice 0 5 relevantProducts /\
    alternatives rec = Some (slice 5 10 relevantProducts) /\
    products rec ++ default [] (alternatives rec) = relevantProducts /\
    selectBestValue relevantProducts = Some (bestValue rec) /\
    selectTopRated relevantProducts = Some (topRated rec) /\
    In (bestValue rec) (products rec ++ default [] (alternatives rec)) /\
    In (topRated rec) (products rec ++ default [] (alternatives rec)).
Proof.
  exists (retrieved db query (fst (ans _ (ExtractQueryEntities (text query)) w))).
  revert H. rewrite run_retrieveRelevantProducts, run_generateRecommendations.
  cbv zeta.
  destruct (ans _ (ExtractQueryEntities (text query)) w) as [extraction w1].
  cbn [fst snd].
  assert (Hlen : (length (retrieved db query extraction) <= 10)%nat).
  { destruct extraction as [entities|e]; simpl;
      [apply selectRelevant_length | lia]. }
  destruct (retrieved db query extraction) as [|p ps] eqn:Hrel; [discriminate|].
  destruct (ans _ (GenerateRecommendations (text query)
                     (contextFor query (p :: ps))) w1)
    as [[analysisText|e] w2]; cbn [fst snd]; [|discriminate].
  destruct (ans _ (CompareProducts (slice 0 5 (p :: ps)) (text query)) w2)
    as [[comparisonText|e] w3]; cbn [fst snd]; [|discriminate].
  destruct (selectBestValue (p :: ps)) as [best|] eqn:Hbest; [|discriminate].
  destruct (selectTopRated (p :: ps)) as [top|] eqn:Htop; [|discriminate].
  cbn [fst]. intros [= <-]. cbn [products alternatives bestValue topRated default].
  unfold Datatypes.id.
  rewrite (slice_5_10 (p :: ps) Hlen).
  repeat split; try reflexivity.
  - eapply reduce_In; [|exact Hbest].
    intros x y. cbn beta. destruct (Qgtb (valueRatio x) (valueRatio y)); auto.
  - eapply reduce_In; [|exact Htop].
    intros x y. cbn beta. destruct (Qgtb (rating x) (rating y)); auto.
Qed.

Lemma selections_are_candidates_witness :
  fst (fst (run laptopService (generateRecommendations laptopDb laptopQuery) tt))
    = Returned laptopRecommendation /\
  exists relevantProducts,
    fst (fst (run laptopService (retrieveRelevantProducts laptopDb laptopQuery) tt))
      = Returned relevantProducts /\
    products laptopRecommendation = slice 0 5 relevantProducts /\
    alternatives laptopRecommendation = Some (slice 5 10 relevantProducts) /\
    products laptopRecommendation ++ default [] (alternatives laptopRecommendation)
      = relevantProducts /\
    selectBestValue relevantProducts = Some (bestValue laptopRecommendation) /\
    selectTopRated relevantProducts = Some (topRated laptopRecommendation) /\
    In (bestValue laptopRecommendation)
      (products laptopRecommendation
         ++ default [] (alternatives laptopRecommendation)) /\
    In (topRated laptopRecommendation)
      (products laptopRecommendation
         ++ default [] (alternatives laptopRecommendation)).
Proof.
  split; [reflexivity|].
  apply (selections_are_candidates laptopService laptopDb laptopQuery tt
           laptopRecommendation).
  reflexivity.
Defined.

(** The selection looks beyond the five products shown: the best value
    among the six tablets is the sixth, which is among the alternatives. *)
Example bestValue_beyond_top5 :
  exists rec tr,
    run tabletService
      (generateRecommendations (indexProducts tablets "tablets" []) phoneQuery) tt
      = (Returned rec, tr, tt) /\
    length (products rec) = 5%nat /\
    alternatives rec = Some [bestValue rec] /\
    id (bestValue rec) = "t6".
Proof. eexists _, _. split; [vm_compute; reflexivity|]. repeat split. Qed.

(** ** Translation *)

(** No language code contains a colon, so a cache key determines the
    language (and the text) it was built from. *)
Lemma extendedCode_no_colon (language : ExtendedIndianLanguage) :
  includes (extendedCode language) ":" = false.
Proof. destruct language as [[]| |]; reflexivity. Qed.

Lemma extendedCode_inj (l1 l2 : ExtendedIndianLanguage) :
  extendedCode l1 = extendedCode l2 -> l1 = l2.
Proof.
  destruct l1 as [[]| |], l2 as [[]| |]; simpl; intros H;
    first [reflexivity | discriminate H].
Qed.

Lemma no_colon_not_split (code pre post : string) :
  includes code ":" = false -> code <> pre +:+ ":" +:+ post.
Proof.
  intros Hfree Heq.
  assert (H : includes code ":" = true)
    by (apply includes_spec; now exists pre, post).
  congruence.
Qed.

Lemma key_split_unique (t1 t2 c1 c2 : string) :
  includes c1 ":" = false -> includes c2 ":" = false ->
  t1 +:+ ":" +:+ c1 = t2 +:+ ":" +:+ c2 -> t1 = t2 /\ c1 = c2.
Proof.
  intros H1 H2. revert t2.
  induction t1 as [|a t1 IH]; intros [|b t2] Heq.
  - rewrite !append_nil_l, !append_cons, !append_nil_l in Heq.
    now injection Heq as ->.
  - rewrite append_nil_l, !append_cons, append_nil_l in Heq.
    injection Heq as _ Heq. now apply no_colon_not_split in Heq.
  - rewrite append_nil_l, !append_cons, append_nil_l in Heq.
    injection Heq as _ Heq. symmetry in Heq.
    now apply no_colon_not_split in Heq.
  - rewrite !append_cons in Heq. injection Heq as -> Heq.
    destruct (IH t2 Heq) as [-> ->]. now split.
Qed.

Lemma cacheKey_inj (t1 t2 : string) (l1 l2 : ExtendedIndianLanguage) :
  cacheKey t1 l1 = cacheKey t2 l2 -> t1 = t2 /\ l1 = l2.
Proof.
  unfold cacheKey. intros H.
  apply key_split_unique in H as [-> H]; auto using extendedCode_no_colon.
  split; [reflexivity | now apply extendedCode_inj].
Qed.

(** The run of the uncached path, call by call. *)
Lemma run_translateUncached {W : Type} (ans : oracle W) (text : string)
  (language : ExtendedIndianLanguage) (cache : gmap string LocalizedContent)
  (w : W) :
  let T := TranslateForIndianLanguage text (translationTarget language) in
  let translation := ans _ T w in
  let date := ans _ NewDate (snd translation) in
  run ans (translateUncached text language cache) w =
  match fst translation with
  | Thrown e => (Thrown e, [Invoke T], snd translation)
  | Returned t =>
      let translatedText :=
        if isFallback language then fallbackMarker +:+ t else t in
      (Returned
         (translatedText,
          <[cacheKey text language :=
              {| lc_language := language; originalText := text;
                 translatedText := translatedText;
                 translatedAt := fst date |}]> cache),
       [Invoke T; Invoke NewDate], snd date)
  end.
Proof.
  cbv zeta. unfold translateUncached. rewrite run_bind.
  destruct language as [l| |]; cbn [translationTarget isFallback].
  - rewrite run_await.
    destruct (ans _ (TranslateForIndianLanguage text l) w) as [[t|e] w1];
      cbn [fst snd]; [|reflexivity].
    simpl. now destruct (ans Z NewDate w1) as [now w2].
  - rewrite run_bind, run_await.
    destruct (ans _ (TranslateForIndianLanguage text hindi) w) as [[t|e] w1];
      cbn [fst snd]; [|reflexivity].
    simpl. now destruct (ans Z NewDate w1) as [now w2].
  - rewrite run_bind, run_await.
    destruct (ans _ (TranslateForIndianLanguage text hindi) w) as [[t|e] w1];
      cbn [fst snd]; [|reflexivity].
    simpl. now destruct (ans Z NewDate w1) as [now w2].
Qed.

Lemma run_translateToIndianLanguage {W : Type} (ans : oracle W) (text : string)
  (language : ExtendedIndianLanguage) (useCache : bool)
  (cache : gmap string LocalizedContent) (w : W) :
  run ans (translateToIndianLanguage text language useCache cache) w =
  match cache !! cacheKey text language with
  | Some hit =>
      if useCache then (Returned (translatedText hit, cache), [], w)
      else run ans (translateUncached text language cache) w
  | None => run ans (translateUncached text language cache) w
  end.
Proof.
  unfold translateToIndianLanguage. rewrite run_rethrow.
  destruct (cache !! cacheKey text language) as [hit|]; [|reflexivity].
  now destruct useCache.
Qed.

(** One translation: what it returns, and that it keeps the invariant of
    the cache. *)
Lemma translate_step {W : Type} (ans : oracle W) (text : string)
  (language : ExtendedIndianLanguage) (useCache : bool)
  (cache cache' : gmap string LocalizedContent) (w w' : W) (s : string)
  (tr : list invocation) :
  cache_inv ans cache ->
  run ans (translateToIndianLanguage text language useCache cache) w
    = (Returned (s, cache'), tr, w') ->
  (if isFallback language then marked s
   else clean_translations ans -> ~ marked s) /\
  cache_inv ans cache'.
Proof.
  intros Hinv. rewrite run_translateToIndianLanguage.
  assert (Hmiss : run ans (translateUncached text language cache) w
                    = (Returned (s, cache'), tr, w') ->
                  (if isFallback language then marked s
                   else clean_translations ans -> ~ marked s) /\
                  cache_inv ans cache').
  { rewrite run_translateUncached. cbv zeta.
    destruct (ans _ (TranslateForIndianLanguage text (translationTarget language)) w)
      as [[t|e] w1] eqn:Hans; cbn [fst snd]; [|discriminate].
    intros [= <- <- _ _].
    assert (Hs : if isFallback language
                 then marked (if isFallback language
                              then fallbackMarker +:+ t else t)
                 else clean_translations ans ->
                      ~ marked (if isFallback language
                                then fallbackMarker +:+ t else t)).
    { destruct (isFallback language).
      - now exists t.
      - intros Hclean. apply (Hclean text (translationTarget language) w).
        now rewrite Hans. }
    split; [exact Hs|].
    intros text2 language2 hit2.
    destruct (decide (cacheKey text language = cacheKey text2 language2))
      as [Hkey|Hkey].
    - rewrite <- Hkey, lookup_insert_eq. intros [= <-].
      apply cacheKey_inj in Hkey as [_ <-]. exact Hs.
    - rewrite lookup_insert_ne by exact Hkey. apply Hinv. }
  destruct (cache !! cacheKey text language) as [hit|] eqn:Hhit; [|exact Hmiss].
  destruct useCache; [|exact Hmiss].
  intros [= <- <- _ _]. split; [|exact Hinv].
  apply (Hinv text language hit Hhit).
Qed.

Lemma reachable_cache_inv {W : Type} (ans : oracle W)
  (cache : gmap string LocalizedContent) :
  reachable_cache ans cache -> cache_inv ans cache.
Proof.
  induction 1 as [|cache text language useCache w s cache' tr w' _ IH Hrun].
  - intros text language hit Hhit. now rewrite lookup_empty in Hhit.
  - now apply (translate_step ans text language useCache cache cache' w w' s tr).
Qed.

(** C9: a translation requested for bengali or punjabi returns a text
    prefixed with the fallback marker, and when it is not served from the
    cache the text behind the marker is what the service answered for
    Hindi; for a natively supported language the service is called for that
    language and its answer is returned as it is, so the result carries no
    marker unless the service put one there. *)
Theorem fallback_translation_is_marked {W : Type} (ans : oracle W)
  (text : string) (language : ExtendedIndianLanguage) (useCache : bool)
  (cache cache' : gmap string LocalizedContent) (w w' : W) (s : string)
  (tr : list invocation) :
  reachable_cache ans cache ->
  run ans (translateToIndianLanguage text language useCache cache) w
    = (Returned (s, cache'), tr, w') ->
  match language with
  | native l =>
      (clean_translations ans -> ~ marked s) /\
      (useCache = false \/ cache !! cacheKey text language = None ->
       fst (ans _ (TranslateForIndianLanguage text l) w) = Returned s /\
       tr = [Invoke (TranslateForIndianLanguage text l); Invoke NewDate])
  | bengali | punjabi =>
      marked s /\
      (useCache = false \/ cache !! cacheKey text language = None ->
       exists t,
         fst (ans _ (TranslateForIndianLanguage text hindi) w) = Returned t /\
         s = fallbackMarker +:+ t /\
         tr = [Invoke (TranslateForIndianLanguage text hindi); Invoke NewDate])
  end.
Proof.
  intros Hreach Hrun.
  destruct (translate_step ans text language useCache cache cache' w w' s tr
              (reachable_cache_inv ans cache Hreach) Hrun) as [Hs _].
  assert (Hfresh :
            useCache = false \/ cache !! cacheKey text language = None ->
            exists t,
              fst (ans _ (TranslateForIndianLanguage text
                            (translationTarget language)) w) = Returned t /\
              s = (if isFallback language then fallbackMarker +:+ t else t) /\
              tr = [Invoke (TranslateForIndianLanguage text
                              (translationTarget language)); Invoke NewDate]).
  { intros Hmiss. rewrite run_translateToIndianLanguage in Hrun.
    assert (Hun : run ans (translateUncached text language cache) w
                    = (Returned (s, cache'), tr, w')).
    { destruct Hmiss as [-> | Hnone].
      - destruct (cache !! cacheKey text language); exact Hrun.
      - rewrite Hnone in Hrun. exact Hrun. }
    rewrite run_translateUncached in Hun. cbv zeta in Hun.
    destruct (ans _ (TranslateForIndianLanguage text
                       (translationTarget language)) w) as [[t|e] w1];
      cbn [fst snd] in *; [|discriminate].
    injection Hun as <- _ <- _. now exists t. }
  destruct language as [l| |]; cbn [isFallback translationTarget] in *.
  - split; [exact Hs|]. intros Hmiss.
    destruct (Hfresh Hmiss) as (t & Ht & -> & Htr). now split.
  - split; [exact Hs | exact Hfresh].
  - split; [exact Hs | exact Hfresh].
Qed.

Lemma fallback_translation_is_marked_witness :
  reachable_cache bracketService ∅ /\
  run bracketService (translateToIndianLanguage "Best phone" bengali true ∅) tt
    = (Returned ("[Fallback via Hindi] <Best phone>", bengaliCache),
       [Invoke (TranslateForIndianLanguage "Best phone" hindi); Invoke NewDate],
       tt) /\
  (marked "[Fallback via Hindi] <Best phone>" /\
   (true = false \/ (∅ : gmap string LocalizedContent)
                        !! cacheKey "Best phone" bengali = None ->
    exists t,
      fst (bracketService _ (TranslateForIndianLanguage "Best phone" hindi) tt)
        = Returned t /\
      "[Fallback via Hindi] <Best phone>" = fallbackMarker +:+ t /\
      [Invoke (TranslateForIndianLanguage "Best phone" hindi); Invoke NewDate]
      = [Invoke (TranslateForIndianLanguage "Best phone" hindi); Invoke NewDate])).
Proof.
  split; [constructor|]. split; [reflexivity|].
  apply (fallback_translation_is_marked bracketService "Best phone" bengali true
           ∅ bengaliCache tt tt "[Fallback via Hindi] <Best phone>"
           [Invoke (TranslateForIndianLanguage "Best phone" hindi); Invoke NewDate]).
  - constructor.
  - reflexivity.
Defined.

(** Served from the cache, the Bengali translation still carries the
    marker, and no call is made; a Tamil translation carries none. *)
Example fallback_translation_cached :
  run bracketService
    (translateToIndianLanguage "Best phone" bengali true bengaliCache) tt
    = (Returned ("[Fallback via Hindi] <Best phone>", bengaliCache), [], tt) /\
  fst (fst (run bracketService
              (translateToIndianLanguage "Best phone" (native tamil) true
                 bengaliCache) tt))
    = Returned ("<Best phone>",
                <[cacheKey "Best phone" (native tamil) :=
                    {| lc_language := native tamil; originalText := "Best phone";
                       translatedText := "<Best phone>"; translatedAt := 0 |}]>
                  bengaliCache).
Proof. split; reflexivity. Qed.

(** [bracketService] is clean, and what it answers for Tamil is returned
    without a marker. *)
Example native_translation_unmarked :
  clean_translations bracketService /\ ~ marked "<Best phone>".
Proof.
  split.
  - intros t l w s [= <-] [rest Hrest]. discriminate Hrest.
  - intros [rest Hrest]. discriminate Hrest.
Qed.

(** * Further properties *)

(** ** The product database *)

Lemma map_has_In (category : string) (db : ProductDatabase) :
  map_has category db = true <-> In category (keys db).
Proof.
  unfold map_has. rewrite existsb_exists. split.
  - intros [c [Hin Heq]]. now apply String.eqb_eq in Heq as ->.
  - intros Hin. exists category. split; [exact Hin | apply String.eqb_refl].
Qed.

Lemma map_set_keys (category : string) (ps : list Product) (db : ProductDatabase) :
  keys (map_set category ps db) =
  if map_has category db then keys db else keys db ++ [category].
Proof.
  induction db as [|[c old] db IH]; [reflexivity|].
  unfold map_has in *. simpl. rewrite (String.eqb_sym category c).
  destruct (String.eqb c category) eqn:Hc; simpl.
  - now apply String.eqb_eq in Hc as ->.
  - rewrite IH. now destruct (existsb (String.eqb category) (keys db)).
Qed.

Lemma map_set_NoDup (category : string) (ps : list Product) (db : ProductDatabase) :
  NoDup (keys db) -> NoDup (keys (map_set category ps db)).
Proof.
  intros Hdb. rewrite map_set_keys.
  destruct (map_has category db) eqn:Hin; [exact Hdb|].
  assert (Hnot : ~ In category (keys db)).
  { rewrite <- map_has_In. congruence. }
  apply NoDup_app. split; [exact Hdb|]. split.
  - intros x Hx Hx'. apply list_elem_of_In in Hx.
    apply list_elem_of_singleton in Hx'. now subst.
  - apply NoDup_singleton.
Qed.

(** X1: indexing replaces.  In a database with distinct category names,
    after [indexProducts products category] the entries are the given
    products under [category] and, under every other name, exactly what
    was there before: the old products of the category are gone, nothing is
    merged. *)
Theorem indexProducts_replaces_category (ps : list Product) (category : string)
  (db : ProductDatabase) :
  NoDup (keys db) ->
  forall c' ps',
    In (c', ps') (indexProducts ps category db) <->
    (c' = category /\ ps' = ps) \/ (c' <> category /\ In (c', ps') db).
Proof.
  unfold indexProducts. induction db as [|[c old] db IH]; intros Hdb c' ps'.
  - simpl. split.
    + intros [[= <- <-]|[]]. now left.
    + intros [[-> ->]|[_ []]]. now left.
  - simpl in Hdb. apply NoDup_cons in Hdb as [Hc Hdb].
    simpl. destruct (String.eqb c category) eqn:Heq.
    + apply String.eqb_eq in Heq as ->. simpl. split.
      * intros [[= <- <-]|Hin]; [now left|]. right. split; [|now right].
        intros ->. apply Hc, list_elem_of_In.
        change category with (fst (category, ps')). now apply in_map.
      * intros [[-> ->]|[Hne [[= <- <-]|Hin]]];
          [now left | congruence | now right].
    + apply String.eqb_neq in Heq. simpl. rewrite (IH Hdb). split.
      * intros [[= <- <-]|[H|[Hne Hin]]].
        -- right. split; [exact Heq | now left].
        -- now left.
        -- right. split; [exact Hne | now right].
      * intros [H|[Hne [[= <- <-]|Hin]]].
        -- right. now left.
        -- now left.
        -- right. right. now split.
Qed.

Lemma indexProducts_replaces_category_witness :
  NoDup (keys laptopDb) /\
  forall c' ps',
    In (c', ps') (indexProducts [phoneA] "laptops" laptopDb) <->
    (c' = "laptops" /\ ps' = [phoneA]) \/ (c' <> "laptops" /\ In (c', ps') laptopDb).
Proof.
  assert (H : NoDup (keys laptopDb)).
  { apply NoDup_cons. split; [|apply NoDup_nil_2].
    intros Hin. now apply elem_of_nil in Hin. }
  split; [exact H|].
  apply (indexProducts_replaces_category [phoneA] "laptops" laptopDb H).
Defined.

(** X2: the position of a category.  Indexing a category that is already
    there replaces its products where the entry stands, leaving the order
    of the categories as it was; a new category goes to the end. *)
Theorem indexProducts_keeps_position (ps : list Product) (category : string)
  (db : ProductDatabase) :
  (map_has category db = false /\
   indexProducts ps category db = db ++ [(category, ps)]) \/
  (exists pre old post,
     db = pre ++ (category, old) :: post /\
     ~ In category (keys pre) /\
     indexProducts ps category db = pre ++ (category, ps) :: post).
Proof.
  unfold indexProducts. induction db as [|[c old] db IH].
  - left. split; reflexivity.
  - simpl. destruct (String.eqb c category) eqn:Heq.
    + apply String.eqb_eq in Heq as ->. right.
      exists [], old, db. repeat split. intros [].
    + apply String.eqb_neq in Heq.
      destruct IH as [[Hhas ->]|(pre & old' & post & -> & Hpre & ->)].
      * left. split; [|reflexivity].
        unfold map_has in *. simpl. rewrite Hhas.
        assert (H : String.eqb category c = false)
          by (apply String.eqb_neq; congruence).
        now rewrite H.
      * right. exists ((c, old) :: pre), old', post. repeat split.
        simpl. intros [H|H]; [congruence | now apply Hpre].
Qed.

(** X3: whatever calls of [indexProducts] were made on a new pipeline, no
    category name occurs twice in the database. *)
Theorem indexed_categories_are_distinct (calls : list (list Product * string)) :
  NoDup (keys (indexedBy calls)).
Proof.
  unfold indexedBy.
  enough (H : forall db, NoDup (keys db) ->
                NoDup (keys (fold_left
                               (fun db call => indexProducts call.1 call.2 db)
                               calls db)))
    by (apply H; apply NoDup_nil_2).
  induction calls as [|[ps c] calls IH]; intros db Hdb; [exact Hdb|].
  simpl. apply IH. now apply map_set_NoDup.
Qed.

(** X4: the last call wins.  Indexing a category twice in a row gives the
    database that the second call alone gives; in particular the call is
    idempotent. *)
Theorem indexProducts_last_write_wins (ps1 ps2 : list Product)
  (category : string) (db : ProductDatabase) :
  indexProducts ps2 category (indexProducts ps1 category db) =
  indexProducts ps2 category db.
Proof.
  unfold indexProducts. induction db as [|[c old] db IH]; simpl.
  - now rewrite String.eqb_refl.
  - destruct (String.eqb c category) eqn:Heq; simpl; rewrite Heq.
    + reflexivity.
    + now rewrite IH.
Qed.

(** ** Knowledge base statistics *)

Lemma stats_fold (db : ProductDatabase) (init : KnowledgeBase.Stats) :
  fold_left
    (fun stats '(category, ps) =>
       {| KnowledgeBase.categoriesCount := KnowledgeBase.categoriesCount stats;
          KnowledgeBase.totalProducts :=
            (KnowledgeBase.totalProducts stats + length ps)%nat;
          KnowledgeBase.categories :=
            KnowledgeBase.categories stats
              ++ [{| KnowledgeBase.name := category;
                     KnowledgeBase.productCount := length ps |}] |})
    db init =
  {| KnowledgeBase.categoriesCount := KnowledgeBase.categoriesCount init;
     KnowledgeBase.totalProducts :=
       (KnowledgeBase.totalProducts init
        + list_sum (List.map (fun entry => length entry.2) db))%nat;
     KnowledgeBase.categories :=
       KnowledgeBase.categories init
         ++ List.map
              (fun entry => {| KnowledgeBase.name := entry.1;
                               KnowledgeBase.productCount := length entry.2 |})
              db |}.
Proof.
  revert init. induction db as [|[c ps] db IH]; intros init; simpl.
  - rewrite Nat.add_0_r, app_nil_r. now destruct init.
  - rewrite IH. simpl. f_equal; [lia|]. now rewrite <- app_assoc.
Qed.

Lemma stats_total (db : ProductDatabase) :
  KnowledgeBase.totalProducts (getKnowledgeBaseStats db) =
  list_sum (List.map (fun entry => length entry.2) db).
Proof. unfold getKnowledgeBaseStats. now rewrite stats_fold. Qed.

Lemma stats_count (db : ProductDatabase) :
  KnowledgeBase.categoriesCount (getKnowledgeBaseStats db) = length db.
Proof. unfold getKnowledgeBaseStats. now rewrite stats_fold. Qed.

(** X5: the statistics describe the database.  There is one record per
    category, in the order of the database, with the name and the number of
    products of the category; [categoriesCount] is the number of records
    and [totalProducts] the sum of their counts. *)
Theorem stats_describe_database (db : ProductDatabase) :
  KnowledgeBase.categories (getKnowledgeBaseStats db) =
    List.map
      (fun entry => {| KnowledgeBase.name := entry.1;
                       KnowledgeBase.productCount := length entry.2 |})
      db /\
  KnowledgeBase.categoriesCount (getKnowledgeBaseStats db) =
    length (KnowledgeBase.categories (getKnowledgeBaseStats db)) /\
  KnowledgeBase.totalProducts (getKnowledgeBaseStats db) =
    list_sum (List.map KnowledgeBase.productCount
                (KnowledgeBase.categories (getKnowledgeBaseStats db))).
Proof.
  unfold getKnowledgeBaseStats. rewrite stats_fold. cbn.
  split; [reflexivity|]. split.
  - now rewrite length_map.
  - rewrite List.map_map. reflexivity.
Qed.

(** X6: what indexing does to the statistics.  A new category adds one to
    [categoriesCount], an existing one leaves it; [totalProducts] grows by
    the number of products indexed and shrinks by the number of products
    the category held before. *)
Theorem stats_after_indexing (ps : list Product) (category : string)
  (db : ProductDatabase) :
  KnowledgeBase.categoriesCount
    (getKnowledgeBaseStats (indexProducts ps category db)) =
    (if map_has category db
     then KnowledgeBase.categoriesCount (getKnowledgeBaseStats db)
     else S (KnowledgeBase.categoriesCount (getKnowledgeBaseStats db))) /\
  (KnowledgeBase.totalProducts
     (getKnowledgeBaseStats (indexProducts ps category db))
   + length (default [] (map_get category db)) =
   KnowledgeBase.totalProducts (getKnowledgeBaseStats db) + length ps)%nat.
Proof.
  rewrite !stats_count, !stats_total. unfold indexProducts, map_has.
  induction db as [|[c old] db [IHc IHt]]; simpl.
  - split; lia.
  - rewrite (String.eqb_sym category c).
    destruct (String.eqb c category) eqn:Heq; simpl.
    + split; [reflexivity | lia].
    + destruct (existsb (String.eqb category) (keys db)); split; lia.
Qed.

(** ** More on retrieval *)

Lemma categoryMatches_related (productType category : string) :
  categoryMatches productType category = true <-> related productType category.
Proof.
  unfold categoryMatches, related. now rewrite orb_true_iff, !includes_spec.
Qed.

Lemma budgetFilter_In_iff (query : SearchQuery) (entities : Entities)
  (ps : list Product) (p : Product) :
  In p (budgetFilter query entities ps) <-> In p ps /\ withinBudget query entities p.
Proof.
  rewrite budgetFilter_resolved. unfold withinBudget.
  destruct (resolvedBudget query entities) as [B|]; [|tauto].
  destruct (Qgtb B 0); [|tauto].
  now rewrite filter_In, Qleb_true.
Qed.

Lemma brandFilter_In_iff (query : SearchQuery) (ps : list Product) (p : Product) :
  In p (brandFilter query ps) <-> In p ps /\ matchesBrands query p.
Proof.
  unfold brandFilter, matchesBrands.
  destruct (brands query) as [[|b bs]|]; simpl; try tauto.
  rewrite filter_In. cbn [existsb]. rewrite orb_true_iff, existsb_exists, includes_spec.
  split.
  - intros [Hp [Hb|[b' [Hin Hb]]]]; (split; [exact Hp|]).
    + exists b. split; [now left | exact Hb].
    + exists b'. split; [now right | now apply includes_spec].
  - intros [Hp [b' [[<-|Hin] Hb]]]; (split; [exact Hp|]).
    + now left.
    + right. exists b'. split; [exact Hin | now apply includes_spec].
Qed.

(** X7: the candidates, exactly.  A product is a candidate (before sorting
    and truncation) if and only if it is indexed under a category related
    to the extracted product type, its price passes the budget filter and
    its name passes the brand filter: the lower-cased name contains one of
    the lower-cased brands of the query, when the query names any. *)
Theorem candidates_are_exactly_the_matches (db : ProductDatabase)
  (query : SearchQuery) (entities : Entities) (p : Product) :
  In p (collectRelevant db query entities) <->
  exists category ps,
    In (category, ps) db /\
    related (default "" (productType entities)) category /\
    In p ps /\
    withinBudget query entities p /\
    matchesBrands query p.
Proof.
  rewrite collectRelevant_contributions, in_flat_map. split.
  - intros [[category ps] [Hentry Hp]]. unfold contribution in Hp.
    cbn [fst snd] in Hp.
    destruct (categoryMatches _ category) eqn:Hmatch; [|contradiction].
    apply brandFilter_In_iff in Hp as [Hp Hbrand].
    apply budgetFilter_In_iff in Hp as [Hp Hbudget].
    exists category, ps. repeat split; try assumption.
    now apply categoryMatches_related.
  - intros (category & ps & Hentry & Hrel & Hp & Hbudget & Hbrand).
    exists (category, ps). split; [exact Hentry|].
    unfold contribution. cbn [fst snd].
    apply categoryMatches_related in Hrel. rewrite Hrel.
    apply brandFilter_In_iff. split; [|exact Hbrand].
    apply budgetFilter_In_iff. now split.
Qed.

Lemma sortByRating_strongly_sorted (l : list Product) :
  StronglySorted (fun a b => rating b <= rating a) (sortByRating l).
Proof.
  apply Sorted.Sorted_StronglySorted.
  - intros a b c Hab Hbc. now apply Qle_trans with (rating b).
  - apply sortByRating_descending.
Qed.

(** X8: retrieval is ordered by rating.  In the list retrieval returns,
    every product is rated at least as high as each product after it. *)
Theorem retrieval_is_ordered_by_rating (db : ProductDatabase)
  (query : SearchQuery) (entities : Entities) :
  StronglySorted (fun a b => rating b <= rating a)
    (selectRelevant db query entities).
Proof.
  pose proof (sortByRating_strongly_sorted (collectRelevant db query entities))
    as Hsorted.
  rewrite <- (take_drop 10 (sortByRating _)) in Hsorted.
  apply StronglySorted_app_1_l in Hsorted.
  unfold selectRelevant. now rewrite slice_from_0.
Qed.

(** X9: truncation drops the lowest rated.  The candidates are, up to
    order, the products retrieved together with the products dropped; no
    product dropped is rated higher than a product retrieved, and with at
    most 10 candidates nothing is dropped. *)
Theorem truncation_drops_the_lowest_rated (db : ProductDatabase)
  (query : SearchQuery) (entities : Entities) :
  exists dropped,
    collectRelevant db query entities ≡ₚ
      selectRelevant db query entities ++ dropped /\
    (forall p d,
       In p (selectRelevant db query entities) -> In d dropped ->
       rating d <= rating p) /\
    ((length (collectRelevant db query entities) <= 10)%nat -> dropped = []).
Proof.
  exists (drop 10 (sortByRating (collectRelevant db query entities))).
  unfold selectRelevant. rewrite slice_from_0. split; [|split].
  - now rewrite take_drop, sortByRating_perm.
  - intros p d Hp Hd.
    pose proof (sortByRating_strongly_sorted (collectRelevant db query entities))
      as Hsorted.
    rewrite <- (take_drop 10 (sortByRating _)) in Hsorted.
    apply (StronglySorted_app_1_elem_of _ _ _ p d Hsorted);
      now apply list_elem_of_In.
  - intros Hlen. apply drop_ge. now rewrite sortByRating_length.
Qed.

(** ** More on the orchestrator *)

Lemma run_request {W : Type} (ans : oracle W) (db : ProductDatabase)
  (query : SearchQuery) (w : W) :
  run ans (generateRecommendations db query) w =
  match candidatesOf ans db query w with
  | [] =>
      (Thrown (JsError noProductsMessage),
       [Invoke (ExtractQueryEntities (text query))],
       snd (extractionOf ans query w))
  | _ :: _ =>
      match fst (generationOf ans db query w) with
      | Thrown e =>
          (Thrown e,
           [Invoke (ExtractQueryEntities (text query));
            Invoke (generationCall ans db query w)],
           snd (generationOf ans db query w))
      | Returned analysisText =>
          match fst (comparisonOf ans db query w) with
          | Thrown e =>
              (Thrown e,
               [Invoke (ExtractQueryEntities (text query));
                Invoke (generationCall ans db query w);
                Invoke (comparisonCall ans db query w)],
               snd (comparisonOf ans db query w))
          | Returned comparisonText =>
              match selectBestValue (candidatesOf ans db query w),
                    selectTopRated (candidatesOf ans db query w) with
              | Some best, Some top =>
                  (Returned
                     {| products := slice 0 5 (candidatesOf ans db query w);
                        analysis := analysisText;
                        reasoning := comparisonText;
                        alternatives :=
                          Some (slice 5 10 (candidatesOf ans db query w));
                        bestValue := best;
                        topRated := top |},
                   [Invoke (ExtractQueryEntities (text query));
                    Invoke (generationCall ans db query w);
                    Invoke (comparisonCall ans db query w)],
                   snd (comparisonOf ans db query w))
              | _, _ =>
                  (Thrown (JsError "Reduce of empty array with no initial value"),
                   [Invoke (ExtractQueryEntities (text query));
                    Invoke (generationCall ans db query w);
                    Invoke (comparisonCall ans db query w)],
                   snd (comparisonOf ans db query w))
              end
          end
      end
  end.
Proof. apply run_generateRecommendations. Qed.

Lemma selections_exist (p : Product) (ps : list Product) :
  exists best top,
    selectBestValue (p :: ps) = Some best /\ selectTopRated (p :: ps) = Some top.
Proof. now eexists _, _. Qed.

(** X10: a failing recommendation or comparison call fails the request.
    With candidates at hand, when the recommendation call throws, the
    request throws the same error and the comparison call is not made;
    when the recommendation call returns and the comparison call throws,
    the request throws that error. *)
Theorem external_failures_propagate {W : Type} (ans : oracle W)
  (db : ProductDatabase) (query : SearchQuery) (w : W) (e : exn) :
  candidatesOf ans db query w <> [] ->
  fst (generationOf ans db query w) = Thrown e \/
  (exists analysisText,
     fst (generationOf ans db query w) = Returned analysisText /\
     fst (comparisonOf ans db query w) = Thrown e) ->
  fst (run ans (generateRecommendations db query) w) =
    (Thrown e,
     match fst (generationOf ans db query w) with
     | Thrown _ =>
         [Invoke (ExtractQueryEntities (text query));
          Invoke (generationCall ans db query w)]
     | Returned _ =>
         [Invoke (ExtractQueryEntities (text query));
          Invoke (generationCall ans db query w);
          Invoke (comparisonCall ans db query w)]
     end).
Proof.
  intros Hne Hfail. rewrite run_request.
  destruct (candidatesOf ans db query w) as [|p ps]; [congruence|].
  destruct Hfail as [-> | [analysisText [-> ->]]]; reflexivity.
Qed.

Lemma external_failures_propagate_witness :
  candidatesOf failingGeneration laptopDb laptopQuery tt <> [] /\
  (fst (generationOf failingGeneration laptopDb laptopQuery tt)
     = Thrown (JsError "quota exceeded") \/
   (exists analysisText,
      fst (generationOf failingGeneration laptopDb laptopQuery tt)
        = Returned analysisText /\
      fst (comparisonOf failingGeneration laptopDb laptopQuery tt)
        = Thrown (JsError "quota exceeded"))) /\
  fst (run failingGeneration (generateRecommendations laptopDb laptopQuery) tt) =
    (Thrown (JsError "quota exceeded"),
     match fst (generationOf failingGeneration laptopDb laptopQuery tt) with
     | Thrown _ =>
         [Invoke (ExtractQueryEntities (text laptopQuery));
          Invoke (generationCall failingGeneration laptopDb laptopQuery tt)]
     | Returned _ =>
         [Invoke (ExtractQueryEntities (text laptopQuery));
          Invoke (generationCall failingGeneration laptopDb laptopQuery tt);
          Invoke (comparisonCall failingGeneration laptopDb laptopQuery tt)]
     end).
Proof.
  assert (H1 : candidatesOf failingGeneration laptopDb laptopQuery tt <> [])
    by discriminate.
  assert (H2 : fst (generationOf failingGeneration laptopDb laptopQuery tt)
                 = Thrown (JsError "quota exceeded") \/
               (exists analysisText,
                  fst (generationOf failingGeneration laptopDb laptopQuery tt)
                    = Returned analysisText /\
                  fst (comparisonOf failingGeneration laptopDb laptopQuery tt)
                    = Thrown (JsError "quota exceeded")))
    by (left; reflexivity).
  split; [exact H1|]. split; [exact H2|].
  exact (external_failures_propagate failingGeneration laptopDb laptopQuery tt
           (JsError "quota exceeded") H1 H2).
Defined.

(** A comparison call that throws fails the request after three calls. *)
Example comparison_failure_after_three_calls :
  exists context ps,
    run failingComparison (generateRecommendations laptopDb laptopQuery) tt =
      (Thrown (JsError "quota exceeded"),
       [Invoke (ExtractQueryEntities "a laptop under 60000");
        Invoke (GenerateRecommendations "a laptop under 60000" context);
        Invoke (CompareProducts ps "a laptop under 60000")], tt).
Proof. eexists _, _. vm_compute. reflexivity. Qed.

(** X11: the calls of a request.  Whatever the services answer, a request
    makes the extraction call first, then at most the recommendation call,
    then at most the comparison call, and nothing else; a request that
    returns has made all three. *)
Theorem request_makes_at_most_three_calls {W : Type} (ans : oracle W)
  (db : ProductDatabase) (query : SearchQuery) (w : W) :
  (snd (fst (run ans (generateRecommendations db query) w))
     = [Invoke (ExtractQueryEntities (text query))] \/
   snd (fst (run ans (generateRecommendations db query) w))
     = [Invoke (ExtractQueryEntities (text query));
        Invoke (generationCall ans db query w)] \/
   snd (fst (run ans (generateRecommendations db query) w))
     = [Invoke (ExtractQueryEntities (text query));
        Invoke (generationCall ans db query w);
        Invoke (comparisonCall ans db query w)]) /\
  match fst (fst (run ans (generateRecommendations db query) w)) with
  | Returned _ =>
      snd (fst (run ans (generateRecommendations db query) w))
      = [Invoke (ExtractQueryEntities (text query));
         Invoke (generationCall ans db query w);
         Invoke (comparisonCall ans db query w)]
  | Thrown _ => True
  end.
Proof.
  rewrite run_request.
  destruct (candidatesOf ans db query w) as [|p ps].
  { split; [now left | exact I]. }
  destruct (fst (generationOf ans db query w)) as [analysisText|e].
  2: { split; [right; now left | exact I]. }
  destruct (fst (comparisonOf ans db query w)) as [comparisonText|e].
  2: { split; [right; now right | exact I]. }
  destruct (selections_exist p ps) as (best & top & -> & ->).
  split; [right; now right | reflexivity].
Qed.

(** X12: when a request succeeds.  With at least one candidate and both
    calls returning, the request returns; the analysis is the answer of the
    recommendation call and the reasoning the answer of the comparison
    call.  The selection by [reduce] never throws. *)
Theorem request_succeeds_when_calls_return {W : Type} (ans : oracle W)
  (db : ProductDatabase) (query : SearchQuery) (w : W)
  (analysisText comparisonText : string) :
  candidatesOf ans db query w <> [] ->
  fst (generationOf ans db query w) = Returned analysisText ->
  fst (comparisonOf ans db query w) = Returned comparisonText ->
  exists rec,
    fst (fst (run ans (generateRecommendations db query) w)) = Returned rec /\
    analysis rec = analysisText /\
    reasoning rec = comparisonText.
Proof.
  intros Hne Hgen Hcmp. rewrite run_request.
  destruct (candidatesOf ans db query w) as [|p ps]; [congruence|].
  rewrite Hgen, Hcmp.
  destruct (selections_exist p ps) as (best & top & -> & ->).
  eexists. repeat split.
Qed.

Lemma request_succeeds_when_calls_return_witness :
  candidatesOf laptopService laptopDb laptopQuery tt <> [] /\
  fst (generationOf laptopService laptopDb laptopQuery tt) = Returned "analysis" /\
  fst (comparisonOf laptopService laptopDb laptopQuery tt) = Returned "comparison" /\
  exists rec,
    fst (fst (run laptopService (generateRecommendations laptopDb laptopQuery) tt))
      = Returned rec /\
    analysis rec = "analysis" /\
    reasoning rec = "comparison".
Proof.
  assert (H1 : candidatesOf laptopService laptopDb laptopQuery tt <> [])
    by discriminate.
  split; [exact H1|]. split; [reflexivity|]. split; [reflexivity|].
  exact (request_succeeds_when_calls_return laptopService laptopDb laptopQuery tt
           "analysis" "comparison" H1 eq_refl eq_refl).
Defined.

Lemma selectTopRated_of_sorted (x p : Product) (l : list Product) :
  StronglySorted (fun a b => rating b <= rating a) (x :: l) ->
  selectTopRated (x :: l) = Some p ->
  rating p == rating x.
Proof.
  intros Hsorted [= Hp].
  destruct (fold_left_last_max rating l [] [] x) as (l1 & l2 & Heq & H1 & _);
    [constructor | constructor |].
  rewrite Hp in Heq, H1. cbn [app] in Heq.
  apply Qle_antisym.
  - apply StronglySorted_cons in Hsorted as [Hx _].
    assert (Hin : In p (x :: l)).
    { rewrite Heq. apply in_or_app. right. now left. }
    destruct Hin as [<-|Hin]; [apply Qle_refl|].
    rewrite List.Forall_forall in Hx. now apply Hx.
  - destruct l1 as [|y l1].
    + injection Heq as ->. apply Qle_refl.
    + injection Heq as <- _. now inversion H1.
Qed.

(** X13: the top rated product and the first product shown.  On a request
    that returns, [products] is not empty and [topRated] has the rating of
    its first product, the candidates being sorted by rating. *)
Theorem topRated_is_rated_as_the_first_product {W : Type} (ans : oracle W)
  (db : ProductDatabase) (query : SearchQuery) (w : W)
  (rec : RAGRecommendation) :
  fst (fst (run ans (generateRecommendations db query) w)) = Returned rec ->
  exists first rest,
    products rec = first :: rest /\ rating (topRated rec) == rating first.
Proof.
  rewrite run_request. unfold candidatesOf.
  assert (Hsorted : StronglySorted (fun a b => rating b <= rating a)
                      (retrieved db query (fst (extractionOf ans query w)))).
  { destruct (fst (extractionOf ans query w)) as [entities|e]; simpl.
    - pose proof (sortByRating_strongly_sorted
                    (collectRelevant db query entities)) as Hs.
      rewrite <- (take_drop 10 (sortByRating _)) in Hs.
      apply StronglySorted_app_1_l in Hs.
      unfold selectRelevant. now rewrite slice_from_0.
    - constructor. }
  destruct (retrieved db query _) as [|p ps]; [discriminate|].
  destruct (fst (generationOf ans db query w)); [|discriminate].
  destruct (fst (comparisonOf ans db query w)); [|discriminate].
  destruct (selectBestValue (p :: ps)) as [best|]; [|discriminate].
  destruct (selectTopRated (p :: ps)) as [top|] eqn:Htop; [|discriminate].
  cbn [fst]. intros [= <-]. cbn [products topRated].
  exists p, (take 4 ps). split; [reflexivity|].
  now apply (selectTopRated_of_sorted p top ps).
Qed.

Lemma topRated_is_rated_as_the_first_product_witness :
  fst (fst (run laptopService (generateRecommendations laptopDb laptopQuery) tt))
    = Returned laptopRecommendation /\
  exists first rest,
    products laptopRecommendation = first :: rest /\
    rating (topRated laptopRecommendation) == rating first.
Proof.
  split; [reflexivity|].
  exact (topRated_is_rated_as_the_first_product laptopService laptopDb
           laptopQuery tt laptopRecommendation eq_refl).
Defined.

(** X14: a catalog without products.  When every category of the database
    is empty, every request fails with the no-products error after the
    extraction call, whatever the services answer. *)
Theorem empty_catalog_is_no_match {W : Type} (ans : oracle W)
  (db : ProductDatabase) (query : SearchQuery) (w : W) :
  Forall (fun entry => entry.2 = []) db ->
  fst (run ans (generateRecommendations db query) w) =
    (Thrown (JsError noProductsMessage),
     [Invoke (ExtractQueryEntities (text query))]).
Proof.
  intros Hempty. rewrite run_request.
  assert (Hnone : candidatesOf ans db query w = []).
  { unfold candidatesOf.
    destruct (fst (extractionOf ans query w)) as [entities|e]; [|reflexivity].
    simpl. destruct (selectRelevant db query entities) as [|p ps] eqn:Hsel;
      [reflexivity|].
    assert (Hp : In p (selectRelevant db query entities))
      by (rewrite Hsel; now left).
    apply In_selectRelevant in Hp as ([category l] & Hentry & Hp).
    unfold contribution in Hp. cbn [fst snd] in Hp.
    destruct (categoryMatches _ category); [|contradiction].
    apply brandFilter_In, budgetFilter_In in Hp.
    rewrite List.Forall_forall in Hempty.
    specialize (Hempty _ Hentry). cbn [snd] in Hempty. subst l.
    contradiction. }
  now rewrite Hnone.
Qed.

Lemma empty_catalog_is_no_match_witness :
  Forall (fun entry : string * list Product => entry.2 = [])
    (indexProducts [] "laptops" []) /\
  fst (run laptopService
         (generateRecommendations (indexProducts [] "laptops" []) laptopQuery) tt) =
    (Thrown (JsError noProductsMessage),
     [Invoke (ExtractQueryEntities (text laptopQuery))]).
Proof.
  assert (H : Forall (fun entry : string * list Product => entry.2 = [])
                (indexProducts [] "laptops" []))
    by (repeat constructor).
  split; [exact H|].
  exact (empty_catalog_is_no_match laptopService (indexProducts [] "laptops" [])
           laptopQuery tt H).
Defined.

(** ** More on translation *)

(** What a returning translation leaves in the cache under its own key. *)
Lemma translate_caches_result {W : Type} (ans : oracle W) (text : string)
  (language : ExtendedIndianLanguage) (useCache : bool)
  (cache cache' : gmap string LocalizedContent) (w w' : W) (s : string)
  (tr : list invocation) :
  run ans (translateToIndianLanguage text language useCache cache) w
    = (Returned (s, cache'), tr, w') ->
  (exists hit, cache' !! cacheKey text language = Some hit /\
               translatedText hit = s) /\
  (forall k, k <> cacheKey text language -> cache' !! k = cache !! k).
Proof.
  rewrite run_translateToIndianLanguage.
  assert (Hmiss : run ans (translateUncached text language cache) w
                    = (Returned (s, cache'), tr, w') ->
                  (exists hit, cache' !! cacheKey text language = Some hit /\
                               translatedText hit = s) /\
                  (forall k, k <> cacheKey text language ->
                             cache' !! k = cache !! k)).
  { rewrite run_translateUncached. cbv zeta.
    destruct (fst (ans _ (TranslateForIndianLanguage text
                            (translationTarget language)) w)) as [t|e];
      [|discriminate].
    intros [= <- <- _ _]. split.
    - eexists. rewrite lookup_insert_eq. split; reflexivity.
    - intros k Hk. now rewrite lookup_insert_ne. }
  destruct (cache !! cacheKey text language) as [hit|] eqn:Hhit; [|exact Hmiss].
  destruct useCache; [|exact Hmiss].
  intros [= <- <- _ _]. split; [now exists hit | reflexivity].
Qed.

(** X15: a translation is cached.  After a translation that returned, the
    same text and language asked again with the cache in use is answered
    with the same translation, without any call and without a change to
    the cache, whatever service is behind. *)
Theorem translation_is_served_from_cache {W W2 : Type} (ans : oracle W)
  (ans2 : oracle W2) (text : string) (language : ExtendedIndianLanguage)
  (useCache : bool) (cache cache' : gmap string LocalizedContent) (w w' : W)
  (w2 : W2) (s : string) (tr : list invocation) :
  run ans (translateToIndianLanguage text language useCache cache) w
    = (Returned (s, cache'), tr, w') ->
  run ans2 (translateToIndianLanguage text language true cache') w2
    = (Returned (s, cache'), [], w2).
Proof.
  intros Hrun. apply translate_caches_result in Hrun as [[hit [Hhit <-]] _].
  now rewrite run_translateToIndianLanguage, Hhit.
Qed.

Lemma translation_is_served_from_cache_witness :
  run bracketService (translateToIndianLanguage "Best phone" bengali true ∅) tt
    = (Returned ("[Fallback via Hindi] <Best phone>", bengaliCache),
       [Invoke (TranslateForIndianLanguage "Best phone" hindi); Invoke NewDate],
       tt) /\
  run failingExtraction
    (translateToIndianLanguage "Best phone" bengali true bengaliCache) tt
    = (Returned ("[Fallback via Hindi] <Best phone>", bengaliCache), [], tt).
Proof.
  split; [reflexivity|].
  exact (translation_is_served_from_cache bracketService failingExtraction
           "Best phone" bengali true ∅ bengaliCache tt tt tt
           "[Fallback via Hindi] <Best phone>"
           [Invoke (TranslateForIndianLanguage "Best phone" hindi); Invoke NewDate]
           eq_refl).
Defined.

(** X16: translations do not disturb each other.  A translation that
    returned leaves the cached translation of every other text, and of the
    same text in every other language, as it was: a cache key belongs to
    one text and one language, also when the text contains a colon. *)
Theorem translation_keeps_other_entries {W : Type} (ans : oracle W)
  (text text2 : string) (language language2 : ExtendedIndianLanguage)
  (useCache : bool) (cache cache' : gmap string LocalizedContent) (w w' : W)
  (s : string) (tr : list invocation) :
  run ans (translateToIndianLanguage text language useCache cache) w
    = (Returned (s, cache'), tr, w') ->
  text2 <> text \/ language2 <> language ->
  cache' !! cacheKey text2 language2 = cache !! cacheKey text2 language2.
Proof.
  intros Hrun Hother. apply translate_caches_result in Hrun as [_ Hrest].
  apply Hrest. intros Hkey. apply cacheKey_inj in Hkey as [-> ->].
  destruct Hother as [H|H]; now apply H.
Qed.

Lemma translation_keeps_other_entries_witness :
  run bracketService
    (translateToIndianLanguage "a:b" (native tamil) true bengaliCache) tt
    = (Returned ("<a:b>",
                 <[cacheKey "a:b" (native tamil) :=
                     {| lc_language := native tamil; originalText := "a:b";
                        translatedText := "<a:b>"; translatedAt := 0 |}]>
                   bengaliCache),
       [Invoke (TranslateForIndianLanguage "a:b" tamil); Invoke NewDate], tt) /\
  ("Best phone" <> "a:b" \/ bengali <> native tamil) /\
  (<[cacheKey "a:b" (native tamil) :=
       {| lc_language := native tamil; originalText := "a:b";
          translatedText := "<a:b>"; translatedAt := 0 |}]> bengaliCache)
    !! cacheKey "Best phone" bengali
  = bengaliCache !! cacheKey "Best phone" bengali.
Proof.
  assert (H : "Best phone" <> "a:b" \/ bengali <> native tamil)
    by (left; discriminate).
  split; [reflexivity|]. split; [exact H|].
  exact (translation_keeps_other_entries bracketService "a:b" "Best phone"
           (native tamil) bengali true bengaliCache _ tt tt "<a:b>"
           [Invoke (TranslateForIndianLanguage "a:b" tamil); Invoke NewDate]
           eq_refl H).
Defined.

(** X17: without the cache the service is always asked.  With [useCache]
    off, or with nothing cached for the text and language, the first call
    is the translation call, for the language itself or for Hindi when the
    language is bengali or punjabi; when that call throws, the translation
    throws the same error and makes no other call. *)
Theorem uncached_translation_asks_the_service {W : Type} (ans : oracle W)
  (text : string) (language : ExtendedIndianLanguage) (useCache : bool)
  (cache : gmap string LocalizedContent) (w : W) :
  useCache = false \/ cache !! cacheKey text language = None ->
  (exists rest,
     snd (fst (run ans (translateToIndianLanguage text language useCache cache) w))
     = Invoke (TranslateForIndianLanguage text (translationTarget language))
         :: rest) /\
  match fst (ans _ (TranslateForIndianLanguage text (translationTarget language)) w)
  with
  | Thrown e =>
      fst (run ans (translateToIndianLanguage text language useCache cache) w)
      = (Thrown e,
         [Invoke (TranslateForIndianLanguage text (translationTarget language))])
  | Returned t =>
      fst (fst (run ans (translateToIndianLanguage text language useCache cache) w))
      = Returned
          (if isFallback language then fallbackMarker +:+ t else t,
           <[cacheKey text language :=
               {| lc_language := language; originalText := text;
                  translatedText :=
                    if isFallback language then fallbackMarker +:+ t else t;
                  translatedAt :=
                    fst (ans _ NewDate
                           (snd (ans _ (TranslateForIndianLanguage text
                                          (translationTarget language)) w))) |}]>
             cache)
  end.
Proof.
  intros Hmiss. rewrite run_translateToIndianLanguage.
  assert (Hun : match cache !! cacheKey text language with
                | Some hit =>
                    if useCache then (Returned (translatedText hit, cache), [], w)
                    else run ans (translateUncached text language cache) w
                | None => run ans (translateUncached text language cache) w
                end = run ans (translateUncached text language cache) w).
  { destruct Hmiss as [-> | ->]; [|reflexivity].
    now destruct (cache !! cacheKey text language). }
  rewrite Hun, run_translateUncached. cbv zeta.
  destruct (fst (ans _ (TranslateForIndianLanguage text
                          (translationTarget language)) w)) as [t|e].
  - split; [now eexists | reflexivity].
  - split; [now eexists | reflexivity].
Qed.

Lemma uncached_translation_asks_the_service_witness :
  (false = false \/ bengaliCache !! cacheKey "Best phone" bengali = None) /\
  exists rest,
    snd (fst (run bracketService
                (translateToIndianLanguage "Best phone" bengali false bengaliCache)
                tt))
    = Invoke (TranslateForIndianLanguage "Best phone" (translationTarget bengali))
        :: rest.
Proof.
  assert (H : false = false \/
              bengaliCache !! cacheKey "Best phone" bengali = None)
    by (now left).
  split; [exact H|].
  exact (proj1 (uncached_translation_asks_the_service bracketService "Best phone"
                  bengali false bengaliCache tt H)).
Defined.

(** X18: the entries of the cache.  In every cache the service can hold,
    an entry sits under the key of its own text and language. *)
Theorem cache_entries_sit_under_their_key {W : Type} (ans : oracle W)
  (cache : gmap string LocalizedContent) (k : string) (entry : LocalizedContent) :
  reachable_cache ans cache ->
  cache !! k = Some entry ->
  k = cacheKey (originalText entry) (lc_language entry).
Proof.
  intros Hreach. revert k entry.
  induction Hreach as [|cache text language useCache w s cache' tr w' _ IH Hrun];
    intros k entry Hk.
  - now rewrite lookup_empty in Hk.
  - rewrite run_translateToIndianLanguage in Hrun.
    assert (Hmiss : run ans (translateUncached text language cache) w
                      = (Returned (s, cache'), tr, w') ->
                    k = cacheKey (originalText entry) (lc_language entry)).
    { rewrite run_translateUncached. cbv zeta.
      destruct (fst (ans _ (TranslateForIndianLanguage text
                              (translationTarget language)) w)) as [t|e];
        [|discriminate].
      intros [= _ <- _ _].
      destruct (decide (cacheKey text language = k)) as [<-|Hne].
      - rewrite lookup_insert_eq in Hk. now injection Hk as <-.
      - rewrite lookup_insert_ne in Hk by exact Hne. now apply IH. }
    destruct (cache !! cacheKey text language) as [hit|]; [|now apply Hmiss].
    destruct useCache; [|now apply Hmiss].
    injection Hrun as _ <- _ _. now apply IH.
Qed.

Lemma cache_entries_sit_under_their_key_witness :
  reachable_cache bracketService bengaliCache /\
  bengaliCache !! cacheKey "Best phone" bengali = Some bengaliEntry /\
  cacheKey "Best phone" bengali
    = cacheKey (originalText bengaliEntry) (lc_language bengaliEntry).
Proof.
  assert (Hreach : reachable_cache bracketService bengaliCache).
  { apply (reachable_translate bracketService ∅ "Best phone" bengali true tt
             "[Fallback via Hindi] <Best phone>" bengaliCache
             [Invoke (TranslateForIndianLanguage "Best phone" hindi);
              Invoke NewDate] tt).
    - constructor.
    - reflexivity. }
  assert (Hk : bengaliCache !! cacheKey "Best phone" bengali = Some bengaliEntry)
    by reflexivity.
  split; [exact Hreach|]. split; [exact Hk|].
  exact (cache_entries_sit_under_their_key bracketService bengaliCache
           (cacheKey "Best phone" bengali) bengaliEntry Hreach Hk).
Defined.

(** ** Running tasks *)

Section Exec.
Context {W : Type} (plat : sdk W).

Lemma exec_bind {A B : Type} (m : task A) (f : A -> task B) (w : W) :
  exec plat (m ≫= f) w =
  match exec plat m w with
  | (Returned a, tr, w1) =>
      let '(o, tr', w2) := exec plat (f a) w1 in (o, tr ++ tr', w2)
  | (Thrown e, tr, w1) => (Thrown e, tr, w1)
  end.
Proof.
  unfold mbind, task_mbind. revert w.
  induction m as [a|e|X c k IH]; intros w; simpl.
  - now destruct (exec plat (f a) w) as [[o tr] w2].
  - reflexivity.
  - destruct (plat X c w) as [x w1]. rewrite IH.
    destruct (exec plat (k x) w1) as [[[a|e] tr] w2]; [|reflexivity].
    now destruct (exec plat (f a) w2) as [[o tr'] w3].
Qed.

Lemma exec_attempt {A : Type} (m : task A) (h : exn -> task A) (w : W) :
  exec plat (attempt m h) w =
  match exec plat m w with
  | (Returned a, tr, w1) => (Returned a, tr, w1)
  | (Thrown e, tr, w1) =>
      let '(o, tr', w2) := exec plat (h e) w1 in (o, tr ++ tr', w2)
  end.
Proof.
  revert w. induction m as [a|e|X c k IH]; intros w; simpl.
  - reflexivity.
  - now destruct (exec plat (h e) w) as [[o tr] w2].
  - destruct (plat X c w) as [x w1]. rewrite IH.
    destruct (exec plat (k x) w1) as [[[a|e] tr] w2]; [reflexivity|].
    now destruct (exec plat (h e) w2) as [[o tr'] w3].
Qed.

Lemma exec_rethrow {A : Type} (m : task A) (w : W) :
  exec plat (attempt m (fun error => Fail error)) w = exec plat m w.
Proof.
  rewrite exec_attempt.
  destruct (exec plat m w) as [[[a|e] tr] w1]; simpl; [reflexivity|].
  now rewrite app_nil_r.
Qed.

Lemma exec_lift {A : Type} (o : outcome A) (w : W) :
  exec plat (lift o) w = (o, [], w).
Proof. now destruct o. Qed.

Lemma exec_perform {A : Type} (c : PlatformCall (outcome A)) (w : W) :
  exec plat (perform c) w = (fst (plat _ c w), [Asked c], snd (plat _ c w)).
Proof.
  unfold perform. simpl. destruct (plat _ c w) as [o w1].
  now rewrite exec_lift.
Qed.

(** A text asked of the model and read off the result. *)
Lemma exec_ask_text (c : PlatformCall (outcome GenerateContentResult)) (w : W) :
  exec plat (result ← perform c; lift (response_text result)) w =
  (textOf (fst (plat _ c w)), [Asked c], snd (plat _ c w)).
Proof.
  rewrite exec_bind, exec_perform.
  destruct (fst (plat _ c w)) as [result|e]; [|reflexivity].
  now rewrite exec_lift.
Qed.

(** A [catch] block that returns a value makes the task return. *)
Lemma exec_attempt_returns {A : Type} (m : task A) (f : exn -> A) (w : W) :
  exists a, fst (fst (exec plat (attempt m (fun e => mret (f e))) w)) = Returned a.
Proof.
  rewrite exec_attempt.
  destruct (exec plat m w) as [[[a|e] tr] w1]; simpl; now eexists.
Qed.

End Exec.

(** ** GeminiService *)

Section Service.
Context `{JsBuiltins} {W : Type} (plat : sdk W) (config : GeminiConfig).

Lemma exec_generateRecommendations (query : option string)
  (context : RAGContext) (w : W) :
  exec plat (GeminiService.generateRecommendations config query context) w =
  (textOf (fst (plat _ (GenerateContent serviceClient (model config)
                          (PromptOnly
                             (GeminiService.buildRAGPrompt query context))) w)),
   [Asked (GenerateContent serviceClient (model config)
             (PromptOnly (GeminiService.buildRAGPrompt query context)))],
   snd (plat _ (GenerateContent serviceClient (model config)
                  (PromptOnly (GeminiService.buildRAGPrompt query context))) w)).
Proof.
  unfold GeminiService.generateRecommendations.
  rewrite exec_rethrow, exec_bind, exec_perform.
  destruct (fst (plat _ _ w)) as [result|e]; [|reflexivity].
  rewrite exec_bind, exec_lift. cbn [textOf].
  destruct (response_text result); reflexivity.
Qed.

Lemma exec_compareProducts (products : option (list Product))
  (userQuery : option string) (w : W) :
  exec plat (GeminiService.compareProducts config products userQuery) w =
  (textOf (fst (plat _ (GenerateContent serviceClient (model config)
                          (PromptOnly
                             (GeminiService.comparisonPrompt products userQuery)))
                  w)),
   [Asked (GenerateContent serviceClient (model config)
             (PromptOnly (GeminiService.comparisonPrompt products userQuery)))],
   snd (plat _ (GenerateContent serviceClient (model config)
                  (PromptOnly
                     (GeminiService.comparisonPrompt products userQuery))) w)).
Proof.
  unfold GeminiService.compareProducts. now rewrite exec_rethrow, exec_ask_text.
Qed.

Lemma exec_translateForIndianLanguage (text targetLanguage : option string)
  (w : W) :
  exec plat (GeminiService.translateForIndianLanguage config text targetLanguage)
    w =
  (textOf (fst (plat _ (GenerateContent serviceClient (model config)
                          (PromptOnly
                             (GeminiService.translationPrompt text
                                targetLanguage))) w)),
   [Asked (GenerateContent serviceClient (model config)
             (PromptOnly (GeminiService.translationPrompt text targetLanguage)))],
   snd (plat _ (GenerateContent serviceClient (model config)
                  (PromptOnly
                     (GeminiService.translationPrompt text targetLanguage))) w)).
Proof.
  unfold GeminiService.translateForIndianLanguage.
  now rewrite exec_rethrow, exec_ask_text.
Qed.

Lemma exec_extractQueryEntities (userQuery : option string) (w : W) :
  exec plat (GeminiService.extractQueryEntities config userQuery) w =
  (entitiesOf
     (fst (plat _ (GenerateContent serviceClient (model config)
                     (PromptOnly (GeminiService.extractionPrompt userQuery))) w)),
   [Asked (GenerateContent serviceClient (model config)
             (PromptOnly (GeminiService.extractionPrompt userQuery)))],
   snd (plat _ (GenerateContent serviceClient (model config)
                  (PromptOnly (GeminiService.extractionPrompt userQuery))) w)).
Proof.
  unfold GeminiService.extractQueryEntities, entitiesOf.
  rewrite exec_rethrow, exec_bind, exec_perform.
  destruct (fst (plat _ _ w)) as [result|e]; [|reflexivity].
  rewrite exec_bind, exec_lift. cbn [textOf].
  destruct (response_text result) as [responseText|e]; [|reflexivity].
  rewrite exec_bind, exec_lift.
  destruct (JSON_parse responseText); reflexivity.
Qed.

Lemma exec_healthCheck (w : W) :
  exec plat (GeminiService.healthCheck config) w =
  (Returned
     match fst (plat _ (GenerateContent serviceClient (model config)
                          (PromptOnly "Say 'OK' if you are ready.")) w) with
     | Returned _ => true
     | Thrown _ => false
     end,
   [Asked (GenerateContent serviceClient (model config)
             (PromptOnly "Say 'OK' if you are ready."))],
   snd (plat _ (GenerateContent serviceClient (model config)
                  (PromptOnly "Say 'OK' if you are ready.")) w)).
Proof.
  unfold GeminiService.healthCheck.
  rewrite exec_attempt, exec_bind, exec_perform.
  destruct (fst (plat _ _ w)) as [result|e]; reflexivity.
Qed.

Lemma exec_analyzeProductImage (imageBase64 mimeType : option string) (w : W) :
  exec plat (GeminiService.analyzeProductImage config imageBase64 mimeType) w =
  (textOf (fst (plat _ (imageAnalysisRequest config imageBase64 mimeType) w)),
   [Asked (imageAnalysisRequest config imageBase64 mimeType)],
   snd (plat _ (imageAnalysisRequest config imageBase64 mimeType) w)).
Proof.
  unfold GeminiService.analyzeProductImage, imageAnalysisRequest.
  now rewrite exec_rethrow, exec_ask_text.
Qed.

End Service.

(** X19: the health check reports reachability and never throws.  It makes
    one call; it returns [true] exactly when that call returned, whether or
    not the reply has a readable text, and [false] when the call threw. *)
Theorem healthCheck_never_throws `{JsBuiltins} {W : Type} (plat : sdk W)
  (config : GeminiConfig) (w : W) :
  exists healthy,
    fst (exec plat (GeminiService.healthCheck config) w) =
      (Returned healthy,
       [Asked (GenerateContent serviceClient (model config)
                 (PromptOnly "Say 'OK' if you are ready."))]) /\
    (healthy = true <->
     exists result,
       fst (plat _ (GenerateContent serviceClient (model config)
                      (PromptOnly "Say 'OK' if you are ready.")) w)
       = Returned result).
Proof.
  rewrite exec_healthCheck. eexists. split; [reflexivity|].
  destruct (fst (plat _ _ w)) as [result|e]; split.
  - intros _. now exists result.
  - reflexivity.
  - discriminate.
  - intros [result Hr]. discriminate Hr.
Qed.

(** X20: what the entity extraction throws.  [extractQueryEntities] makes
    one call.  It throws what the call threw, what reading the text of the
    reply threw, or what [JSON.parse] threw on that text, each error as it
    is; otherwise it returns what [JSON.parse] returned. *)
Theorem extraction_rethrows_parse_errors `{JsBuiltins} {W : Type}
  (plat : sdk W) (config : GeminiConfig) (userQuery : option string) (w : W) :
  snd (fst (exec plat (GeminiService.extractQueryEntities config userQuery) w)) =
    [Asked (GenerateContent serviceClient (model config)
              (PromptOnly (GeminiService.extractionPrompt userQuery)))] /\
  match fst (plat _ (GenerateContent serviceClient (model config)
                       (PromptOnly (GeminiService.extractionPrompt userQuery))) w)
  with
  | Thrown e =>
      fst (fst (exec plat (GeminiService.extractQueryEntities config userQuery) w))
      = Thrown e
  | Returned result =>
      match response_text result with
      | Thrown e =>
          fst (fst (exec plat
                      (GeminiService.extractQueryEntities config userQuery) w))
          = Thrown e
      | Returned responseText =>
          fst (fst (exec plat
                      (GeminiService.extractQueryEntities config userQuery) w))
          = JSON_parse responseText
      end
  end.
Proof.
  rewrite exec_extractQueryEntities. unfold entitiesOf. cbn [fst snd].
  split; [reflexivity|].
  destruct (fst (plat _ _ w)) as [result|e]; [|reflexivity].
  cbn [textOf]. destruct (response_text result); reflexivity.
Qed.

(** ** The recommendation prompt *)

Lemma is_substring_refl (s : string) : is_substring s s.
Proof. exists "", "". now rewrite append_nil_l, append_nil_r. Qed.

Lemma is_substring_app_l (x a b : string) :
  is_substring x a -> is_substring x (a +:+ b).
Proof.
  intros [pre [post ->]]. exists pre, (post +:+ b).
  now rewrite !append_assoc.
Qed.

Lemma is_substring_app_r (x a b : string) :
  is_substring x b -> is_substring x (a +:+ b).
Proof.
  intros [pre [post ->]]. exists (a +:+ pre), post.
  now rewrite !append_assoc.
Qed.

Lemma is_substring_joinWith (sep x : string) (l : list string) :
  In x l -> is_substring x (joinWith sep l).
Proof.
  induction l as [|y l IH]; [contradiction|].
  intros [->|Hin].
  - destruct l as [|z l]; [apply is_substring_refl|].
    cbn [joinWith]. apply is_substring_app_l, is_substring_refl.
  - destruct l as [|z l]; [contradiction|].
    cbn [joinWith]. now apply is_substring_app_r, is_substring_app_r, IH.
Qed.

Lemma is_substring_trans (x y z : string) :
  is_substring x y -> is_substring y z -> is_substring x z.
Proof.
  intros [pre [post ->]] [pre' [post' ->]].
  exists (pre' +:+ pre), (post +:+ post'). now rewrite !append_assoc.
Qed.

(** X21: what the recommendation prompt leaves out.  The prompt is the
    same for a context with an empty product list as for one without a
    list, for a budget of 0 as for no budget, for empty lists of brands or
    categories as for none; and the language preference never reaches the
    prompt. *)
Theorem prompt_prints_only_what_is_set `{JsBuiltins} (query : option string)
  (context : RAGContext) :
  GeminiService.buildRAGPrompt query (printedContext context) =
  GeminiService.buildRAGPrompt query context.
Proof.
  unfold GeminiService.buildRAGPrompt, printedContext.
  destruct context as [data prefs].
  destruct data as [[|p ps]|];
    destruct prefs as [[[b|] [[|b' bs]|] [[|c cs]|] l]|];
    cbn [productData userPreferences fmap option_fmap option_map
         pbudget pbrands pcategories];
    try reflexivity;
    destruct (truthy b) eqn:Hb; rewrite ?Hb; reflexivity.
Qed.

(** X22: what the recommendation prompt contains.  The prompt contains the
    text of the query, and for every product of the context the lines of
    that product, with its name and platform. *)
Theorem prompt_contains_query_and_products `{JsBuiltins}
  (query : option string) (context : RAGContext) :
  is_substring (tpl query) (GeminiService.buildRAGPrompt query context) /\
  forall ps p,
    productData context = Some ps -> In p ps ->
    is_substring (GeminiService.productLines p)
      (GeminiService.buildRAGPrompt query context) /\
    is_substring ("- " +:+ name p +:+ " (" +:+ platform p +:+ ")")
      (GeminiService.productLines p).
Proof.
  unfold GeminiService.buildRAGPrompt. split.
  - apply is_substring_app_l.
    assert (Hhead : is_substring (tpl query)
                      (joinWith nl
                         [ "You are an expert shopping assistant helping users find the best products.";
                           ""; "User Query: " +:+ tpl query; ""; "" ])).
    { eapply is_substring_trans;
        [|apply (is_substring_joinWith nl ("User Query: " +:+ tpl query));
          right; right; now left].
      apply is_substring_app_r, is_substring_refl. }
    destruct (userPreferences context) as [prefs|].
    + destruct (pcategories prefs) as [[|c cs]|];
        destruct (pbrands prefs) as [[|b bs]|];
        destruct (pbudget prefs) as [bd|];
        try destruct (truthy bd);
        destruct (productData context) as [[|p ps]|];
        repeat first [exact Hhead | apply is_substring_app_l].
    + destruct (productData context) as [[|p ps]|];
        repeat first [exact Hhead | apply is_substring_app_l].
  - intros ps p Hdata Hp. split.
    + apply is_substring_app_l. rewrite Hdata.
      destruct ps as [|p0 ps]; [contradiction|].
      assert (Hblock : forall prompt : string,
                 is_substring (GeminiService.productLines p)
                   (prompt +:+
                    joinWith nl
                      [ "Available Products:";
                        joinWith nl
                          (List.map GeminiService.productLines (p0 :: ps));
                        ""; "" ])).
      { intros prompt. apply is_substring_app_r.
        eapply is_substring_trans;
          [|apply (is_substring_joinWith nl
                     (joinWith nl
                        (List.map GeminiService.productLines (p0 :: ps))));
            right; now left].
        apply is_substring_joinWith. now apply in_map. }
      destruct (userPreferences context) as [prefs|].
      * destruct (pcategories prefs) as [[|c cs]|];
          destruct (pbrands prefs) as [[|b bs]|];
          destruct (pbudget prefs) as [bd|];
          try destruct (truthy bd);
          repeat first [apply Hblock | apply is_substring_app_l].
      * apply Hblock.
    + unfold GeminiService.productLines.
      apply (is_substring_joinWith nl). right. now left.
Qed.

(** ** The pipelines on top of GeminiService *)

Section Deployed.
Context `{JsBuiltins} {W : Type} (plat : sdk W) (config : GeminiConfig).

Lemma geminiService_extract (query : SearchQuery)
  (st : W * list platform_event) :
  geminiService config plat _ (ExtractQueryEntities (text query)) st =
  (entitiesOf (fst (plat _ (extractionRequest config query) st.1)),
   (snd (plat _ (extractionRequest config query) st.1),
    st.2 ++ [Asked (extractionRequest config query)])).
Proof.
  cbn [geminiService]. unfold served.
  now rewrite exec_extractQueryEntities.
Qed.

Lemma geminiService_generate (query : SearchQuery) (ps : list Product)
  (st : W * list platform_event) :
  geminiService config plat _
    (GenerateRecommendations (text query) (contextFor query ps)) st =
  (textOf (fst (plat _ (recommendationRequest config query ps) st.1)),
   (snd (plat _ (recommendationRequest config query ps) st.1),
    st.2 ++ [Asked (recommendationRequest config query ps)])).
Proof.
  cbn [geminiService]. unfold served.
  now rewrite exec_generateRecommendations.
Qed.

Lemma geminiService_compare (query : SearchQuery) (ps : list Product)
  (st : W * list platform_event) :
  geminiService config plat _ (CompareProducts (slice 0 5 ps) (text query)) st =
  (textOf (fst (plat _ (comparisonRequest config query ps) st.1)),
   (snd (plat _ (comparisonRequest config query ps) st.1),
    st.2 ++ [Asked (comparisonRequest config query ps)])).
Proof.
  cbn [geminiService]. unfold served.
  now rewrite exec_compareProducts.
Qed.

Lemma geminiService_translate (t : string) (targetLanguage : IndianLanguage)
  (st : W * list platform_event) :
  geminiService config plat _ (TranslateForIndianLanguage t targetLanguage) st =
  (textOf (fst (plat _ (translationRequest config t targetLanguage) st.1)),
   (snd (plat _ (translationRequest config t targetLanguage) st.1),
    st.2 ++ [Asked (translationRequest config t targetLanguage)])).
Proof.
  cbn [geminiService]. unfold served.
  now rewrite exec_translateForIndianLanguage.
Qed.

End Deployed.

(** X23: an unparseable reply, end to end.  With [GeminiService] behind
    the pipeline, when the call for the extraction prompt throws, or its
    reply has no readable text, or [JSON.parse] rejects that text, the
    request fails with the no-products error; one prompt has reached the
    platform, the extraction prompt for the text of the query. *)
Theorem unparseable_reply_is_no_match `{JsBuiltins} {W : Type} (plat : sdk W)
  (config : GeminiConfig) (db : ProductDatabase) (query : SearchQuery) (w : W)
  (e : exn) :
  entitiesOf (fst (plat _ (extractionRequest config query) w)) = Thrown e ->
  run (geminiService config plat) (generateRecommendations db query) (w, []) =
  (Thrown (JsError noProductsMessage),
   [Invoke (ExtractQueryEntities (text query))],
   (snd (plat _ (extractionRequest config query) w),
    [Asked (extractionRequest config query)])).
Proof.
  intros Hparse. rewrite run_request.
  unfold candidatesOf, extractionOf.
  rewrite geminiService_extract. cbn [fst snd]. rewrite Hparse.
  reflexivity.
Qed.

Lemma unparseable_reply_is_no_match_witness :
  @entitiesOf exampleBuiltins
    (fst (replying "Sure! Here is the JSON you asked for" _
            (@extractionRequest exampleBuiltins exampleConfig laptopQuery) tt))
    = Thrown (JsError "Unexpected token") /\
  run (@geminiService exampleBuiltins _ exampleConfig
         (replying "Sure! Here is the JSON you asked for"))
    (generateRecommendations laptopDb laptopQuery) (tt, []) =
  (Thrown (JsError noProductsMessage),
   [Invoke (ExtractQueryEntities (text laptopQuery))],
   (snd (replying "Sure! Here is the JSON you asked for" _
           (@extractionRequest exampleBuiltins exampleConfig laptopQuery) tt),
    [Asked (@extractionRequest exampleBuiltins exampleConfig laptopQuery)])).
Proof.
  split; [reflexivity|].
  exact (@unparseable_reply_is_no_match exampleBuiltins _
           (replying "Sure! Here is the JSON you asked for") exampleConfig
           laptopDb laptopQuery tt (JsError "Unexpected token") eq_refl).
Defined.

(** X24: what a request sends to the platform.  With [GeminiService]
    behind the pipeline, a request sends the extraction prompt, then at
    most the recommendation prompt built from the candidates, then at most
    the comparison prompt built from their first five: text prompts to the
    model of the configuration, one per call of the pipeline, and nothing
    else. *)
Theorem request_sends_at_most_three_prompts `{JsBuiltins} {W : Type}
  (plat : sdk W) (config : GeminiConfig) (db : ProductDatabase)
  (query : SearchQuery) (w : W) :
  exists ps,
    (snd (snd (run (geminiService config plat)
                 (generateRecommendations db query) (w, [])))
       = [Asked (extractionRequest config query)] \/
     snd (snd (run (geminiService config plat)
                 (generateRecommendations db query) (w, [])))
       = [Asked (extractionRequest config query);
          Asked (recommendationRequest config query ps)] \/
     snd (snd (run (geminiService config plat)
                 (generateRecommendations db query) (w, [])))
       = [Asked (extractionRequest config query);
          Asked (recommendationRequest config query ps);
          Asked (comparisonRequest config query ps)]) /\
    ps = retrieved db query
           (entitiesOf (fst (plat _ (extractionRequest config query) w))) /\
    length (snd (snd (run (geminiService config plat)
                        (generateRecommendations db query) (w, []))))
    = length (snd (fst (run (geminiService config plat)
                          (generateRecommendations db query) (w, [])))) /\
    Forall (is_service_prompt config)
      (snd (snd (run (geminiService config plat)
                   (generateRecommendations db query) (w, [])))).
Proof.
  exists (retrieved db query
            (entitiesOf (fst (plat _ (extractionRequest config query) w)))).
  rewrite run_request.
  unfold comparisonOf, comparisonCall, generationOf, generationCall,
    candidatesOf, extractionOf.
  rewrite geminiService_extract. cbn [fst snd].
  destruct (retrieved db query _) as [|p ps'].
  { cbn [fst snd app length]. split; [now left|]. split; [reflexivity|].
    split; [reflexivity|]. repeat constructor. }
  rewrite geminiService_generate. cbn [fst snd].
  destruct (textOf (fst (plat _ (recommendationRequest config query (p :: ps')) _)))
    as [analysisText|e].
  2: { cbn [fst snd app length]. split; [right; now left|].
       split; [reflexivity|]. split; [reflexivity|]. repeat constructor. }
  rewrite geminiService_compare. cbn [fst snd].
  destruct (textOf (fst (plat _ (comparisonRequest config query (p :: ps')) _)))
    as [comparisonText|e].
  2: { cbn [fst snd app length]. split; [right; now right|].
       split; [reflexivity|]. split; [reflexivity|]. repeat constructor. }
  destruct (selections_exist p ps') as (best & top & -> & ->).
  cbn [fst snd app length]. split; [right; now right|].
  split; [reflexivity|]. split; [reflexivity|]. repeat constructor.
Qed.

(** X25: what a translation sends to the platform.  With [GeminiService]
    behind the translator, a translation served from the cache sends
    nothing; otherwise it sends one prompt, which asks for the language
    itself or, for bengali and punjabi, for hindi, and reads the clock only
    when that prompt was answered with a text. *)
Theorem translation_sends_one_prompt `{JsBuiltins} {W : Type} (plat : sdk W)
  (config : GeminiConfig) (text : string) (language : ExtendedIndianLanguage)
  (useCache : bool) (cache : gmap string LocalizedContent) (w : W) :
  match (if useCache then cache !! cacheKey text language else None) with
  | Some hit =>
      run (geminiService config plat)
        (translateToIndianLanguage text language useCache cache) (w, [])
      = (Returned (translatedText hit, cache), [], (w, []))
  | None =>
      match textOf (fst (plat _ (translationRequest config text
                                   (translationTarget language)) w)) with
      | Returned t =>
          (exists cache',
             fst (fst (run (geminiService config plat)
                         (translateToIndianLanguage text language useCache cache)
                         (w, [])))
             = Returned
                 (if isFallback language then fallbackMarker +:+ t else t,
                  cache')) /\
          snd (snd (run (geminiService config plat)
                      (translateToIndianLanguage text language useCache cache)
                      (w, [])))
            = [Asked (translationRequest config text (translationTarget language));
               Asked DateNow]
      | Thrown e =>
          run (geminiService config plat)
            (translateToIndianLanguage text language useCache cache) (w, [])
          = (Thrown e,
             [Invoke (TranslateForIndianLanguage text (translationTarget language))],
             (snd (plat _ (translationRequest config text
                             (translationTarget language)) w),
              [Asked (translationRequest config text
                        (translationTarget language))]))
      end
  end.
Proof.
  rewrite run_translateToIndianLanguage.
  assert (Hun :
    match textOf (fst (plat _ (translationRequest config text
                                 (translationTarget language)) w)) with
    | Returned t =>
        (exists cache',
           fst (fst (run (geminiService config plat)
                       (translateUncached text language cache) (w, [])))
           = Returned
               (if isFallback language then fallbackMarker +:+ t else t,
                cache')) /\
        snd (snd (run (geminiService config plat)
                    (translateUncached text language cache) (w, [])))
          = [Asked (translationRequest config text (translationTarget language));
             Asked DateNow]
    | Thrown e =>
        run (geminiService config plat)
          (translateUncached text language cache) (w, [])
        = (Thrown e,
           [Invoke (TranslateForIndianLanguage text (translationTarget language))],
           (snd (plat _ (translationRequest config text
                           (translationTarget language)) w),
            [Asked (translationRequest config text
                      (translationTarget language))]))
    end).
  { rewrite run_translateUncached. cbv zeta.
    rewrite geminiService_translate. cbn [fst snd app].
    destruct (textOf (fst (plat _ _ w))) as [t|e]; [|reflexivity].
    cbn [geminiService fst snd].
    destruct (plat Z DateNow _) as [z w2]. cbn [fst snd app].
    split; [now eexists | reflexivity]. }
  destruct useCache.
  - destruct (cache !! cacheKey text language) as [hit|];
      [reflexivity | exact Hun].
  - destruct (cache !! cacheKey text language); exact Hun.
Qed.

(** ** The MCP server *)

(** Runs a branch of the switch to its end, by cases on the arguments and
    on what the platform answers. *)
Ltac tool_branch :=
  cbn [GeminiRagMcpServer.read mbind task_mbind task_bind mret task_mret
       exec fst snd app length];
  repeat first
    [ rewrite exec_bind
    | rewrite exec_generateRecommendations
    | rewrite exec_compareProducts
    | rewrite exec_translateForIndianLanguage
    | rewrite exec_extractQueryEntities
    | rewrite exec_analyzeProductImage
    | rewrite exec_healthCheck ];
  cbn [exec fst snd app length mret task_mret].

(** Closes a branch of the switch once the outcome of its call is known. *)
Ltac tool_reply :=
  tool_branch; eexists;
  (split; [reflexivity|]); (split; [cbn [length]; lia|]);
  split; reflexivity.

(** X26: a tool call never throws.  Whatever the request and whatever the
    platform answers, [handleToolCall] returns a reply and makes at most
    one call, the call of the tool for the arguments sent.  The reply is
    flagged [isError] exactly when the call fails: for a name that is not a
    tool it is the unknown-tool message, and otherwise it is the
    error-executing message with the message of the error thrown, which is
    the error of reading the first property of an absent [arguments] or the
    error the one call made ended in. *)
Theorem tool_call_never_throws `{JsBuiltins} {W : Type} (plat : sdk W)
  (config : GeminiConfig) (request : GeminiRagMcpServer.ToolRequest) (w : W) :
  exists result,
    fst (fst (exec plat (GeminiRagMcpServer.handleToolCall config request) w))
      = Returned result /\
    (length (snd (fst (exec plat
                         (GeminiRagMcpServer.handleToolCall config request) w)))
     <= 1)%nat /\
    snd (fst (exec plat (GeminiRagMcpServer.handleToolCall config request) w))
      = match toolCall config request with
        | Some c => [Asked c]
        | None => []
        end /\
    match toolFailure plat config request w with
    | Some UnknownTool =>
        result = unknownToolReply (GeminiRagMcpServer.name request)
    | Some (Threw e) =>
        result = errorReply (GeminiRagMcpServer.name request) e
    | None => GeminiRagMcpServer.isError result = false
    end.
Proof.
  unfold GeminiRagMcpServer.handleToolCall, toolFailure, toolCall, firstArgument,
    healthRequest.
  rewrite exec_attempt.
  destruct request as [name args]. cbn [GeminiRagMcpServer.name
                                          GeminiRagMcpServer.arguments].
  destruct (String.eqb name "generate_recommendations") eqn:E1.
  { apply String.eqb_eq in E1 as ->. cbn [String.eqb Ascii.eqb Bool.eqb].
    destruct args as [a|]; [|tool_reply]. tool_branch.
    destruct (textOf _) as [t|e]; tool_reply. }
  destruct (String.eqb name "analyze_product_image") eqn:E2.
  { apply String.eqb_eq in E2 as ->. cbn [String.eqb Ascii.eqb Bool.eqb].
    destruct args as [a|]; [|tool_reply]. tool_branch.
    destruct (textOf _) as [t|e]; tool_reply. }
  destruct (String.eqb name "compare_products") eqn:E3.
  { apply String.eqb_eq in E3 as ->. cbn [String.eqb Ascii.eqb Bool.eqb].
    destruct args as [a|]; [|tool_reply]. tool_branch.
    destruct (textOf _) as [t|e]; tool_reply. }
  destruct (String.eqb name "translate_content") eqn:E4.
  { apply String.eqb_eq in E4 as ->. cbn [String.eqb Ascii.eqb Bool.eqb].
    destruct args as [a|]; [|tool_reply]. tool_branch.
    destruct (textOf _) as [t|e]; tool_reply. }
  destruct (String.eqb name "extract_entities") eqn:E5.
  { apply String.eqb_eq in E5 as ->. cbn [String.eqb Ascii.eqb Bool.eqb].
    destruct args as [a|]; [|tool_reply]. tool_branch.
    destruct (entitiesOf _) as [t|e]; tool_reply. }
  destruct (String.eqb name "health_check") eqn:E6.
  { tool_reply. }
  destruct args; tool_reply.
Qed.

(** A call that the platform does not answer, a response that does not
    parse, absent arguments and a name that is not a tool: the failure of
    each, and the reply. *)
Example tool_failures :
  @toolFailure exampleBuiltins _ unreachable exampleConfig
    (toolRequest "translate_content" (Some noArguments)) tt
    = Some (Threw (JsError "fetch failed")) /\
  @toolFailure exampleBuiltins _ (replying "ok") exampleConfig
    (toolRequest "translate_content" (Some noArguments)) tt = None /\
  (exists e,
     @toolFailure exampleBuiltins _ (replying "not json") exampleConfig
       (toolRequest "extract_entities" (Some noArguments)) tt = Some (Threw e) /\
     @JSON_parse exampleBuiltins "not json" = Thrown e) /\
  @toolFailure exampleBuiltins _ (replying "ok") exampleConfig
    (toolRequest "extract_entities" None) tt
    = Some (Threw (@undefinedRead exampleBuiltins "query")) /\
  @toolFailure exampleBuiltins _ (replying "ok") exampleConfig
    (toolRequest "delete_everything" None) tt = Some UnknownTool /\
  @toolFailure exampleBuiltins _ unreachable exampleConfig
    (toolRequest "health_check" None) tt = None.
Proof.
  repeat split; try reflexivity. eexists. split; reflexivity.
Qed.

Lemma eqb_not_known (name : string) :
  ~ In name GeminiRagMcpServer.knownTools ->
  String.eqb name "generate_recommendations" = false /\
  String.eqb name "analyze_product_image" = false /\
  String.eqb name "compare_products" = false /\
  String.eqb name "translate_content" = false /\
  String.eqb name "extract_entities" = false /\
  String.eqb name "health_check" = false.
Proof.
  intros Hnot. repeat split; apply String.eqb_neq; intros ->; apply Hnot;
    unfold GeminiRagMcpServer.knownTools; simpl; tauto.
Qed.

(** X27: an unknown tool.  For a name that is none of the six tools the
    reply is the unknown-tool message with the name, flagged as an error,
    and nothing is asked of the platform, with or without arguments. *)
Theorem unknown_tool_is_an_error_reply `{JsBuiltins} {W : Type} (plat : sdk W)
  (config : GeminiConfig) (request : GeminiRagMcpServer.ToolRequest) (w : W) :
  ~ In (GeminiRagMcpServer.name request) GeminiRagMcpServer.knownTools ->
  exec plat (GeminiRagMcpServer.handleToolCall config request) w =
  (Returned
     {| GeminiRagMcpServer.content :=
          ["Unknown tool: " +:+ GeminiRagMcpServer.name request];
        GeminiRagMcpServer.isError := true |},
   [], w).
Proof.
  intros Hnot. apply eqb_not_known in Hnot as (H1 & H2 & H3 & H4 & H5 & H6).
  unfold GeminiRagMcpServer.handleToolCall.
  rewrite exec_attempt, H1, H2, H3, H4, H5, H6. reflexivity.
Qed.

Lemma unknown_tool_is_an_error_reply_witness :
  ~ In (GeminiRagMcpServer.name (toolRequest "delete_everything" None))
      GeminiRagMcpServer.knownTools /\
  exec (replying "ok")
    (@GeminiRagMcpServer.handleToolCall exampleBuiltins exampleConfig
       (toolRequest "delete_everything" None)) tt =
  (Returned
     {| GeminiRagMcpServer.content :=
          ["Unknown tool: "
             +:+ GeminiRagMcpServer.name (toolRequest "delete_everything" None)];
        GeminiRagMcpServer.isError := true |},
   [], tt).
Proof.
  assert (Hnot : ~ In (GeminiRagMcpServer.name
                         (toolRequest "delete_everything" None))
                     GeminiRagMcpServer.knownTools).
  { simpl. intros [H|[H|[H|[H|[H|[H|[]]]]]]]; discriminate H. }
  split; [exact Hnot|].
  exact (@unknown_tool_is_an_error_reply exampleBuiltins _ (replying "ok")
           exampleConfig (toolRequest "delete_everything" None) tt Hnot).
Defined.

(** X28: the health tool never reports an error.  For [health_check] the
    reply is not flagged as an error, with or without arguments: its text
    says whether the one call made returned or threw. *)
Theorem health_tool_never_errors `{JsBuiltins} {W : Type} (plat : sdk W)
  (config : GeminiConfig) (args : option GeminiRagMcpServer.ToolArguments)
  (w : W) :
  fst (exec plat
         (GeminiRagMcpServer.handleToolCall config
            {| GeminiRagMcpServer.name := "health_check";
               GeminiRagMcpServer.arguments := args |}) w) =
  (Returned
     {| GeminiRagMcpServer.content :=
          [match fst (plat _ (GenerateContent serviceClient (model config)
                                (PromptOnly "Say 'OK' if you are ready.")) w)
           with
           | Returned _ => "✅ Gemini API is healthy and ready"
           | Thrown _ => "❌ Gemini API health check failed"
           end];
        GeminiRagMcpServer.isError := false |},
   [Asked (GenerateContent serviceClient (model config)
             (PromptOnly "Say 'OK' if you are ready."))]).
Proof.
  unfold GeminiRagMcpServer.handleToolCall. rewrite exec_attempt.
  cbn [GeminiRagMcpServer.name GeminiRagMcpServer.arguments].
  change (String.eqb "health_check" "generate_recommendations") with false.
  change (String.eqb "health_check" "analyze_product_image") with false.
  change (String.eqb "health_check" "compare_products") with false.
  change (String.eqb "health_check" "translate_content") with false.
  change (String.eqb "health_check" "extract_entities") with false.
  change (String.eqb "health_check" "health_check") with true.
  cbn iota. tool_branch.
  destruct (fst (plat _ _ w)) as [result|e]; reflexivity.
Qed.

(** Tool calls against a platform that cannot be reached, and against an
    absent [arguments]. *)
Example tool_calls_on_failure :
  fst (exec unreachable
         (@GeminiRagMcpServer.handleToolCall exampleBuiltins exampleConfig
            (toolRequest "translate_content" (Some noArguments))) tt) =
    (Returned
       {| GeminiRagMcpServer.content :=
            ["Error executing tool translate_content: fetch failed"];
          GeminiRagMcpServer.isError := true |},
     [Asked (GenerateContent serviceClient "gemini-2.0-flash"
               (PromptOnly
                  (@GeminiService.translationPrompt None None)))]) /\
  fst (exec (replying "ok")
         (@GeminiRagMcpServer.handleToolCall exampleBuiltins exampleConfig
            (toolRequest "extract_entities" None)) tt) =
    (Returned
       {| GeminiRagMcpServer.content :=
            ["Error executing tool extract_entities: Cannot read properties of undefined (reading 'query')"];
          GeminiRagMcpServer.isError := true |},
     []).
Proof. split; reflexivity. Qed.

(** ** augmentProductData *)

(** X29: augmenting a product never throws.  It looks the model of the
    global client up and, when there is one, sends it the prompt for the
    product: these are the only calls.  The product returned is the product
    passed, or that product with a description that is the text the
    platform answered to that prompt; it is the latter exactly when the
    lookup returned a model and the answer has a text.  Without a global
    client the product comes back as it was passed after the lookup
    alone. *)
Theorem augmentation_never_throws `{JsBuiltins} {W : Type} (plat : sdk W)
  (product : Product) (w : W) :
  exists result,
    fst (fst (exec plat (augmentProductData product) w)) = Returned result /\
    (result = product \/
     exists d,
       fst (plat _ globalModelLookup w) = Returned true /\
       textOf (fst (plat _ (augmentationRequest product)
                      (snd (plat _ globalModelLookup w)))) = Returned d /\
       result = withDescription product d) /\
    (length (snd (fst (exec plat (augmentProductData product) w))) <= 2)%nat /\
    (fst (plat _ globalModelLookup w) <> Returned true ->
     fst (exec plat (augmentProductData product) w) =
       (Returned product, [Asked globalModelLookup])) /\
    (fst (plat _ globalModelLookup w) = Returned true ->
     snd (fst (exec plat (augmentProductData product) w))
       = [Asked globalModelLookup; Asked (augmentationRequest product)] /\
     result = match textOf (fst (plat _ (augmentationRequest product)
                                   (snd (plat _ globalModelLookup w)))) with
              | Returned d => withDescription product d
              | Thrown _ => product
              end).
Proof.
  unfold augmentProductData, globalModelLookup.
  rewrite exec_attempt, exec_bind, exec_perform.
  destruct (plat _ (GetGlobalModel "gemini-2.0-flash") w) as [[[|]|e] w1];
    cbn [fst snd].
  - rewrite exec_bind, exec_perform.
    fold (augmentationRequest product).
    destruct (plat _ (augmentationRequest product) w1)
      as [[[[d|e]]|e] w2]; cbn [fst snd].
    + rewrite exec_bind, exec_lift. cbn.
      eexists. split; [reflexivity|].
      split; [|split; [lia | split; [congruence | now split]]].
      right. exists d. now repeat split.
    + rewrite exec_bind, exec_lift. cbn.
      eexists. split; [reflexivity|]. split; [now left|].
      split; [lia | split; [congruence | now split]].
    + cbn. eexists. split; [reflexivity|]. split; [now left|].
      split; [lia | split; [congruence | now split]].
  - cbn. eexists. split; [reflexivity|]. split; [now left|].
    split; [lia | split; [reflexivity | discriminate]].
  - cbn. eexists. split; [reflexivity|]. split; [now left|].
    split; [lia | split; [reflexivity | discriminate]].
Qed.

(** A product is augmented with the reply, and left alone when there is
    no global client. *)
Example augmentation_examples :
  exec (replying "Great value") (@augmentProductData exampleBuiltins laptop1) tt
    = (Returned (withDescription laptop1 "Great value"),
       [Asked (GetGlobalModel "gemini-2.0-flash");
        Asked (GenerateContent globalClient "gemini-2.0-flash"
                 (PromptOnly
                    (joinWith nl
                       [ "";
                         "        Based on this product:";
                         "        Name: Dell Inspiron";
                         "        Price: â‚¹1";
                         "        Rating: 1/5";
                         "        ";
                         "        Provide a one-line value proposition that highlights why this product is worth buying.";
                         "      " ])))], tt) /\
  exec withoutGlobalClient (@augmentProductData exampleBuiltins laptop1) tt
    = (Returned laptop1, [Asked (GetGlobalModel "gemini-2.0-flash")], tt).
Proof. split; reflexivity. Qed.
